(** * Natural-language query classifier and template renderer

    Shallow embedding of [parse_natural_language_query] from
    [backend/main.py], the function that turns a free-text request into a
    code template for a Cassandra driver, of the request validators and of
    the endpoint that calls it.

    Modelling conventions.
    - A Python [str] is a [string]: a sequence of Unicode code points.  A
      literal of this file is the sequence its UTF-8 text encodes.
    - [str.lower], [str.strip] and the regular expression classes \s, \w
      and \d work on all of Unicode, as in CPython 3.11 (Unicode 14.0.0);
      their tables are below.  [str.lower] includes the two code points
      of U+0130 and the final form of the capital sigma.
    - A Python [int] is an [N].  [int] on a text refuses more than 4300
      digits, the default limit of CPython; [str] on a number has the
      same limit, which no number that [int] returned can reach.
    - A call that can raise returns in [py]: a value or an exception.
    - A match object is the table of its groups; [None] is [None].
    - An f-string is the concatenation of its literal pieces and of its
      fields, line by line. *)

From Stdlib Require Import NArith Arith List Bool Lia.
From Stdlib Require Import Strings.Byte.
From Stdlib Require DecimalN DecimalFacts.
Import ListNotations.

(* ================================================================= *)
(** ** Characters and strings *)

(** A code point. *)
Definition char : Type := N.
Bind Scope N_scope with char.

Inductive string : Type :=
| EmptyString
| String (c : char) (s : string).

Fixpoint append (a b : string) : string :=
  match a with
  | EmptyString => b
  | String c t => String c (append t b)
  end.

(** [b] starts with [a]. *)
Fixpoint prefix (a b : string) {struct b} : bool :=
  match a with
  | EmptyString => true
  | String x a' =>
      match b with
      | EmptyString => false
      | String y b' => if N.eqb x y then prefix a' b' else false
      end
  end.

Module String.

Fixpoint length (s : string) : nat :=
  match s with
  | EmptyString => 0
  | String _ t => S (length t)
  end.

Fixpoint eqb (a b : string) : bool :=
  match a, b with
  | EmptyString, EmptyString => true
  | String x a', String y b' => N.eqb x y && eqb a' b'
  | _, _ => false
  end.

(** [sep.join(ls)] *)
Fixpoint concat (sep : string) (ls : list string) : string :=
  match ls with
  | [] => EmptyString
  | [x] => x
  | x :: rest => append x (append sep (concat sep rest))
  end.

End String.

(** Literals: the UTF-8 text between the quotes, decoded. *)

Definition continuation (b : byte) : option N :=
  let n := Byte.to_N b in
  if (128 <=? n)%N && (n <? 192)%N then Some (n - 128)%N else None.

Fixpoint decode_utf8 (bs : list byte) : option string :=
  match bs with
  | [] => Some EmptyString
  | b0 :: rest =>
      let n := Byte.to_N b0 in
      if (n <? 128)%N then option_map (String n) (decode_utf8 rest)
      else if (n <? 192)%N then None
      else if (n <? 224)%N then
        match rest with
        | b1 :: rest1 =>
            match continuation b1 with
            | Some c1 => option_map (String ((n - 192) * 64 + c1)%N) (decode_utf8 rest1)
            | None => None
            end
        | _ => None
        end
      else if (n <? 240)%N then
        match rest with
        | b1 :: b2 :: rest2 =>
            match continuation b1, continuation b2 with
            | Some c1, Some c2 =>
                option_map (String ((n - 224) * 4096 + c1 * 64 + c2)%N)
                  (decode_utf8 rest2)
            | _, _ => None
            end
        | _ => None
        end
      else if (n <? 248)%N then
        match rest with
        | b1 :: b2 :: b3 :: rest3 =>
            match continuation b1, continuation b2, continuation b3 with
            | Some c1, Some c2, Some c3 =>
                option_map
                  (String ((n - 240) * 262144 + c1 * 4096 + c2 * 64 + c3)%N)
                  (decode_utf8 rest3)
            | _, _, _ => None
            end
        | _ => None
        end
      else None
  end.

Definition byte_of_N (n : N) : byte :=
  match Byte.of_N n with
  | Some b => b
  | None => x00
  end.

Fixpoint encode_utf8 (s : string) : list byte :=
  match s with
  | EmptyString => []
  | String c t =>
      (if (c <? 128)%N then [byte_of_N c]
       else if (c <? 2048)%N then
         [byte_of_N (192 + c / 64); byte_of_N (128 + c mod 64)]
       else if (c <? 65536)%N then
         [byte_of_N (224 + c / 4096); byte_of_N (128 + (c / 64) mod 64);
          byte_of_N (128 + c mod 64)]
       else
         [byte_of_N (240 + c / 262144); byte_of_N (128 + (c / 4096) mod 64);
          byte_of_N (128 + (c / 64) mod 64); byte_of_N (128 + c mod 64)])
      ++ encode_utf8 t
  end.

Declare Scope str_scope.
Delimit Scope str_scope with str.
Bind Scope str_scope with string.
String Notation string decode_utf8 encode_utf8 : str_scope.
Infix "++" := append (right associativity, at level 60) : str_scope.
Infix "=?" := String.eqb (at level 70) : str_scope.
Open Scope str_scope.

(** The double quote and the line feed, used to write the templates. *)
Definition dq : string := String 34 "".
Definition nl : string := String 10 "".

Definition in_range (lo hi : N) (c : char) : bool :=
  (lo <=? c)%N && (c <=? hi)%N.

(** [c] lies in one of the ranges. *)
Definition in_ranges (c : char) (ranges : list (char * char)) : bool :=
  existsb (fun r => in_range (fst r) (snd r) c) ranges.

(* ================================================================= *)
(** ** Unicode tables *)

(** White space: the code points of [str.isspace], which are also those of the class \s. *)
Definition space_ranges : list (char * char) :=
  [
    (9, 13); (28, 32); (133, 133); (160, 160); (5760, 5760); (8192, 8202);
    (8232, 8233); (8239, 8239); (8287, 8287); (12288, 12288)
  ]%N.

(** Decimal digits, the class \d: runs of ten code points with the values 0 to 9 in order. *)
Definition digit_ranges : list (char * char) :=
  [
    (48, 57); (1632, 1641); (1776, 1785); (1984, 1993); (2406, 2415); (2534, 2543);
    (2662, 2671); (2790, 2799); (2918, 2927); (3046, 3055); (3174, 3183); (3302, 3311);
    (3430, 3439); (3558, 3567); (3664, 3673); (3792, 3801); (3872, 3881); (4160, 4169);
    (4240, 4249); (6112, 6121); (6160, 6169); (6470, 6479); (6608, 6617); (6784, 6793);
    (6800, 6809); (6992, 7001); (7088, 7097); (7232, 7241); (7248, 7257); (42528, 42537);
    (43216, 43225); (43264, 43273); (43472, 43481); (43504, 43513); (43600, 43609); (44016, 44025);
    (65296, 65305); (66720, 66729); (68912, 68921); (69734, 69743); (69872, 69881); (69942, 69951);
    (70096, 70105); (70384, 70393); (70736, 70745); (70864, 70873); (71248, 71257); (71360, 71369);
    (71472, 71481); (71904, 71913); (72016, 72025); (72784, 72793); (73040, 73049); (73120, 73129);
    (92768, 92777); (92864, 92873); (93008, 93017); (120782, 120831); (123200, 123209); (123632, 123641);
    (125264, 125273); (130032, 130041)
  ]%N.

(** Word characters, the class \w: the alphanumeric code points and the underscore. *)
Definition word_ranges : list (char * char) :=
  [
    (48, 57); (65, 90); (95, 95); (97, 122); (170, 170); (178, 179);
    (181, 181); (185, 186); (188, 190); (192, 214); (216, 246); (248, 705);
    (710, 721); (736, 740); (748, 748); (750, 750); (880, 884); (886, 887);
    (890, 893); (895, 895); (902, 902); (904, 906); (908, 908); (910, 929);
    (931, 1013); (1015, 1153); (1162, 1327); (1329, 1366); (1369, 1369); (1376, 1416);
    (1488, 1514); (1519, 1522); (1568, 1610); (1632, 1641); (1646, 1647); (1649, 1747);
    (1749, 1749); (1765, 1766); (1774, 1788); (1791, 1791); (1808, 1808); (1810, 1839);
    (1869, 1957); (1969, 1969); (1984, 2026); (2036, 2037); (2042, 2042); (2048, 2069);
    (2074, 2074); (2084, 2084); (2088, 2088); (2112, 2136); (2144, 2154); (2160, 2183);
    (2185, 2190); (2208, 2249); (2308, 2361); (2365, 2365); (2384, 2384); (2392, 2401);
    (2406, 2415); (2417, 2432); (2437, 2444); (2447, 2448); (2451, 2472); (2474, 2480);
    (2482, 2482); (2486, 2489); (2493, 2493); (2510, 2510); (2524, 2525); (2527, 2529);
    (2534, 2545); (2548, 2553); (2556, 2556); (2565, 2570); (2575, 2576); (2579, 2600);
    (2602, 2608); (2610, 2611); (2613, 2614); (2616, 2617); (2649, 2652); (2654, 2654);
    (2662, 2671); (2674, 2676); (2693, 2701); (2703, 2705); (2707, 2728); (2730, 2736);
    (2738, 2739); (2741, 2745); (2749, 2749); (2768, 2768); (2784, 2785); (2790, 2799);
    (2809, 2809); (2821, 2828); (2831, 2832); (2835, 2856); (2858, 2864); (2866, 2867);
    (2869, 2873); (2877, 2877); (2908, 2909); (2911, 2913); (2918, 2927); (2929, 2935);
    (2947, 2947); (2949, 2954); (2958, 2960); (2962, 2965); (2969, 2970); (2972, 2972);
    (2974, 2975); (2979, 2980); (2984, 2986); (2990, 3001); (3024, 3024); (3046, 3058);
    (3077, 3084); (3086, 3088); (3090, 3112); (3114, 3129); (3133, 3133); (3160, 3162);
    (3165, 3165); (3168, 3169); (3174, 3183); (3192, 3198); (3200, 3200); (3205, 3212);
    (3214, 3216); (3218, 3240); (3242, 3251); (3253, 3257); (3261, 3261); (3293, 3294);
    (3296, 3297); (3302, 3311); (3313, 3314); (3332, 3340); (3342, 3344); (3346, 3386);
    (3389, 3389); (3406, 3406); (3412, 3414); (3416, 3425); (3430, 3448); (3450, 3455);
    (3461, 3478); (3482, 3505); (3507, 3515); (3517, 3517); (3520, 3526); (3558, 3567);
    (3585, 3632); (3634, 3635); (3648, 3654); (3664, 3673); (3713, 3714); (3716, 3716);
    (3718, 3722); (3724, 3747); (3749, 3749); (3751, 3760); (3762, 3763); (3773, 3773);
    (3776, 3780); (3782, 3782); (3792, 3801); (3804, 3807); (3840, 3840); (3872, 3891);
    (3904, 3911); (3913, 3948); (3976, 3980); (4096, 4138); (4159, 4169); (4176, 4181);
    (4186, 4189); (4193, 4193); (4197, 4198); (4206, 4208); (4213, 4225); (4238, 4238);
    (4240, 4249); (4256, 4293); (4295, 4295); (4301, 4301); (4304, 4346); (4348, 4680);
    (4682, 4685); (4688, 4694); (4696, 4696); (4698, 4701); (4704, 4744); (4746, 4749);
    (4752, 4784); (4786, 4789); (4792, 4798); (4800, 4800); (4802, 4805); (4808, 4822);
    (4824, 4880); (4882, 4885); (4888, 4954); (4969, 4988); (4992, 5007); (5024, 5109);
    (5112, 5117); (5121, 5740); (5743, 5759); (5761, 5786); (5792, 5866); (5870, 5880);
    (5888, 5905); (5919, 5937); (5952, 5969); (5984, 5996); (5998, 6000); (6016, 6067);
    (6103, 6103); (6108, 6108); (6112, 6121); (6128, 6137); (6160, 6169); (6176, 6264);
    (6272, 6276); (6279, 6312); (6314, 6314); (6320, 6389); (6400, 6430); (6470, 6509);
    (6512, 6516); (6528, 6571); (6576, 6601); (6608, 6618); (6656, 6678); (6688, 6740);
    (6784, 6793); (6800, 6809); (6823, 6823); (6917, 6963); (6981, 6988); (6992, 7001);
    (7043, 7072); (7086, 7141); (7168, 7203); (7232, 7241); (7245, 7293); (7296, 7304);
    (7312, 7354); (7357, 7359); (7401, 7404); (7406, 7411); (7413, 7414); (7418, 7418);
    (7424, 7615); (7680, 7957); (7960, 7965); (7968, 8005); (8008, 8013); (8016, 8023);
    (8025, 8025); (8027, 8027); (8029, 8029); (8031, 8061); (8064, 8116); (8118, 8124);
    (8126, 8126); (8130, 8132); (8134, 8140); (8144, 8147); (8150, 8155); (8160, 8172);
    (8178, 8180); (8182, 8188); (8304, 8305); (8308, 8313); (8319, 8329); (8336, 8348);
    (8450, 8450); (8455, 8455); (8458, 8467); (8469, 8469); (8473, 8477); (8484, 8484);
    (8486, 8486); (8488, 8488); (8490, 8493); (8495, 8505); (8508, 8511); (8517, 8521);
    (8526, 8526); (8528, 8585); (9312, 9371); (9450, 9471); (10102, 10131); (11264, 11492);
    (11499, 11502); (11506, 11507); (11517, 11517); (11520, 11557); (11559, 11559); (11565, 11565);
    (11568, 11623); (11631, 11631); (11648, 11670); (11680, 11686); (11688, 11694); (11696, 11702);
    (11704, 11710); (11712, 11718); (11720, 11726); (11728, 11734); (11736, 11742); (11823, 11823);
    (12293, 12295); (12321, 12329); (12337, 12341); (12344, 12348); (12353, 12438); (12445, 12447);
    (12449, 12538); (12540, 12543); (12549, 12591); (12593, 12686); (12690, 12693); (12704, 12735);
    (12784, 12799); (12832, 12841); (12872, 12879); (12881, 12895); (12928, 12937); (12977, 12991);
    (13312, 19903); (19968, 42124); (42192, 42237); (42240, 42508); (42512, 42539); (42560, 42606);
    (42623, 42653); (42656, 42735); (42775, 42783); (42786, 42888); (42891, 42954); (42960, 42961);
    (42963, 42963); (42965, 42969); (42994, 43009); (43011, 43013); (43015, 43018); (43020, 43042);
    (43056, 43061); (43072, 43123); (43138, 43187); (43216, 43225); (43250, 43255); (43259, 43259);
    (43261, 43262); (43264, 43301); (43312, 43334); (43360, 43388); (43396, 43442); (43471, 43481);
    (43488, 43492); (43494, 43518); (43520, 43560); (43584, 43586); (43588, 43595); (43600, 43609);
    (43616, 43638); (43642, 43642); (43646, 43695); (43697, 43697); (43701, 43702); (43705, 43709);
    (43712, 43712); (43714, 43714); (43739, 43741); (43744, 43754); (43762, 43764); (43777, 43782);
    (43785, 43790); (43793, 43798); (43808, 43814); (43816, 43822); (43824, 43866); (43868, 43881);
    (43888, 44002); (44016, 44025); (44032, 55203); (55216, 55238); (55243, 55291); (63744, 64109);
    (64112, 64217); (64256, 64262); (64275, 64279); (64285, 64285); (64287, 64296); (64298, 64310);
    (64312, 64316); (64318, 64318); (64320, 64321); (64323, 64324); (64326, 64433); (64467, 64829);
    (64848, 64911); (64914, 64967); (65008, 65019); (65136, 65140); (65142, 65276); (65296, 65305);
    (65313, 65338); (65345, 65370); (65382, 65470); (65474, 65479); (65482, 65487); (65490, 65495);
    (65498, 65500); (65536, 65547); (65549, 65574); (65576, 65594); (65596, 65597); (65599, 65613);
    (65616, 65629); (65664, 65786); (65799, 65843); (65856, 65912); (65930, 65931); (66176, 66204);
    (66208, 66256); (66273, 66299); (66304, 66339); (66349, 66378); (66384, 66421); (66432, 66461);
    (66464, 66499); (66504, 66511); (66513, 66517); (66560, 66717); (66720, 66729); (66736, 66771);
    (66776, 66811); (66816, 66855); (66864, 66915); (66928, 66938); (66940, 66954); (66956, 66962);
    (66964, 66965); (66967, 66977); (66979, 66993); (66995, 67001); (67003, 67004); (67072, 67382);
    (67392, 67413); (67424, 67431); (67456, 67461); (67463, 67504); (67506, 67514); (67584, 67589);
    (67592, 67592); (67594, 67637); (67639, 67640); (67644, 67644); (67647, 67669); (67672, 67702);
    (67705, 67742); (67751, 67759); (67808, 67826); (67828, 67829); (67835, 67867); (67872, 67897);
    (67968, 68023); (68028, 68047); (68050, 68096); (68112, 68115); (68117, 68119); (68121, 68149);
    (68160, 68168); (68192, 68222); (68224, 68255); (68288, 68295); (68297, 68324); (68331, 68335);
    (68352, 68405); (68416, 68437); (68440, 68466); (68472, 68497); (68521, 68527); (68608, 68680);
    (68736, 68786); (68800, 68850); (68858, 68899); (68912, 68921); (69216, 69246); (69248, 69289);
    (69296, 69297); (69376, 69415); (69424, 69445); (69457, 69460); (69488, 69505); (69552, 69579);
    (69600, 69622); (69635, 69687); (69714, 69743); (69745, 69746); (69749, 69749); (69763, 69807);
    (69840, 69864); (69872, 69881); (69891, 69926); (69942, 69951); (69956, 69956); (69959, 69959);
    (69968, 70002); (70006, 70006); (70019, 70066); (70081, 70084); (70096, 70106); (70108, 70108);
    (70113, 70132); (70144, 70161); (70163, 70187); (70272, 70278); (70280, 70280); (70282, 70285);
    (70287, 70301); (70303, 70312); (70320, 70366); (70384, 70393); (70405, 70412); (70415, 70416);
    (70419, 70440); (70442, 70448); (70450, 70451); (70453, 70457); (70461, 70461); (70480, 70480);
    (70493, 70497); (70656, 70708); (70727, 70730); (70736, 70745); (70751, 70753); (70784, 70831);
    (70852, 70853); (70855, 70855); (70864, 70873); (71040, 71086); (71128, 71131); (71168, 71215);
    (71236, 71236); (71248, 71257); (71296, 71338); (71352, 71352); (71360, 71369); (71424, 71450);
    (71472, 71483); (71488, 71494); (71680, 71723); (71840, 71922); (71935, 71942); (71945, 71945);
    (71948, 71955); (71957, 71958); (71960, 71983); (71999, 71999); (72001, 72001); (72016, 72025);
    (72096, 72103); (72106, 72144); (72161, 72161); (72163, 72163); (72192, 72192); (72203, 72242);
    (72250, 72250); (72272, 72272); (72284, 72329); (72349, 72349); (72368, 72440); (72704, 72712);
    (72714, 72750); (72768, 72768); (72784, 72812); (72818, 72847); (72960, 72966); (72968, 72969);
    (72971, 73008); (73030, 73030); (73040, 73049); (73056, 73061); (73063, 73064); (73066, 73097);
    (73112, 73112); (73120, 73129); (73440, 73458); (73648, 73648); (73664, 73684); (73728, 74649);
    (74752, 74862); (74880, 75075); (77712, 77808); (77824, 78894); (82944, 83526); (92160, 92728);
    (92736, 92766); (92768, 92777); (92784, 92862); (92864, 92873); (92880, 92909); (92928, 92975);
    (92992, 92995); (93008, 93017); (93019, 93025); (93027, 93047); (93053, 93071); (93760, 93846);
    (93952, 94026); (94032, 94032); (94099, 94111); (94176, 94177); (94179, 94179); (94208, 100343);
    (100352, 101589); (101632, 101640); (110576, 110579); (110581, 110587); (110589, 110590); (110592, 110882);
    (110928, 110930); (110948, 110951); (110960, 111355); (113664, 113770); (113776, 113788); (113792, 113800);
    (113808, 113817); (119520, 119539); (119648, 119672); (119808, 119892); (119894, 119964); (119966, 119967);
    (119970, 119970); (119973, 119974); (119977, 119980); (119982, 119993); (119995, 119995); (119997, 120003);
    (120005, 120069); (120071, 120074); (120077, 120084); (120086, 120092); (120094, 120121); (120123, 120126);
    (120128, 120132); (120134, 120134); (120138, 120144); (120146, 120485); (120488, 120512); (120514, 120538);
    (120540, 120570); (120572, 120596); (120598, 120628); (120630, 120654); (120656, 120686); (120688, 120712);
    (120714, 120744); (120746, 120770); (120772, 120779); (120782, 120831); (122624, 122654); (123136, 123180);
    (123191, 123197); (123200, 123209); (123214, 123214); (123536, 123565); (123584, 123627); (123632, 123641);
    (124896, 124902); (124904, 124907); (124909, 124910); (124912, 124926); (124928, 125124); (125127, 125135);
    (125184, 125251); (125259, 125259); (125264, 125273); (126065, 126123); (126125, 126127); (126129, 126132);
    (126209, 126253); (126255, 126269); (126464, 126467); (126469, 126495); (126497, 126498); (126500, 126500);
    (126503, 126503); (126505, 126514); (126516, 126519); (126521, 126521); (126523, 126523); (126530, 126530);
    (126535, 126535); (126537, 126537); (126539, 126539); (126541, 126543); (126545, 126546); (126548, 126548);
    (126551, 126551); (126553, 126553); (126555, 126555); (126557, 126557); (126559, 126559); (126561, 126562);
    (126564, 126564); (126567, 126570); (126572, 126578); (126580, 126583); (126585, 126588); (126590, 126590);
    (126592, 126601); (126603, 126619); (126625, 126627); (126629, 126633); (126635, 126651); (127232, 127244);
    (130032, 130041); (131072, 173791); (173824, 177976); (177984, 178205); (178208, 183969); (183984, 191456);
    (194560, 195101); (196608, 201546)
  ]%N.

(** Code points with the property Case_Ignorable. *)
Definition case_ignorable_ranges : list (char * char) :=
  [
    (39, 39); (46, 46); (58, 58); (94, 94); (96, 96); (168, 168);
    (173, 173); (175, 175); (180, 180); (183, 184); (688, 879); (884, 885);
    (890, 890); (900, 901); (903, 903); (1155, 1161); (1369, 1369); (1375, 1375);
    (1425, 1469); (1471, 1471); (1473, 1474); (1476, 1477); (1479, 1479); (1524, 1524);
    (1536, 1541); (1552, 1562); (1564, 1564); (1600, 1600); (1611, 1631); (1648, 1648);
    (1750, 1757); (1759, 1768); (1770, 1773); (1807, 1807); (1809, 1809); (1840, 1866);
    (1958, 1968); (2027, 2037); (2042, 2042); (2045, 2045); (2070, 2093); (2137, 2139);
    (2184, 2184); (2192, 2193); (2200, 2207); (2249, 2306); (2362, 2362); (2364, 2364);
    (2369, 2376); (2381, 2381); (2385, 2391); (2402, 2403); (2417, 2417); (2433, 2433);
    (2492, 2492); (2497, 2500); (2509, 2509); (2530, 2531); (2558, 2558); (2561, 2562);
    (2620, 2620); (2625, 2626); (2631, 2632); (2635, 2637); (2641, 2641); (2672, 2673);
    (2677, 2677); (2689, 2690); (2748, 2748); (2753, 2757); (2759, 2760); (2765, 2765);
    (2786, 2787); (2810, 2815); (2817, 2817); (2876, 2876); (2879, 2879); (2881, 2884);
    (2893, 2893); (2901, 2902); (2914, 2915); (2946, 2946); (3008, 3008); (3021, 3021);
    (3072, 3072); (3076, 3076); (3132, 3132); (3134, 3136); (3142, 3144); (3146, 3149);
    (3157, 3158); (3170, 3171); (3201, 3201); (3260, 3260); (3263, 3263); (3270, 3270);
    (3276, 3277); (3298, 3299); (3328, 3329); (3387, 3388); (3393, 3396); (3405, 3405);
    (3426, 3427); (3457, 3457); (3530, 3530); (3538, 3540); (3542, 3542); (3633, 3633);
    (3636, 3642); (3654, 3662); (3761, 3761); (3764, 3772); (3782, 3782); (3784, 3789);
    (3864, 3865); (3893, 3893); (3895, 3895); (3897, 3897); (3953, 3966); (3968, 3972);
    (3974, 3975); (3981, 3991); (3993, 4028); (4038, 4038); (4141, 4144); (4146, 4151);
    (4153, 4154); (4157, 4158); (4184, 4185); (4190, 4192); (4209, 4212); (4226, 4226);
    (4229, 4230); (4237, 4237); (4253, 4253); (4348, 4348); (4957, 4959); (5906, 5908);
    (5938, 5939); (5970, 5971); (6002, 6003); (6068, 6069); (6071, 6077); (6086, 6086);
    (6089, 6099); (6103, 6103); (6109, 6109); (6155, 6159); (6211, 6211); (6277, 6278);
    (6313, 6313); (6432, 6434); (6439, 6440); (6450, 6450); (6457, 6459); (6679, 6680);
    (6683, 6683); (6742, 6742); (6744, 6750); (6752, 6752); (6754, 6754); (6757, 6764);
    (6771, 6780); (6783, 6783); (6823, 6823); (6832, 6862); (6912, 6915); (6964, 6964);
    (6966, 6970); (6972, 6972); (6978, 6978); (7019, 7027); (7040, 7041); (7074, 7077);
    (7080, 7081); (7083, 7085); (7142, 7142); (7144, 7145); (7149, 7149); (7151, 7153);
    (7212, 7219); (7222, 7223); (7288, 7293); (7376, 7378); (7380, 7392); (7394, 7400);
    (7405, 7405); (7412, 7412); (7416, 7417); (7468, 7530); (7544, 7544); (7579, 7679);
    (8125, 8125); (8127, 8129); (8141, 8143); (8157, 8159); (8173, 8175); (8189, 8190);
    (8203, 8207); (8216, 8217); (8228, 8228); (8231, 8231); (8234, 8238); (8288, 8292);
    (8294, 8303); (8305, 8305); (8319, 8319); (8336, 8348); (8400, 8432); (11388, 11389);
    (11503, 11505); (11631, 11631); (11647, 11647); (11744, 11775); (11823, 11823); (12293, 12293);
    (12330, 12333); (12337, 12341); (12347, 12347); (12441, 12446); (12540, 12542); (40981, 40981);
    (42232, 42237); (42508, 42508); (42607, 42610); (42612, 42621); (42623, 42623); (42652, 42655);
    (42736, 42737); (42752, 42785); (42864, 42864); (42888, 42890); (42994, 42996); (43000, 43001);
    (43010, 43010); (43014, 43014); (43019, 43019); (43045, 43046); (43052, 43052); (43204, 43205);
    (43232, 43249); (43263, 43263); (43302, 43309); (43335, 43345); (43392, 43394); (43443, 43443);
    (43446, 43449); (43452, 43453); (43471, 43471); (43493, 43494); (43561, 43566); (43569, 43570);
    (43573, 43574); (43587, 43587); (43596, 43596); (43632, 43632); (43644, 43644); (43696, 43696);
    (43698, 43700); (43703, 43704); (43710, 43711); (43713, 43713); (43741, 43741); (43756, 43757);
    (43763, 43764); (43766, 43766); (43867, 43871); (43881, 43883); (44005, 44005); (44008, 44008);
    (44013, 44013); (64286, 64286); (64434, 64450); (65024, 65039); (65043, 65043); (65056, 65071);
    (65106, 65106); (65109, 65109); (65279, 65279); (65287, 65287); (65294, 65294); (65306, 65306);
    (65342, 65342); (65344, 65344); (65392, 65392); (65438, 65439); (65507, 65507); (65529, 65531);
    (66045, 66045); (66272, 66272); (66422, 66426); (67456, 67461); (67463, 67504); (67506, 67514);
    (68097, 68099); (68101, 68102); (68108, 68111); (68152, 68154); (68159, 68159); (68325, 68326);
    (68900, 68903); (69291, 69292); (69446, 69456); (69506, 69509); (69633, 69633); (69688, 69702);
    (69744, 69744); (69747, 69748); (69759, 69761); (69811, 69814); (69817, 69818); (69821, 69821);
    (69826, 69826); (69837, 69837); (69888, 69890); (69927, 69931); (69933, 69940); (70003, 70003);
    (70016, 70017); (70070, 70078); (70089, 70092); (70095, 70095); (70191, 70193); (70196, 70196);
    (70198, 70199); (70206, 70206); (70367, 70367); (70371, 70378); (70400, 70401); (70459, 70460);
    (70464, 70464); (70502, 70508); (70512, 70516); (70712, 70719); (70722, 70724); (70726, 70726);
    (70750, 70750); (70835, 70840); (70842, 70842); (70847, 70848); (70850, 70851); (71090, 71093);
    (71100, 71101); (71103, 71104); (71132, 71133); (71219, 71226); (71229, 71229); (71231, 71232);
    (71339, 71339); (71341, 71341); (71344, 71349); (71351, 71351); (71453, 71455); (71458, 71461);
    (71463, 71467); (71727, 71735); (71737, 71738); (71995, 71996); (71998, 71998); (72003, 72003);
    (72148, 72151); (72154, 72155); (72160, 72160); (72193, 72202); (72243, 72248); (72251, 72254);
    (72263, 72263); (72273, 72278); (72281, 72283); (72330, 72342); (72344, 72345); (72752, 72758);
    (72760, 72765); (72767, 72767); (72850, 72871); (72874, 72880); (72882, 72883); (72885, 72886);
    (73009, 73014); (73018, 73018); (73020, 73021); (73023, 73029); (73031, 73031); (73104, 73105);
    (73109, 73109); (73111, 73111); (73459, 73460); (78896, 78904); (92912, 92916); (92976, 92982);
    (92992, 92995); (94031, 94031); (94095, 94111); (94176, 94177); (94179, 94180); (110576, 110579);
    (110581, 110587); (110589, 110590); (113821, 113822); (113824, 113827); (118528, 118573); (118576, 118598);
    (119143, 119145); (119155, 119170); (119173, 119179); (119210, 119213); (119362, 119364); (121344, 121398);
    (121403, 121452); (121461, 121461); (121476, 121476); (121499, 121503); (121505, 121519); (122880, 122886);
    (122888, 122904); (122907, 122913); (122915, 122916); (122918, 122922); (123184, 123197); (123566, 123566);
    (123628, 123631); (125136, 125142); (125252, 125259); (127995, 127999); (917505, 917505); (917536, 917631);
    (917760, 917999)
  ]%N.

(** Code points with the property Cased. *)
Definition cased_ranges : list (char * char) :=
  [
    (65, 90); (97, 122); (170, 170); (181, 181); (186, 186); (192, 214);
    (216, 246); (248, 442); (444, 447); (452, 659); (661, 696); (704, 705);
    (736, 740); (837, 837); (880, 883); (886, 887); (890, 893); (895, 895);
    (902, 902); (904, 906); (908, 908); (910, 929); (931, 1013); (1015, 1153);
    (1162, 1327); (1329, 1366); (1376, 1416); (4256, 4293); (4295, 4295); (4301, 4301);
    (4304, 4346); (4349, 4351); (5024, 5109); (5112, 5117); (7296, 7304); (7312, 7354);
    (7357, 7359); (7424, 7615); (7680, 7957); (7960, 7965); (7968, 8005); (8008, 8013);
    (8016, 8023); (8025, 8025); (8027, 8027); (8029, 8029); (8031, 8061); (8064, 8116);
    (8118, 8124); (8126, 8126); (8130, 8132); (8134, 8140); (8144, 8147); (8150, 8155);
    (8160, 8172); (8178, 8180); (8182, 8188); (8305, 8305); (8319, 8319); (8336, 8348);
    (8450, 8450); (8455, 8455); (8458, 8467); (8469, 8469); (8473, 8477); (8484, 8484);
    (8486, 8486); (8488, 8488); (8490, 8493); (8495, 8500); (8505, 8505); (8508, 8511);
    (8517, 8521); (8526, 8526); (8544, 8575); (8579, 8580); (9398, 9449); (11264, 11492);
    (11499, 11502); (11506, 11507); (11520, 11557); (11559, 11559); (11565, 11565); (42560, 42605);
    (42624, 42653); (42786, 42887); (42891, 42894); (42896, 42954); (42960, 42961); (42963, 42963);
    (42965, 42969); (42997, 42998); (43000, 43002); (43824, 43866); (43868, 43880); (43888, 43967);
    (64256, 64262); (64275, 64279); (65313, 65338); (65345, 65370); (66560, 66639); (66736, 66771);
    (66776, 66811); (66928, 66938); (66940, 66954); (66956, 66962); (66964, 66965); (66967, 66977);
    (66979, 66993); (66995, 67001); (67003, 67004); (67456, 67456); (67459, 67461); (67463, 67504);
    (67506, 67514); (68736, 68786); (68800, 68850); (71840, 71903); (93760, 93823); (119808, 119892);
    (119894, 119964); (119966, 119967); (119970, 119970); (119973, 119974); (119977, 119980); (119982, 119993);
    (119995, 119995); (119997, 120003); (120005, 120069); (120071, 120074); (120077, 120084); (120086, 120092);
    (120094, 120121); (120123, 120126); (120128, 120132); (120134, 120134); (120138, 120144); (120146, 120485);
    (120488, 120512); (120514, 120538); (120540, 120570); (120572, 120596); (120598, 120628); (120630, 120654);
    (120656, 120686); (120688, 120712); (120714, 120744); (120746, 120770); (120772, 120779); (122624, 122633);
    (122635, 122654); (125184, 125251); (127280, 127305); (127312, 127337); (127344, 127369)
  ]%N.

(** The code points that [str.lower] changes, each with its lower-case
    code point.  U+0130, alone in having two, is left to [lower_char]. *)
Definition lower_table : list (char * char) :=
  [
    (65, 97); (66, 98); (67, 99); (68, 100); (69, 101); (70, 102);
    (71, 103); (72, 104); (73, 105); (74, 106); (75, 107); (76, 108);
    (77, 109); (78, 110); (79, 111); (80, 112); (81, 113); (82, 114);
    (83, 115); (84, 116); (85, 117); (86, 118); (87, 119); (88, 120);
    (89, 121); (90, 122); (192, 224); (193, 225); (194, 226); (195, 227);
    (196, 228); (197, 229); (198, 230); (199, 231); (200, 232); (201, 233);
    (202, 234); (203, 235); (204, 236); (205, 237); (206, 238); (207, 239);
    (208, 240); (209, 241); (210, 242); (211, 243); (212, 244); (213, 245);
    (214, 246); (216, 248); (217, 249); (218, 250); (219, 251); (220, 252);
    (221, 253); (222, 254); (256, 257); (258, 259); (260, 261); (262, 263);
    (264, 265); (266, 267); (268, 269); (270, 271); (272, 273); (274, 275);
    (276, 277); (278, 279); (280, 281); (282, 283); (284, 285); (286, 287);
    (288, 289); (290, 291); (292, 293); (294, 295); (296, 297); (298, 299);
    (300, 301); (302, 303); (306, 307); (308, 309); (310, 311); (313, 314);
    (315, 316); (317, 318); (319, 320); (321, 322); (323, 324); (325, 326);
    (327, 328); (330, 331); (332, 333); (334, 335); (336, 337); (338, 339);
    (340, 341); (342, 343); (344, 345); (346, 347); (348, 349); (350, 351);
    (352, 353); (354, 355); (356, 357); (358, 359); (360, 361); (362, 363);
    (364, 365); (366, 367); (368, 369); (370, 371); (372, 373); (374, 375);
    (376, 255); (377, 378); (379, 380); (381, 382); (385, 595); (386, 387);
    (388, 389); (390, 596); (391, 392); (393, 598); (394, 599); (395, 396);
    (398, 477); (399, 601); (400, 603); (401, 402); (403, 608); (404, 611);
    (406, 617); (407, 616); (408, 409); (412, 623); (413, 626); (415, 629);
    (416, 417); (418, 419); (420, 421); (422, 640); (423, 424); (425, 643);
    (428, 429); (430, 648); (431, 432); (433, 650); (434, 651); (435, 436);
    (437, 438); (439, 658); (440, 441); (444, 445); (452, 454); (453, 454);
    (455, 457); (456, 457); (458, 460); (459, 460); (461, 462); (463, 464);
    (465, 466); (467, 468); (469, 470); (471, 472); (473, 474); (475, 476);
    (478, 479); (480, 481); (482, 483); (484, 485); (486, 487); (488, 489);
    (490, 491); (492, 493); (494, 495); (497, 499); (498, 499); (500, 501);
    (502, 405); (503, 447); (504, 505); (506, 507); (508, 509); (510, 511);
    (512, 513); (514, 515); (516, 517); (518, 519); (520, 521); (522, 523);
    (524, 525); (526, 527); (528, 529); (530, 531); (532, 533); (534, 535);
    (536, 537); (538, 539); (540, 541); (542, 543); (544, 414); (546, 547);
    (548, 549); (550, 551); (552, 553); (554, 555); (556, 557); (558, 559);
    (560, 561); (562, 563); (570, 11365); (571, 572); (573, 410); (574, 11366);
    (577, 578); (579, 384); (580, 649); (581, 652); (582, 583); (584, 585);
    (586, 587); (588, 589); (590, 591); (880, 881); (882, 883); (886, 887);
    (895, 1011); (902, 940); (904, 941); (905, 942); (906, 943); (908, 972);
    (910, 973); (911, 974); (913, 945); (914, 946); (915, 947); (916, 948);
    (917, 949); (918, 950); (919, 951); (920, 952); (921, 953); (922, 954);
    (923, 955); (924, 956); (925, 957); (926, 958); (927, 959); (928, 960);
    (929, 961); (931, 963); (932, 964); (933, 965); (934, 966); (935, 967);
    (936, 968); (937, 969); (938, 970); (939, 971); (975, 983); (984, 985);
    (986, 987); (988, 989); (990, 991); (992, 993); (994, 995); (996, 997);
    (998, 999); (1000, 1001); (1002, 1003); (1004, 1005); (1006, 1007); (1012, 952);
    (1015, 1016); (1017, 1010); (1018, 1019); (1021, 891); (1022, 892); (1023, 893);
    (1024, 1104); (1025, 1105); (1026, 1106); (1027, 1107); (1028, 1108); (1029, 1109);
    (1030, 1110); (1031, 1111); (1032, 1112); (1033, 1113); (1034, 1114); (1035, 1115);
    (1036, 1116); (1037, 1117); (1038, 1118); (1039, 1119); (1040, 1072); (1041, 1073);
    (1042, 1074); (1043, 1075); (1044, 1076); (1045, 1077); (1046, 1078); (1047, 1079);
    (1048, 1080); (1049, 1081); (1050, 1082); (1051, 1083); (1052, 1084); (1053, 1085);
    (1054, 1086); (1055, 1087); (1056, 1088); (1057, 1089); (1058, 1090); (1059, 1091);
    (1060, 1092); (1061, 1093); (1062, 1094); (1063, 1095); (1064, 1096); (1065, 1097);
    (1066, 1098); (1067, 1099); (1068, 1100); (1069, 1101); (1070, 1102); (1071, 1103);
    (1120, 1121); (1122, 1123); (1124, 1125); (1126, 1127); (1128, 1129); (1130, 1131);
    (1132, 1133); (1134, 1135); (1136, 1137); (1138, 1139); (1140, 1141); (1142, 1143);
    (1144, 1145); (1146, 1147); (1148, 1149); (1150, 1151); (1152, 1153); (1162, 1163);
    (1164, 1165); (1166, 1167); (1168, 1169); (1170, 1171); (1172, 1173); (1174, 1175);
    (1176, 1177); (1178, 1179); (1180, 1181); (1182, 1183); (1184, 1185); (1186, 1187);
    (1188, 1189); (1190, 1191); (1192, 1193); (1194, 1195); (1196, 1197); (1198, 1199);
    (1200, 1201); (1202, 1203); (1204, 1205); (1206, 1207); (1208, 1209); (1210, 1211);
    (1212, 1213); (1214, 1215); (1216, 1231); (1217, 1218); (1219, 1220); (1221, 1222);
    (1223, 1224); (1225, 1226); (1227, 1228); (1229, 1230); (1232, 1233); (1234, 1235);
    (1236, 1237); (1238, 1239); (1240, 1241); (1242, 1243); (1244, 1245); (1246, 1247);
    (1248, 1249); (1250, 1251); (1252, 1253); (1254, 1255); (1256, 1257); (1258, 1259);
    (1260, 1261); (1262, 1263); (1264, 1265); (1266, 1267); (1268, 1269); (1270, 1271);
    (1272, 1273); (1274, 1275); (1276, 1277); (1278, 1279); (1280, 1281); (1282, 1283);
    (1284, 1285); (1286, 1287); (1288, 1289); (1290, 1291); (1292, 1293); (1294, 1295);
    (1296, 1297); (1298, 1299); (1300, 1301); (1302, 1303); (1304, 1305); (1306, 1307);
    (1308, 1309); (1310, 1311); (1312, 1313); (1314, 1315); (1316, 1317); (1318, 1319);
    (1320, 1321); (1322, 1323); (1324, 1325); (1326, 1327); (1329, 1377); (1330, 1378);
    (1331, 1379); (1332, 1380); (1333, 1381); (1334, 1382); (1335, 1383); (1336, 1384);
    (1337, 1385); (1338, 1386); (1339, 1387); (1340, 1388); (1341, 1389); (1342, 1390);
    (1343, 1391); (1344, 1392); (1345, 1393); (1346, 1394); (1347, 1395); (1348, 1396);
    (1349, 1397); (1350, 1398); (1351, 1399); (1352, 1400); (1353, 1401); (1354, 1402);
    (1355, 1403); (1356, 1404); (1357, 1405); (1358, 1406); (1359, 1407); (1360, 1408);
    (1361, 1409); (1362, 1410); (1363, 1411); (1364, 1412); (1365, 1413); (1366, 1414);
    (4256, 11520); (4257, 11521); (4258, 11522); (4259, 11523); (4260, 11524); (4261, 11525);
    (4262, 11526); (4263, 11527); (4264, 11528); (4265, 11529); (4266, 11530); (4267, 11531);
    (4268, 11532); (4269, 11533); (4270, 11534); (4271, 11535); (4272, 11536); (4273, 11537);
    (4274, 11538); (4275, 11539); (4276, 11540); (4277, 11541); (4278, 11542); (4279, 11543);
    (4280, 11544); (4281, 11545); (4282, 11546); (4283, 11547); (4284, 11548); (4285, 11549);
    (4286, 11550); (4287, 11551); (4288, 11552); (4289, 11553); (4290, 11554); (4291, 11555);
    (4292, 11556); (4293, 11557); (4295, 11559); (4301, 11565); (5024, 43888); (5025, 43889);
    (5026, 43890); (5027, 43891); (5028, 43892); (5029, 43893); (5030, 43894); (5031, 43895);
    (5032, 43896); (5033, 43897); (5034, 43898); (5035, 43899); (5036, 43900); (5037, 43901);
    (5038, 43902); (5039, 43903); (5040, 43904); (5041, 43905); (5042, 43906); (5043, 43907);
    (5044, 43908); (5045, 43909); (5046, 43910); (5047, 43911); (5048, 43912); (5049, 43913);
    (5050, 43914); (5051, 43915); (5052, 43916); (5053, 43917); (5054, 43918); (5055, 43919);
    (5056, 43920); (5057, 43921); (5058, 43922); (5059, 43923); (5060, 43924); (5061, 43925);
    (5062, 43926); (5063, 43927); (5064, 43928); (5065, 43929); (5066, 43930); (5067, 43931);
    (5068, 43932); (5069, 43933); (5070, 43934); (5071, 43935); (5072, 43936); (5073, 43937);
    (5074, 43938); (5075, 43939); (5076, 43940); (5077, 43941); (5078, 43942); (5079, 43943);
    (5080, 43944); (5081, 43945); (5082, 43946); (5083, 43947); (5084, 43948); (5085, 43949);
    (5086, 43950); (5087, 43951); (5088, 43952); (5089, 43953); (5090, 43954); (5091, 43955);
    (5092, 43956); (5093, 43957); (5094, 43958); (5095, 43959); (5096, 43960); (5097, 43961);
    (5098, 43962); (5099, 43963); (5100, 43964); (5101, 43965); (5102, 43966); (5103, 43967);
    (5104, 5112); (5105, 5113); (5106, 5114); (5107, 5115); (5108, 5116); (5109, 5117);
    (7312, 4304); (7313, 4305); (7314, 4306); (7315, 4307); (7316, 4308); (7317, 4309);
    (7318, 4310); (7319, 4311); (7320, 4312); (7321, 4313); (7322, 4314); (7323, 4315);
    (7324, 4316); (7325, 4317); (7326, 4318); (7327, 4319); (7328, 4320); (7329, 4321);
    (7330, 4322); (7331, 4323); (7332, 4324); (7333, 4325); (7334, 4326); (7335, 4327);
    (7336, 4328); (7337, 4329); (7338, 4330); (7339, 4331); (7340, 4332); (7341, 4333);
    (7342, 4334); (7343, 4335); (7344, 4336); (7345, 4337); (7346, 4338); (7347, 4339);
    (7348, 4340); (7349, 4341); (7350, 4342); (7351, 4343); (7352, 4344); (7353, 4345);
    (7354, 4346); (7357, 4349); (7358, 4350); (7359, 4351); (7680, 7681); (7682, 7683);
    (7684, 7685); (7686, 7687); (7688, 7689); (7690, 7691); (7692, 7693); (7694, 7695);
    (7696, 7697); (7698, 7699); (7700, 7701); (7702, 7703); (7704, 7705); (7706, 7707);
    (7708, 7709); (7710, 7711); (7712, 7713); (7714, 7715); (7716, 7717); (7718, 7719);
    (7720, 7721); (7722, 7723); (7724, 7725); (7726, 7727); (7728, 7729); (7730, 7731);
    (7732, 7733); (7734, 7735); (7736, 7737); (7738, 7739); (7740, 7741); (7742, 7743);
    (7744, 7745); (7746, 7747); (7748, 7749); (7750, 7751); (7752, 7753); (7754, 7755);
    (7756, 7757); (7758, 7759); (7760, 7761); (7762, 7763); (7764, 7765); (7766, 7767);
    (7768, 7769); (7770, 7771); (7772, 7773); (7774, 7775); (7776, 7777); (7778, 7779);
    (7780, 7781); (7782, 7783); (7784, 7785); (7786, 7787); (7788, 7789); (7790, 7791);
    (7792, 7793); (7794, 7795); (7796, 7797); (7798, 7799); (7800, 7801); (7802, 7803);
    (7804, 7805); (7806, 7807); (7808, 7809); (7810, 7811); (7812, 7813); (7814, 7815);
    (7816, 7817); (7818, 7819); (7820, 7821); (7822, 7823); (7824, 7825); (7826, 7827);
    (7828, 7829); (7838, 223); (7840, 7841); (7842, 7843); (7844, 7845); (7846, 7847);
    (7848, 7849); (7850, 7851); (7852, 7853); (7854, 7855); (7856, 7857); (7858, 7859);
    (7860, 7861); (7862, 7863); (7864, 7865); (7866, 7867); (7868, 7869); (7870, 7871);
    (7872, 7873); (7874, 7875); (7876, 7877); (7878, 7879); (7880, 7881); (7882, 7883);
    (7884, 7885); (7886, 7887); (7888, 7889); (7890, 7891); (7892, 7893); (7894, 7895);
    (7896, 7897); (7898, 7899); (7900, 7901); (7902, 7903); (7904, 7905); (7906, 7907);
    (7908, 7909); (7910, 7911); (7912, 7913); (7914, 7915); (7916, 7917); (7918, 7919);
    (7920, 7921); (7922, 7923); (7924, 7925); (7926, 7927); (7928, 7929); (7930, 7931);
    (7932, 7933); (7934, 7935); (7944, 7936); (7945, 7937); (7946, 7938); (7947, 7939);
    (7948, 7940); (7949, 7941); (7950, 7942); (7951, 7943); (7960, 7952); (7961, 7953);
    (7962, 7954); (7963, 7955); (7964, 7956); (7965, 7957); (7976, 7968); (7977, 7969);
    (7978, 7970); (7979, 7971); (7980, 7972); (7981, 7973); (7982, 7974); (7983, 7975);
    (7992, 7984); (7993, 7985); (7994, 7986); (7995, 7987); (7996, 7988); (7997, 7989);
    (7998, 7990); (7999, 7991); (8008, 8000); (8009, 8001); (8010, 8002); (8011, 8003);
    (8012, 8004); (8013, 8005); (8025, 8017); (8027, 8019); (8029, 8021); (8031, 8023);
    (8040, 8032); (8041, 8033); (8042, 8034); (8043, 8035); (8044, 8036); (8045, 8037);
    (8046, 8038); (8047, 8039); (8072, 8064); (8073, 8065); (8074, 8066); (8075, 8067);
    (8076, 8068); (8077, 8069); (8078, 8070); (8079, 8071); (8088, 8080); (8089, 8081);
    (8090, 8082); (8091, 8083); (8092, 8084); (8093, 8085); (8094, 8086); (8095, 8087);
    (8104, 8096); (8105, 8097); (8106, 8098); (8107, 8099); (8108, 8100); (8109, 8101);
    (8110, 8102); (8111, 8103); (8120, 8112); (8121, 8113); (8122, 8048); (8123, 8049);
    (8124, 8115); (8136, 8050); (8137, 8051); (8138, 8052); (8139, 8053); (8140, 8131);
    (8152, 8144); (8153, 8145); (8154, 8054); (8155, 8055); (8168, 8160); (8169, 8161);
    (8170, 8058); (8171, 8059); (8172, 8165); (8184, 8056); (8185, 8057); (8186, 8060);
    (8187, 8061); (8188, 8179); (8486, 969); (8490, 107); (8491, 229); (8498, 8526);
    (8544, 8560); (8545, 8561); (8546, 8562); (8547, 8563); (8548, 8564); (8549, 8565);
    (8550, 8566); (8551, 8567); (8552, 8568); (8553, 8569); (8554, 8570); (8555, 8571);
    (8556, 8572); (8557, 8573); (8558, 8574); (8559, 8575); (8579, 8580); (9398, 9424);
    (9399, 9425); (9400, 9426); (9401, 9427); (9402, 9428); (9403, 9429); (9404, 9430);
    (9405, 9431); (9406, 9432); (9407, 9433); (9408, 9434); (9409, 9435); (9410, 9436);
    (9411, 9437); (9412, 9438); (9413, 9439); (9414, 9440); (9415, 9441); (9416, 9442);
    (9417, 9443); (9418, 9444); (9419, 9445); (9420, 9446); (9421, 9447); (9422, 9448);
    (9423, 9449); (11264, 11312); (11265, 11313); (11266, 11314); (11267, 11315); (11268, 11316);
    (11269, 11317); (11270, 11318); (11271, 11319); (11272, 11320); (11273, 11321); (11274, 11322);
    (11275, 11323); (11276, 11324); (11277, 11325); (11278, 11326); (11279, 11327); (11280, 11328);
    (11281, 11329); (11282, 11330); (11283, 11331); (11284, 11332); (11285, 11333); (11286, 11334);
    (11287, 11335); (11288, 11336); (11289, 11337); (11290, 11338); (11291, 11339); (11292, 11340);
    (11293, 11341); (11294, 11342); (11295, 11343); (11296, 11344); (11297, 11345); (11298, 11346);
    (11299, 11347); (11300, 11348); (11301, 11349); (11302, 11350); (11303, 11351); (11304, 11352);
    (11305, 11353); (11306, 11354); (11307, 11355); (11308, 11356); (11309, 11357); (11310, 11358);
    (11311, 11359); (11360, 11361); (11362, 619); (11363, 7549); (11364, 637); (11367, 11368);
    (11369, 11370); (11371, 11372); (11373, 593); (11374, 625); (11375, 592); (11376, 594);
    (11378, 11379); (11381, 11382); (11390, 575); (11391, 576); (11392, 11393); (11394, 11395);
    (11396, 11397); (11398, 11399); (11400, 11401); (11402, 11403); (11404, 11405); (11406, 11407);
    (11408, 11409); (11410, 11411); (11412, 11413); (11414, 11415); (11416, 11417); (11418, 11419);
    (11420, 11421); (11422, 11423); (11424, 11425); (11426, 11427); (11428, 11429); (11430, 11431);
    (11432, 11433); (11434, 11435); (11436, 11437); (11438, 11439); (11440, 11441); (11442, 11443);
    (11444, 11445); (11446, 11447); (11448, 11449); (11450, 11451); (11452, 11453); (11454, 11455);
    (11456, 11457); (11458, 11459); (11460, 11461); (11462, 11463); (11464, 11465); (11466, 11467);
    (11468, 11469); (11470, 11471); (11472, 11473); (11474, 11475); (11476, 11477); (11478, 11479);
    (11480, 11481); (11482, 11483); (11484, 11485); (11486, 11487); (11488, 11489); (11490, 11491);
    (11499, 11500); (11501, 11502); (11506, 11507); (42560, 42561); (42562, 42563); (42564, 42565);
    (42566, 42567); (42568, 42569); (42570, 42571); (42572, 42573); (42574, 42575); (42576, 42577);
    (42578, 42579); (42580, 42581); (42582, 42583); (42584, 42585); (42586, 42587); (42588, 42589);
    (42590, 42591); (42592, 42593); (42594, 42595); (42596, 42597); (42598, 42599); (42600, 42601);
    (42602, 42603); (42604, 42605); (42624, 42625); (42626, 42627); (42628, 42629); (42630, 42631);
    (42632, 42633); (42634, 42635); (42636, 42637); (42638, 42639); (42640, 42641); (42642, 42643);
    (42644, 42645); (42646, 42647); (42648, 42649); (42650, 42651); (42786, 42787); (42788, 42789);
    (42790, 42791); (42792, 42793); (42794, 42795); (42796, 42797); (42798, 42799); (42802, 42803);
    (42804, 42805); (42806, 42807); (42808, 42809); (42810, 42811); (42812, 42813); (42814, 42815);
    (42816, 42817); (42818, 42819); (42820, 42821); (42822, 42823); (42824, 42825); (42826, 42827);
    (42828, 42829); (42830, 42831); (42832, 42833); (42834, 42835); (42836, 42837); (42838, 42839);
    (42840, 42841); (42842, 42843); (42844, 42845); (42846, 42847); (42848, 42849); (42850, 42851);
    (42852, 42853); (42854, 42855); (42856, 42857); (42858, 42859); (42860, 42861); (42862, 42863);
    (42873, 42874); (42875, 42876); (42877, 7545); (42878, 42879); (42880, 42881); (42882, 42883);
    (42884, 42885); (42886, 42887); (42891, 42892); (42893, 613); (42896, 42897); (42898, 42899);
    (42902, 42903); (42904, 42905); (42906, 42907); (42908, 42909); (42910, 42911); (42912, 42913);
    (42914, 42915); (42916, 42917); (42918, 42919); (42920, 42921); (42922, 614); (42923, 604);
    (42924, 609); (42925, 620); (42926, 618); (42928, 670); (42929, 647); (42930, 669);
    (42931, 43859); (42932, 42933); (42934, 42935); (42936, 42937); (42938, 42939); (42940, 42941);
    (42942, 42943); (42944, 42945); (42946, 42947); (42948, 42900); (42949, 642); (42950, 7566);
    (42951, 42952); (42953, 42954); (42960, 42961); (42966, 42967); (42968, 42969); (42997, 42998);
    (65313, 65345); (65314, 65346); (65315, 65347); (65316, 65348); (65317, 65349); (65318, 65350);
    (65319, 65351); (65320, 65352); (65321, 65353); (65322, 65354); (65323, 65355); (65324, 65356);
    (65325, 65357); (65326, 65358); (65327, 65359); (65328, 65360); (65329, 65361); (65330, 65362);
    (65331, 65363); (65332, 65364); (65333, 65365); (65334, 65366); (65335, 65367); (65336, 65368);
    (65337, 65369); (65338, 65370); (66560, 66600); (66561, 66601); (66562, 66602); (66563, 66603);
    (66564, 66604); (66565, 66605); (66566, 66606); (66567, 66607); (66568, 66608); (66569, 66609);
    (66570, 66610); (66571, 66611); (66572, 66612); (66573, 66613); (66574, 66614); (66575, 66615);
    (66576, 66616); (66577, 66617); (66578, 66618); (66579, 66619); (66580, 66620); (66581, 66621);
    (66582, 66622); (66583, 66623); (66584, 66624); (66585, 66625); (66586, 66626); (66587, 66627);
    (66588, 66628); (66589, 66629); (66590, 66630); (66591, 66631); (66592, 66632); (66593, 66633);
    (66594, 66634); (66595, 66635); (66596, 66636); (66597, 66637); (66598, 66638); (66599, 66639);
    (66736, 66776); (66737, 66777); (66738, 66778); (66739, 66779); (66740, 66780); (66741, 66781);
    (66742, 66782); (66743, 66783); (66744, 66784); (66745, 66785); (66746, 66786); (66747, 66787);
    (66748, 66788); (66749, 66789); (66750, 66790); (66751, 66791); (66752, 66792); (66753, 66793);
    (66754, 66794); (66755, 66795); (66756, 66796); (66757, 66797); (66758, 66798); (66759, 66799);
    (66760, 66800); (66761, 66801); (66762, 66802); (66763, 66803); (66764, 66804); (66765, 66805);
    (66766, 66806); (66767, 66807); (66768, 66808); (66769, 66809); (66770, 66810); (66771, 66811);
    (66928, 66967); (66929, 66968); (66930, 66969); (66931, 66970); (66932, 66971); (66933, 66972);
    (66934, 66973); (66935, 66974); (66936, 66975); (66937, 66976); (66938, 66977); (66940, 66979);
    (66941, 66980); (66942, 66981); (66943, 66982); (66944, 66983); (66945, 66984); (66946, 66985);
    (66947, 66986); (66948, 66987); (66949, 66988); (66950, 66989); (66951, 66990); (66952, 66991);
    (66953, 66992); (66954, 66993); (66956, 66995); (66957, 66996); (66958, 66997); (66959, 66998);
    (66960, 66999); (66961, 67000); (66962, 67001); (66964, 67003); (66965, 67004); (68736, 68800);
    (68737, 68801); (68738, 68802); (68739, 68803); (68740, 68804); (68741, 68805); (68742, 68806);
    (68743, 68807); (68744, 68808); (68745, 68809); (68746, 68810); (68747, 68811); (68748, 68812);
    (68749, 68813); (68750, 68814); (68751, 68815); (68752, 68816); (68753, 68817); (68754, 68818);
    (68755, 68819); (68756, 68820); (68757, 68821); (68758, 68822); (68759, 68823); (68760, 68824);
    (68761, 68825); (68762, 68826); (68763, 68827); (68764, 68828); (68765, 68829); (68766, 68830);
    (68767, 68831); (68768, 68832); (68769, 68833); (68770, 68834); (68771, 68835); (68772, 68836);
    (68773, 68837); (68774, 68838); (68775, 68839); (68776, 68840); (68777, 68841); (68778, 68842);
    (68779, 68843); (68780, 68844); (68781, 68845); (68782, 68846); (68783, 68847); (68784, 68848);
    (68785, 68849); (68786, 68850); (71840, 71872); (71841, 71873); (71842, 71874); (71843, 71875);
    (71844, 71876); (71845, 71877); (71846, 71878); (71847, 71879); (71848, 71880); (71849, 71881);
    (71850, 71882); (71851, 71883); (71852, 71884); (71853, 71885); (71854, 71886); (71855, 71887);
    (71856, 71888); (71857, 71889); (71858, 71890); (71859, 71891); (71860, 71892); (71861, 71893);
    (71862, 71894); (71863, 71895); (71864, 71896); (71865, 71897); (71866, 71898); (71867, 71899);
    (71868, 71900); (71869, 71901); (71870, 71902); (71871, 71903); (93760, 93792); (93761, 93793);
    (93762, 93794); (93763, 93795); (93764, 93796); (93765, 93797); (93766, 93798); (93767, 93799);
    (93768, 93800); (93769, 93801); (93770, 93802); (93771, 93803); (93772, 93804); (93773, 93805);
    (93774, 93806); (93775, 93807); (93776, 93808); (93777, 93809); (93778, 93810); (93779, 93811);
    (93780, 93812); (93781, 93813); (93782, 93814); (93783, 93815); (93784, 93816); (93785, 93817);
    (93786, 93818); (93787, 93819); (93788, 93820); (93789, 93821); (93790, 93822); (93791, 93823);
    (125184, 125218); (125185, 125219); (125186, 125220); (125187, 125221); (125188, 125222); (125189, 125223);
    (125190, 125224); (125191, 125225); (125192, 125226); (125193, 125227); (125194, 125228); (125195, 125229);
    (125196, 125230); (125197, 125231); (125198, 125232); (125199, 125233); (125200, 125234); (125201, 125235);
    (125202, 125236); (125203, 125237); (125204, 125238); (125205, 125239); (125206, 125240); (125207, 125241);
    (125208, 125242); (125209, 125243); (125210, 125244); (125211, 125245); (125212, 125246); (125213, 125247);
    (125214, 125248); (125215, 125249); (125216, 125250); (125217, 125251)
  ]%N.

(** [str.isspace] and \s *)
Definition is_space (c : char) : bool := in_ranges c space_ranges.

(** \d *)
Definition is_digit (c : char) : bool := in_ranges c digit_ranges.

(** \w *)
Definition is_word (c : char) : bool := in_ranges c word_ranges.

Definition is_case_ignorable (c : char) : bool := in_ranges c case_ignorable_ranges.

Definition is_cased (c : char) : bool := in_ranges c cased_ranges.

Fixpoint lookup (c : char) (table : list (char * char)) : option char :=
  match table with
  | [] => None
  | (k, v) :: rest => if N.eqb k c then Some v else lookup c rest
  end.

(** The lower-case text of one code point, but for the capital sigma. *)
Definition lower_char (c : char) : string :=
  if N.eqb c 304 then String 105 (String 775 "")
  else match lookup c lower_table with
       | Some l => String l ""
       | None => String c ""
       end.

(** The next code point that is not case-ignorable is cased. *)
Fixpoint cased_follows (s : string) : bool :=
  match s with
  | EmptyString => false
  | String c t => if is_case_ignorable c then cased_follows t else is_cased c
  end.

(** [s.lower()] from a place in the text; [cased_before] says that the
    last code point before it that is not case-ignorable is cased.  The
    capital sigma U+03A3 becomes the final sigma after a cased letter
    when no cased letter follows, the small sigma otherwise. *)
Fixpoint lower_from (cased_before : bool) (s : string) : string :=
  match s with
  | EmptyString => EmptyString
  | String c t =>
      (if N.eqb c 931 then
         String (if cased_before && negb (cased_follows t) then 962 else 963) ""
       else lower_char c)
      ++ lower_from (if is_case_ignorable c then cased_before else is_cased c) t
  end.

(** [s.lower()] *)
Definition lower (s : string) : string := lower_from false s.

Fixpoint lstrip (s : string) : string :=
  match s with
  | EmptyString => EmptyString
  | String c t => if is_space c then lstrip t else s
  end.

Fixpoint rstrip (s : string) : string :=
  match s with
  | EmptyString => EmptyString
  | String c t =>
      match rstrip t with
      | EmptyString => if is_space c then EmptyString else String c EmptyString
      | t' => String c t'
      end
  end.

(** [s.strip()] *)
Definition strip (s : string) : string := rstrip (lstrip s).

(** [needle in hay] *)
Fixpoint str_in (needle hay : string) : bool :=
  prefix needle hay ||
  match hay with
  | EmptyString => false
  | String _ t => str_in needle t
  end.

Notation "a 'isin' b" := (str_in a b) (at level 35, no associativity).

(** Python truthiness of a string or [None]. *)
Definition truthy (v : option string) : bool :=
  match v with
  | Some (String _ _) => true
  | _ => false
  end.

(** What an f-string field writes for a value that is a string or [None]. *)
Definition format (v : option string) : string :=
  match v with
  | Some s => s
  | None => "None"
  end.

(** Exceptions: a call either returns a value or raises. *)
Inductive exn : Type := TypeError | ValueError.

Inductive py (A : Type) : Type :=
| Return (a : A)
| Raise (e : exn).

Arguments Return {A} a.
Arguments Raise {A} e.

Definition bind {A B : Type} (c : py A) (k : A -> py B) : py B :=
  match c with
  | Return a => k a
  | Raise e => Raise e
  end.

Notation "x <- c ;; k" := (bind c (fun x => k))
  (at level 61, c at next level, right associativity).

Fixpoint all_chars (cls : char -> bool) (s : string) : bool :=
  match s with
  | EmptyString => true
  | String c t => cls c && all_chars cls t
  end.

(** The value of a decimal digit: its place in its run of ten. *)
Definition digit_val (c : char) : N :=
  match find (fun r => in_range (fst r) (snd r) c) digit_ranges with
  | Some r => ((c - fst r) mod 10)%N
  | None => 0%N
  end.

Fixpoint int_acc (acc : N) (s : string) : N :=
  match s with
  | EmptyString => acc
  | String c t => int_acc (10 * acc + digit_val c) t
  end.

(** The most digits [int] converts, [sys.int_info.default_max_str_digits]. *)
Definition max_str_digits : nat := 4300.

(** [int(v)]: the value of a non-empty run of decimal digits; a run of
    more than 4300 digits raises ValueError; [None] raises TypeError;
    every other string is taken to raise ValueError (signs, blanks and
    underscores, which [int] accepts, never reach it). *)
Definition int (v : option string) : py N :=
  match v with
  | None => Raise TypeError
  | Some EmptyString => Raise ValueError
  | Some s =>
      if all_chars is_digit s then
        if max_str_digits <? String.length s then Raise ValueError
        else Return (int_acc 0 s)
      else Raise ValueError
  end.

Fixpoint string_of_uint (d : Decimal.uint) : string :=
  match d with
  | Decimal.Nil => EmptyString
  | Decimal.D0 d => String 48 (string_of_uint d)
  | Decimal.D1 d => String 49 (string_of_uint d)
  | Decimal.D2 d => String 50 (string_of_uint d)
  | Decimal.D3 d => String 51 (string_of_uint d)
  | Decimal.D4 d => String 52 (string_of_uint d)
  | Decimal.D5 d => String 53 (string_of_uint d)
  | Decimal.D6 d => String 54 (string_of_uint d)
  | Decimal.D7 d => String 55 (string_of_uint d)
  | Decimal.D8 d => String 56 (string_of_uint d)
  | Decimal.D9 d => String 57 (string_of_uint d)
  end.

(** [str(n)], as an f-string field writes an integer. *)
Definition str_int (n : N) : string := string_of_uint (N.to_uint n).

(** The text of a triple-quoted f-string, line by line. *)
Definition join_lines (ls : list string) : string := String.concat nl ls.

(* ================================================================= *)
(** ** Regular expressions

    The fragment of [re] the function uses: literal text, a greedy
    one-or-more of a character class, a numbered group, sequence and
    ordered alternation.  Matching is the backtracking search of the
    [re] module, written with a continuation for what follows. *)

Inductive regex : Type :=
| Lit (s : string)
| Plus (cls : char -> bool)
| Group (n : nat) (r : regex)
| Cat (r1 r2 : regex)
| Alt (r1 r2 : regex).

Definition match_obj : Type := nat -> option string.

Definition no_groups : match_obj := fun _ => None.

Definition set_group (n : nat) (w : string) (m : match_obj) : match_obj :=
  fun k => if (k =? n)%nat then Some w else m k.

(** [m.group(n)] *)
Definition group (m : match_obj) (n : nat) : option string := m n.

(** The rest of [s] after the literal [l], when [s] starts with it. *)
Fixpoint after_lit (l s : string) : option string :=
  match l, s with
  | EmptyString, _ => Some s
  | String a l', String b s' => if N.eqb a b then after_lit l' s' else None
  | String _ _, EmptyString => None
  end.

(** Greedy [cls+]: the longest run first, then shorter ones. *)
Fixpoint match_plus {A : Type} (cls : char -> bool) (s : string)
    (k : string -> option A) : option A :=
  match s with
  | EmptyString => None
  | String c t =>
      if cls c then
        match match_plus cls t k with
        | Some r => Some r
        | None => k t
        end
      else None
  end.

(** The first [n] characters of [s]. *)
Fixpoint take (n : nat) (s : string) : string :=
  match n, s with
  | S n', String c t => String c (take n' t)
  | _, _ => EmptyString
  end.

Fixpoint re_match {A : Type} (r : regex) (s : string) (m : match_obj)
    (k : string -> match_obj -> option A) : option A :=
  match r with
  | Lit l =>
      match after_lit l s with
      | Some s' => k s' m
      | None => None
      end
  | Plus cls => match_plus cls s (fun s' => k s' m)
  | Group n r1 =>
      re_match r1 s m
        (fun s' m' => k s' (set_group n (take (String.length s - String.length s') s) m'))
  | Cat r1 r2 => re_match r1 s m (fun s1 m1 => re_match r2 s1 m1 k)
  | Alt r1 r2 =>
      match re_match r1 s m k with
      | Some x => Some x
      | None => re_match r2 s m k
      end
  end.

(** [re.match(r, s)]: a match at the start of [s]. *)
Definition match_here (r : regex) (s : string) : option match_obj :=
  re_match r s no_groups (fun _ m => Some m).

(** The first suffix of [s], from the left, on which [f] answers. *)
Fixpoint leftmost {A : Type} (f : string -> option A) (s : string) : option A :=
  match f s with
  | Some x => Some x
  | None =>
      match s with
      | EmptyString => None
      | String _ t => leftmost f t
      end
  end.

(** [re.search(r, s)]: the match at the leftmost position that has one. *)
Definition search (r : regex) (s : string) : option match_obj :=
  leftmost (match_here r) s.

(** The patterns of the function. *)
Definition ws : regex := Plus is_space.
Definition word : regex := Group 1 (Plus is_word).
Definition digits : regex := Group 1 (Plus is_digit).

(** [(\d+)\s+rows] *)
Definition re_num_rows : regex := Cat digits (Cat ws (Lit "rows")).
(** [(\d+)] *)
Definition re_digits : regex := digits.
(** [table\s+(\w+)] *)
Definition re_table : regex := Cat (Lit "table") (Cat ws word).
(** [key\s+(\w+)] *)
Definition re_key : regex := Cat (Lit "key") (Cat ws word).
(** [table\s+(\w+)|into\s+(\w+)] *)
Definition re_table_into : regex :=
  Alt (Cat (Lit "table") (Cat ws (Group 1 (Plus is_word))))
      (Cat (Lit "into") (Cat ws (Group 2 (Plus is_word)))).
(** [from\s+(\w+)|table\s+(\w+)] *)
Definition re_from_table : regex :=
  Alt (Cat (Lit "from") (Cat ws (Group 1 (Plus is_word))))
      (Cat (Lit "table") (Cat ws (Group 2 (Plus is_word)))).
(** [limit\s+(\d+)] *)
Definition re_limit : regex := Cat (Lit "limit") (Cat ws digits).

(* ================================================================= *)
(** ** Templates

    Each definition is one f-string of the source, one list entry per
    line; [dq] stands for a double quote of the generated code. *)

Definition large_partition_python_lines (keyspace table_name partition_key partition_value : string) (num_rows : N) : list string :=
  [ "";
    "# Connect to your Cassandra cluster";
    "# ... connection code will be included in the driver code template ...";
    "";
    "import uuid";
    "import random";
    "import time";
    "from datetime import datetime, timedelta";
    "";
    "# Create a table with a simple schema for the large partition test";
    "create_table_query = " ++ dq ++ dq ++ dq;
    "CREATE TABLE IF NOT EXISTS " ++ keyspace ++ "." ++ table_name ++ " (";
    "    " ++ partition_key ++ " text,";
    "    activity_timestamp timestamp,";
    "    activity_type text,";
    "    details text,";
    "    PRIMARY KEY (" ++ partition_key ++ ", activity_timestamp)";
    ") WITH CLUSTERING ORDER BY (activity_timestamp DESC)";
    dq ++ dq ++ dq;
    "session.execute(create_table_query)";
    "print(f" ++ dq ++ "Table " ++ keyspace ++ "." ++ table_name ++ " created or verified successfully" ++ dq ++ ")";
    "";
    "# Define activity types for random selection";
    "activity_types = [" ++ dq ++ "login" ++ dq ++ ", " ++ dq ++ "click" ++ dq ++ ", " ++ dq ++ "view" ++ dq ++ ", " ++ dq ++ "purchase" ++ dq ++ ", " ++ dq ++ "logout" ++ dq ++ ", " ++ dq ++ "scroll" ++ dq ++ ", " ++ dq ++ "search" ++ dq ++ "]";
    "detail_templates = [";
    "    " ++ dq ++ "Viewed product: {}" ++ dq ++ ",";
    "    " ++ dq ++ "Clicked on: {}" ++ dq ++ ",";
    "    " ++ dq ++ "Searched for: {}" ++ dq ++ ",";
    "    " ++ dq ++ "Added to cart: {}" ++ dq ++ ",";
    "    " ++ dq ++ "Purchased item: {}" ++ dq ++ ",";
    "    " ++ dq ++ "Visited page: {}" ++ dq;
    "]";
    "products = [" ++ dq ++ "laptop" ++ dq ++ ", " ++ dq ++ "phone" ++ dq ++ ", " ++ dq ++ "headphones" ++ dq ++ ", " ++ dq ++ "keyboard" ++ dq ++ ", " ++ dq ++ "mouse" ++ dq ++ ", " ++ dq ++ "monitor" ++ dq ++ ", " ++ dq ++ "tablet" ++ dq ++ ", " ++ dq ++ "camera" ++ dq ++ ", " ++ dq ++ "speaker" ++ dq ++ ", " ++ dq ++ "watch" ++ dq ++ "]";
    "";
    "# Use a fixed partition key value to ensure all rows go to same partition";
    "partition_value = " ++ dq ++ "large_partition_user" ++ dq;
    "";
    "# Prepare the insert statement for better performance";
    "prepared_stmt = session.prepare(" ++ dq ++ dq ++ dq;
    "    INSERT INTO " ++ keyspace ++ "." ++ table_name ++ " (" ++ partition_key ++ ", activity_timestamp, activity_type, details)";
    "    VALUES (?, ?, ?, ?)";
    dq ++ dq ++ dq ++ ")";
    "";
    "# Track timing";
    "start_time = time.time()";
    "batch_size = 100  # Insert in batches for better performance";
    "total_batches = " ++ str_int num_rows ++ " // batch_size + (1 if " ++ str_int num_rows ++ " % batch_size != 0 else 0)";
    "";
    "print(f" ++ dq ++ "Generating " ++ str_int num_rows ++ " rows in the same partition ('" ++ partition_value ++ "')..." ++ dq ++ ")";
    "print(f" ++ dq ++ "This will create a large partition to test partition size limitations." ++ dq ++ ")";
    "";
    "for batch in range(total_batches):";
    "    # Show progress periodically";
    "    if batch % 10 == 0 or batch == total_batches - 1:";
    "        print(f" ++ dq ++ "Processing batch {batch+1}/{total_batches} ({(batch+1)*100/total_batches:.1f}%)" ++ dq ++ ")";
    "    ";
    "    batch_rows = min(batch_size, " ++ str_int num_rows ++ " - batch * batch_size)";
    "    ";
    "    # Process each row in the current batch";
    "    for i in range(batch_rows):";
    "        # Create a random timestamp in the past 30 days";
    "        random_minutes = random.randint(1, 30 * 24 * 60)  # 30 days in minutes";
    "        timestamp = datetime.now() - timedelta(minutes=random_minutes)";
    "        ";
    "        # Generate random activity data";
    "        activity_type = random.choice(activity_types)";
    "        detail_template = random.choice(detail_templates)";
    "        detail = detail_template.format(random.choice(products))";
    "        ";
    "        # Execute the prepared statement";
    "        session.execute(prepared_stmt, [partition_value, timestamp, activity_type, detail])";
    "    ";
    "    # Small delay to avoid overwhelming the system";
    "    if batch < total_batches - 1:";
    "        time.sleep(0.01)";
    "";
    "elapsed_time = time.time() - start_time";
    "print(f" ++ dq ++ "Successfully inserted " ++ str_int num_rows ++ " rows into the same partition." ++ dq ++ ")";
    "print(f" ++ dq ++ "All rows have '" ++ partition_key ++ "' = '" ++ partition_value ++ "'" ++ dq ++ ")";
    "print(f" ++ dq ++ "Total time: {elapsed_time:.2f} seconds" ++ dq ++ ")";
    "";
    "# Demonstrate proper querying techniques for large partitions";
    "print(" ++ dq ++ "\n--- Querying Large Partition ---" ++ dq ++ ")";
    "";
    "# 1. BAD QUERY: Query all rows for the user (will be inefficient for large partitions)";
    "print(" ++ dq ++ "\n❌ PROBLEMATIC QUERY (accesses entire partition):" ++ dq ++ ")";
    "query_bad = f" ++ dq ++ "SELECT count(*) FROM " ++ keyspace ++ "." ++ table_name ++ " WHERE " ++ partition_key ++ " = ?" ++ dq;
    "prepared_bad = session.prepare(query_bad)";
    "";
    "start_time = time.time()";
    "result = session.execute(prepared_bad, [partition_value])";
    "end_time = time.time()";
    "";
    "count = result.one().count";
    "print(f" ++ dq ++ "  Retrieved {count} rows in {end_time - start_time:.4f} seconds" ++ dq ++ ")";
    "";
    "# 2. GOOD QUERY: Query with time slice constraints";
    "print(" ++ dq ++ "\n✅ BETTER QUERY (with time slice constraints):" ++ dq ++ ")";
    "# Using a 1-hour time slice";
    "now = datetime.now()";
    "one_hour_ago = now - timedelta(hours=1)";
    "";
    "query_good = f" ++ dq ++ dq ++ dq;
    "SELECT count(*) FROM " ++ keyspace ++ "." ++ table_name ++ " ";
    "WHERE " ++ partition_key ++ " = ? ";
    "AND activity_timestamp >= ? ";
    "AND activity_timestamp < ?";
    dq ++ dq ++ dq;
    "prepared_good = session.prepare(query_good)";
    "";
    "start_time = time.time()";
    "result = session.execute(prepared_good, [partition_value, one_hour_ago, now])";
    "end_time = time.time()";
    "";
    "count = result.one().count";
    "print(f" ++ dq ++ "  Retrieved {count} rows in {end_time - start_time:.4f} seconds" ++ dq ++ ")";
    "print(f" ++ dq ++ "  (Time slice: past hour)" ++ dq ++ ")";
    "";
    "# 3. Sample some data to show the contents";
    "print(" ++ dq ++ "\n📊 Sample data from the time slice:" ++ dq ++ ")";
    "sample_query = f" ++ dq ++ dq ++ dq;
    "SELECT * FROM " ++ keyspace ++ "." ++ table_name ++ " ";
    "WHERE " ++ partition_key ++ " = ? ";
    "AND activity_timestamp >= ? ";
    "AND activity_timestamp < ?";
    "LIMIT 5";
    dq ++ dq ++ dq;
    "prepared_sample = session.prepare(sample_query)";
    "";
    "rows = session.execute(prepared_sample, [partition_value, one_hour_ago, now])";
    "";
    "for i, row in enumerate(rows):";
    "    print(f" ++ dq ++ "\n  Sample {i+1}:" ++ dq ++ ")";
    "    print(f" ++ dq ++ "    " ++ partition_key ++ ": {row." ++ partition_key ++ "}" ++ dq ++ ")";
    "    print(f" ++ dq ++ "    Timestamp: {row.activity_timestamp}" ++ dq ++ ")";
    "    print(f" ++ dq ++ "    Activity: {row.activity_type}" ++ dq ++ ")";
    "    print(f" ++ dq ++ "    Details: {row.details}" ++ dq ++ ")";
    "";
    "print(" ++ dq ++ "\nTo query this large partition, use: SELECT * FROM " ++ keyspace ++ "." ++ table_name ++ " WHERE " ++ partition_key ++ " = '" ++ partition_value ++ "';" ++ dq ++ ")";
    "" ].

Definition large_partition_python (keyspace table_name partition_key partition_value : string) (num_rows : N) : string :=
  join_lines (large_partition_python_lines keyspace table_name partition_key partition_value num_rows).

Definition lwt_insert_python_lines (keyspace table_name : string) : list string :=
  [ "";
    "# Connect to your Cassandra cluster";
    "# ... connection code will be included in the driver code template ...";
    "";
    "import uuid";
    "from datetime import datetime";
    "";
    "# Create the users table if it doesn't exist";
    "create_table_query = " ++ dq ++ dq ++ dq;
    "CREATE TABLE IF NOT EXISTS " ++ keyspace ++ "." ++ table_name ++ " (";
    "    username text PRIMARY KEY,";
    "    email text,";
    "    created_at timestamp";
    ")";
    dq ++ dq ++ dq;
    "session.execute(create_table_query)";
    "print(f" ++ dq ++ "Table " ++ keyspace ++ "." ++ table_name ++ " created or verified successfully" ++ dq ++ ")";
    "";
    "# Clear any existing data for our test users to ensure clean results";
    "session.execute(f" ++ dq ++ "DELETE FROM " ++ keyspace ++ "." ++ table_name ++ " WHERE username = 'alice'" ++ dq ++ ")";
    "session.execute(f" ++ dq ++ "DELETE FROM " ++ keyspace ++ "." ++ table_name ++ " WHERE username = 'bob'" ++ dq ++ ")";
    "";
    "print(" ++ dq ++ "\n--- Running LWT INSERT Example ---" ++ dq ++ ")";
    "";
    "# Prepare the INSERT with IF NOT EXISTS statement (LWT)";
    "insert_query = f" ++ dq ++ dq ++ dq;
    "INSERT INTO " ++ keyspace ++ "." ++ table_name ++ " (username, email, created_at)";
    "VALUES (?, ?, ?)";
    "IF NOT EXISTS";
    dq ++ dq ++ dq;
    "prepared = session.prepare(insert_query)";
    "";
    "# First attempt should succeed (user doesn't exist)";
    "username = " ++ dq ++ "alice" ++ dq;
    "email = " ++ dq ++ "alice@example.com" ++ dq;
    "created_at = datetime.now()";
    "";
    "result = session.execute(prepared, [username, email, created_at])";
    "";
    "# The first row of the result contains a boolean [applied] field";
    "if result[0].applied:";
    "    print(f" ++ dq ++ "✅ First INSERT succeeded: User '{username}' was created" ++ dq ++ ")";
    "else:";
    "    print(f" ++ dq ++ "❌ First INSERT failed: User '{username}' already exists" ++ dq ++ ")";
    "";
    "# Second attempt with the same username should fail (user already exists)";
    "result = session.execute(prepared, [username, " ++ dq ++ "alice_new@example.com" ++ dq ++ ", datetime.now()])";
    "";
    "if result[0].applied:";
    "    print(f" ++ dq ++ "✅ Second INSERT succeeded: User '{username}' was created" ++ dq ++ ")";
    "else:";
    "    print(f" ++ dq ++ "❌ Second INSERT failed: User '{username}' already exists" ++ dq ++ ")";
    "    ";
    "# Let's also try with a different user";
    "username = " ++ dq ++ "bob" ++ dq;
    "email = " ++ dq ++ "bob@example.com" ++ dq;
    "created_at = datetime.now()";
    "";
    "result = session.execute(prepared, [username, email, created_at])";
    "print(f" ++ dq ++ "✅ INSERT for user '{username}' applied: {result[0].applied}" ++ dq ++ ")";
    "";
    "print(" ++ dq ++ "\n--- Running LWT UPDATE Example ---" ++ dq ++ ")";
    "";
    "# Prepare the UPDATE with IF condition";
    "update_query = f" ++ dq ++ dq ++ dq;
    "UPDATE " ++ keyspace ++ "." ++ table_name;
    "SET email = ?";
    "WHERE username = ?";
    "IF email = ?";
    dq ++ dq ++ dq;
    "prepared_update = session.prepare(update_query)";
    "";
    "# Update should succeed if current email matches";
    "username = " ++ dq ++ "alice" ++ dq;
    "old_email = " ++ dq ++ "alice@example.com" ++ dq;
    "new_email = " ++ dq ++ "alice_updated@example.com" ++ dq;
    "";
    "result = session.execute(prepared_update, [new_email, username, old_email])";
    "";
    "if result[0].applied:";
    "    print(f" ++ dq ++ "✅ UPDATE succeeded: Email for '{username}' was updated" ++ dq ++ ")";
    "else:";
    "    print(f" ++ dq ++ "❌ UPDATE failed: Current email doesn't match condition" ++ dq ++ ")";
    "    print(f" ++ dq ++ "   Current values: {dict(result[0])}" ++ dq ++ ")";
    "";
    "# Verify the update with a SELECT query";
    "select_query = f" ++ dq ++ "SELECT * FROM " ++ keyspace ++ "." ++ table_name ++ " WHERE username = ?" ++ dq;
    "prepared_select = session.prepare(select_query)";
    "rows = session.execute(prepared_select, [username])";
    "";
    "for row in rows:";
    "    print(f" ++ dq ++ "\nUser data after update:" ++ dq ++ ")";
    "    print(f" ++ dq ++ "  Username: {row.username}" ++ dq ++ ")";
    "    print(f" ++ dq ++ "  Email: {row.email}" ++ dq ++ ")";
    "    print(f" ++ dq ++ "  Created at: {row.created_at}" ++ dq ++ ")";
    "";
    "print(" ++ dq ++ "\n--- Running LWT DELETE Example ---" ++ dq ++ ")";
    "";
    "# Prepare DELETE with IF condition";
    "delete_query = f" ++ dq ++ dq ++ dq;
    "DELETE FROM " ++ keyspace ++ "." ++ table_name;
    "WHERE username = ?";
    "IF email = ?";
    dq ++ dq ++ dq;
    "prepared_delete = session.prepare(delete_query)";
    "";
    "# Try to delete with correct condition";
    "result = session.execute(prepared_delete, [username, new_email])";
    "";
    "if result[0].applied:";
    "    print(f" ++ dq ++ "✅ DELETE succeeded: User '{username}' was deleted" ++ dq ++ ")";
    "else:";
    "    print(f" ++ dq ++ "❌ DELETE failed: Email condition not met" ++ dq ++ ")";
    "    print(f" ++ dq ++ "   Current values: {dict(result[0])}" ++ dq ++ ")";
    "";
    "# Verify deletion";
    "rows = session.execute(prepared_select, [username])";
    "if not list(rows):";
    "    print(f" ++ dq ++ "Verified: User '{username}' has been deleted" ++ dq ++ ")";
    "else:";
    "    print(f" ++ dq ++ "User '{username}' still exists in the database" ++ dq ++ ")";
    "";
    "print(" ++ dq ++ "\nLightweight Transaction (LWT) operations complete!" ++ dq ++ ")";
    "" ].

Definition lwt_insert_python (keyspace table_name : string) : string :=
  join_lines (lwt_insert_python_lines keyspace table_name).

Definition lwt_update_python_lines (keyspace table_name : string) : list string :=
  [ "";
    "# Connect to your Cassandra cluster";
    "# ... connection code will be included in the driver code template ...";
    "";
    "from datetime import datetime";
    "";
    "# First, ensure we have the table and some data to work with";
    "create_table_query = " ++ dq ++ dq ++ dq;
    "CREATE TABLE IF NOT EXISTS " ++ keyspace ++ "." ++ table_name ++ " (";
    "    username text PRIMARY KEY,";
    "    email text,";
    "    created_at timestamp";
    ")";
    dq ++ dq ++ dq;
    "session.execute(create_table_query)";
    "print(f" ++ dq ++ "Table " ++ keyspace ++ "." ++ table_name ++ " created or verified successfully" ++ dq ++ ")";
    "";
    "# Create a user if it doesn't exist";
    "session.execute(" ++ dq ++ dq ++ dq;
    "INSERT INTO " ++ keyspace ++ "." ++ table_name ++ " (username, email, created_at)";
    "VALUES ('alice', 'alice@example.com', toTimestamp(now()))";
    "IF NOT EXISTS";
    dq ++ dq ++ dq ++ ")";
    "";
    "print(" ++ dq ++ "\n--- Running LWT UPDATE Example ---" ++ dq ++ ")";
    "";
    "# Show current value";
    "select_query = f" ++ dq ++ "SELECT * FROM " ++ keyspace ++ "." ++ table_name ++ " WHERE username = 'alice'" ++ dq;
    "rows = session.execute(select_query)";
    "row = rows.one()";
    "print(f" ++ dq ++ "Current email for alice: {row.email if row else 'not found'}" ++ dq ++ ")";
    "";
    "# Perform conditional update - should succeed";
    "update_query = f" ++ dq ++ dq ++ dq;
    "UPDATE " ++ keyspace ++ "." ++ table_name;
    "SET email = ?";
    "WHERE username = ?";
    "IF email = ?";
    dq ++ dq ++ dq;
    "prepared_update = session.prepare(update_query)";
    "";
    "result = session.execute(prepared_update, [" ++ dq ++ "alice_updated@example.com" ++ dq ++ ", " ++ dq ++ "alice" ++ dq ++ ", " ++ dq ++ "alice@example.com" ++ dq ++ "])";
    "";
    "if result[0].applied:";
    "    print(f" ++ dq ++ "✅ UPDATE succeeded: Email for alice was updated" ++ dq ++ ")";
    "else:";
    "    print(f" ++ dq ++ "❌ UPDATE failed: Current email doesn't match condition" ++ dq ++ ")";
    "    print(f" ++ dq ++ "   Current values: {dict(result[0])}" ++ dq ++ ")";
    "";
    "# Try with wrong condition - should fail";
    "result = session.execute(prepared_update, [" ++ dq ++ "alice_updated_again@example.com" ++ dq ++ ", " ++ dq ++ "alice" ++ dq ++ ", " ++ dq ++ "wrong@example.com" ++ dq ++ "])";
    "";
    "if result[0].applied:";
    "    print(f" ++ dq ++ "✅ UPDATE succeeded: Email for alice was updated again" ++ dq ++ ")";
    "else:";
    "    print(f" ++ dq ++ "❌ UPDATE failed: Email condition not met" ++ dq ++ ")";
    "    print(f" ++ dq ++ "   Current values: {dict(result[0])}" ++ dq ++ ")";
    "";
    "# Verify final value";
    "rows = session.execute(select_query)";
    "row = rows.one()";
    "print(f" ++ dq ++ "Final email for alice: {row.email if row else 'not found'}" ++ dq ++ ")";
    "" ].

Definition lwt_update_python (keyspace table_name : string) : string :=
  join_lines (lwt_update_python_lines keyspace table_name).

Definition bulk_insert_python_lines (keyspace table_name : string) (num_rows : N) : list string :=
  [ "";
    "# Connect to your Cassandra cluster";
    "# ... connection code will be included in the driver code template ...";
    "";
    "import uuid";
    "import random";
    "from datetime import datetime, timedelta";
    "";
    "# Define sample data generators";
    "first_names = [" ++ dq ++ "James" ++ dq ++ ", " ++ dq ++ "Mary" ++ dq ++ ", " ++ dq ++ "John" ++ dq ++ ", " ++ dq ++ "Patricia" ++ dq ++ ", " ++ dq ++ "Robert" ++ dq ++ ", " ++ dq ++ "Jennifer" ++ dq ++ ", " ++ dq ++ "Michael" ++ dq ++ ", " ++ dq ++ "Linda" ++ dq ++ ", " ++ dq ++ "William" ++ dq ++ ", " ++ dq ++ "Elizabeth" ++ dq ++ ", ";
    "               " ++ dq ++ "David" ++ dq ++ ", " ++ dq ++ "Barbara" ++ dq ++ ", " ++ dq ++ "Richard" ++ dq ++ ", " ++ dq ++ "Susan" ++ dq ++ ", " ++ dq ++ "Joseph" ++ dq ++ ", " ++ dq ++ "Jessica" ++ dq ++ ", " ++ dq ++ "Thomas" ++ dq ++ ", " ++ dq ++ "Sarah" ++ dq ++ ", " ++ dq ++ "Charles" ++ dq ++ ", " ++ dq ++ "Karen" ++ dq ++ "]";
    "last_names = [" ++ dq ++ "Smith" ++ dq ++ ", " ++ dq ++ "Johnson" ++ dq ++ ", " ++ dq ++ "Williams" ++ dq ++ ", " ++ dq ++ "Jones" ++ dq ++ ", " ++ dq ++ "Brown" ++ dq ++ ", " ++ dq ++ "Davis" ++ dq ++ ", " ++ dq ++ "Miller" ++ dq ++ ", " ++ dq ++ "Wilson" ++ dq ++ ", " ++ dq ++ "Moore" ++ dq ++ ", " ++ dq ++ "Taylor" ++ dq ++ ", ";
    "              " ++ dq ++ "Anderson" ++ dq ++ ", " ++ dq ++ "Thomas" ++ dq ++ ", " ++ dq ++ "Jackson" ++ dq ++ ", " ++ dq ++ "White" ++ dq ++ ", " ++ dq ++ "Harris" ++ dq ++ ", " ++ dq ++ "Martin" ++ dq ++ ", " ++ dq ++ "Thompson" ++ dq ++ ", " ++ dq ++ "Garcia" ++ dq ++ ", " ++ dq ++ "Martinez" ++ dq ++ ", " ++ dq ++ "Robinson" ++ dq ++ "]";
    "domains = [" ++ dq ++ "gmail.com" ++ dq ++ ", " ++ dq ++ "yahoo.com" ++ dq ++ ", " ++ dq ++ "hotmail.com" ++ dq ++ ", " ++ dq ++ "outlook.com" ++ dq ++ ", " ++ dq ++ "example.com" ++ dq ++ ", " ++ dq ++ "mail.org" ++ dq ++ "]";
    "";
    "# Create the users table if it doesn't exist";
    "create_table_query = " ++ dq ++ dq ++ dq;
    "CREATE TABLE IF NOT EXISTS " ++ keyspace ++ "." ++ table_name ++ " (";
    "    id uuid PRIMARY KEY,";
    "    name text,";
    "    email text,";
    "    created_at timestamp";
    ")";
    dq ++ dq ++ dq;
    "session.execute(create_table_query)";
    "print(f" ++ dq ++ "Table " ++ keyspace ++ "." ++ table_name ++ " created or verified successfully" ++ dq ++ ")";
    "";
    "# Prepare the insert statement for better performance";
    "prepared_stmt = session.prepare(" ++ dq ++ dq ++ dq;
    "    INSERT INTO " ++ keyspace ++ "." ++ table_name ++ " (id, name, email, created_at)";
    "    VALUES (?, ?, ?, ?)";
    dq ++ dq ++ dq ++ ")";
    "";
    "print(f" ++ dq ++ "Inserting " ++ str_int num_rows ++ " rows into " ++ keyspace ++ "." ++ table_name ++ "..." ++ dq ++ ")";
    "";
    "# Track timing";
    "start_time = datetime.now()";
    "";
    "for i in range(" ++ str_int num_rows ++ "):";
    "    # Generate random user data";
    "    user_id = uuid.uuid4()";
    "    first_name = random.choice(first_names)";
    "    last_name = random.choice(last_names)";
    "    name = f" ++ dq ++ "{first_name} {last_name}" ++ dq;
    "    email = f" ++ dq ++ "{first_name.lower()}.{last_name.lower()}@{random.choice(domains)}" ++ dq;
    "    ";
    "    # Random date in the past year";
    "    days_ago = random.randint(0, 365)";
    "    created_at = datetime.now() + timedelta(days=days_ago)";
    "    ";
    "    # Insert the row";
    "    session.execute(prepared_stmt, [user_id, name, email, created_at])";
    "    ";
    "    # Show progress for larger inserts";
    "    if " ++ str_int num_rows ++ " > 100 and i % (" ++ str_int num_rows ++ " // 10) == 0:";
    "        print(f" ++ dq ++ "Progress: {i+1}/" ++ str_int num_rows ++ " rows inserted ({(i+1)*100/" ++ str_int num_rows ++ ":.1f}%)" ++ dq ++ ")";
    "";
    "elapsed_time = (datetime.now() - start_time).total_seconds()";
    "print(f" ++ dq ++ "✅ Successfully inserted " ++ str_int num_rows ++ " rows into " ++ keyspace ++ "." ++ table_name ++ dq ++ ")";
    "print(f" ++ dq ++ "Total time: {elapsed_time:.2f} seconds" ++ dq ++ ")";
    "";
    "# Sample the data we just inserted";
    "print(" ++ dq ++ "\n--- Sample Data ---" ++ dq ++ ")";
    "rows = session.execute(f" ++ dq ++ "SELECT * FROM " ++ keyspace ++ "." ++ table_name ++ " LIMIT 5" ++ dq ++ ")";
    "";
    "for i, row in enumerate(rows):";
    "    print(f" ++ dq ++ "\nRow {i+1}:" ++ dq ++ ")";
    "    print(f" ++ dq ++ "  ID: {row.id}" ++ dq ++ ")";
    "    print(f" ++ dq ++ "  Name: {row.name}" ++ dq ++ ")";
    "    print(f" ++ dq ++ "  Email: {row.email}" ++ dq ++ ")";
    "    print(f" ++ dq ++ "  Created At: {row.created_at}" ++ dq ++ ")";
    "";
    "print(f" ++ dq ++ "\nTo view all data: SELECT * FROM " ++ keyspace ++ "." ++ table_name ++ ";" ++ dq ++ ")";
    "" ].

Definition bulk_insert_python (keyspace table_name : string) (num_rows : N) : string :=
  join_lines (bulk_insert_python_lines keyspace table_name num_rows).

Definition select_count_python_lines (keyspace table_name : string) : list string :=
  [ "";
    "# Connect to your Cassandra cluster";
    "# ... connection code will be included in the driver code template ...";
    "";
    "# Count rows in the table";
    "count_query = f" ++ dq ++ "SELECT COUNT(*) FROM " ++ keyspace ++ "." ++ table_name ++ dq;
    "result = session.execute(count_query)";
    "count = result.one().count  # The count is in the first column of the first row";
    "";
    "print(f" ++ dq ++ "Total rows in " ++ keyspace ++ "." ++ table_name ++ ": {count}" ++ dq ++ ")";
    "" ].

Definition select_count_python (keyspace table_name : string) : string :=
  join_lines (select_count_python_lines keyspace table_name).

Definition select_rows_python_lines (keyspace table_name : string) (limit : N) : list string :=
  [ "";
    "# Connect to your Cassandra cluster";
    "# ... connection code will be included in the driver code template ...";
    "";
    "import time";
    "";
    "# Execute query to select data";
    "query = f" ++ dq ++ "SELECT * FROM " ++ keyspace ++ "." ++ table_name ++ " LIMIT " ++ str_int limit ++ dq;
    "print(f" ++ dq ++ "Executing query: {query}" ++ dq ++ ")";
    "";
    "# Track query performance";
    "start_time = time.time()";
    "rows = session.execute(query)";
    "end_time = time.time()";
    "";
    "# Convert rows to a list to get row count (this consumes the iterator)";
    "results = list(rows)";
    "count = len(results)";
    "";
    "print(f" ++ dq ++ "Query executed in {end_time - start_time:.4f} seconds" ++ dq ++ ")";
    "print(f" ++ dq ++ "Retrieved {count} rows from " ++ keyspace ++ "." ++ table_name ++ dq ++ ")";
    "";
    "# Print column names";
    "if count > 0:";
    "    print(" ++ dq ++ "\nColumns:" ++ dq ++ ")";
    "    for col_name in results[0]._fields:";
    "        print(f" ++ dq ++ "  - {col_name}" ++ dq ++ ")";
    "";
    "# Print the data";
    "print(" ++ dq ++ "\nData:" ++ dq ++ ")";
    "for i, row in enumerate(results):";
    "    print(f" ++ dq ++ "\nRow {i+1}:" ++ dq ++ ")";
    "    for field_name in row._fields:";
    "        print(f" ++ dq ++ "  {field_name}: {getattr(row, field_name)}" ++ dq ++ ")";
    "";
    "# Show CQL for more queries";
    "print(f" ++ dq ++ "\nMore query examples:" ++ dq ++ ")";
    "print(f" ++ dq ++ "1. Count rows: SELECT COUNT(*) FROM " ++ keyspace ++ "." ++ table_name ++ ";" ++ dq ++ ")";
    "print(f" ++ dq ++ "2. Get specific columns: SELECT id, name FROM " ++ keyspace ++ "." ++ table_name ++ " LIMIT 5;" ++ dq ++ ")";
    "print(f" ++ dq ++ "3. Filter by a column: SELECT * FROM " ++ keyspace ++ "." ++ table_name ++ " WHERE <column> = <value> ALLOW FILTERING;" ++ dq ++ ")";
    "" ].

Definition select_rows_python (keyspace table_name : string) (limit : N) : string :=
  join_lines (select_rows_python_lines keyspace table_name limit).

Definition fallback_template_lines (query : string) : list string :=
  [ "";
    "# Connect to your Cassandra cluster";
    "# ... connection code will be included in the driver code template ...";
    "";
    "# Execute the query";
    "query = " ++ dq ++ query ++ dq ++ "  # This is your natural language query";
    "print(f" ++ dq ++ "Executing query: {query}" ++ dq ++ ")";
    "";
    "# This is a placeholder. In a real application, you would perform";
    "# appropriate actions based on the query intent.";
    "result = session.execute(" ++ dq ++ "SELECT * FROM system.local" ++ dq ++ ")";
    "print(" ++ dq ++ "Query executed" ++ dq ++ ")";
    "";
    "# Print some example results";
    "for row in result:";
    "    print(row)";
    "" ].

Definition fallback_template (query : string) : string :=
  join_lines (fallback_template_lines query).

(** The fixed strings of the Java branches. *)
Definition java_large_partition : string := "Java driver code for large partition example".
Definition java_lwt : string := "Java driver code for LWT example".
Definition java_bulk_insert : string := "Java driver code for inserting rows".
Definition java_select : string := "Java driver code for selecting data".

(* ================================================================= *)
(** ** The category tests *)

Definition is_large_partition (query : string) : bool :=
  "large partition" isin query || "big partition" isin query || "test partition" isin query
  || ("partition" isin query && "size" isin query)
  || ("generate" isin query && "partition" isin query)
  || "create a large partition" isin query || "large partition example" isin query
  || (strip query =? "create large partition") || "partition large" isin query.

Definition is_lwt (query : string) : bool :=
  "lightweight" isin query || "lwt" isin query || "if not exists" isin query
  || "conditional" isin query || "create lwt" isin query || "lwt example" isin query
  || (strip query =? "lwt") || "use lwt" isin query.

Definition is_bulk_insert (query : string) : bool :=
  ("insert" isin query || "add" isin query || "create" isin query)
  && ("row" isin query || "record" isin query || "data" isin query).

Definition is_select (query : string) : bool :=
  "select" isin query || "query" isin query || "get" isin query || "retrieve" isin query
  || "show" isin query || "list" isin query || "all rows" isin query || "all records" isin query.

(* ================================================================= *)
(** ** Parameter extraction *)

(** [int(m.group(1)) if m else default] *)
Definition int_group_or (m : option match_obj) (default : N) : py N :=
  match m with
  | Some mo => int (group mo 1)
  | None => Return default
  end.

Definition large_partition_num_rows (query : string) : py N :=
  int_group_or (search re_num_rows query) 1000.

Definition large_partition_table_name (query : string) : option string :=
  match search re_table query with
  | Some table_match => group table_match 1
  | None => Some "user_activity"
  end.

Definition large_partition_key (query : string) : option string :=
  match search re_key query with
  | Some key_match => group key_match 1
  | None => Some "user_id"
  end.

Definition lwt_table_name (query : string) : option string :=
  match search re_table query with
  | Some table_match => group table_match 1
  | None => Some "users"
  end.

Definition lwt_operation_type (query : string) : string :=
  if "update" isin query then "update" else "insert".

Definition bulk_insert_num_rows (query : string) : py N :=
  int_group_or (search re_digits query) 10.

(** [m.group(1) if m.group(1) else m.group(2)] *)
Definition group_1_or_2 (m : match_obj) : option string :=
  if truthy (group m 1) then group m 1 else group m 2.

Definition bulk_insert_table_name (query : string) : option string :=
  match search re_table_into query with
  | Some table_match => group_1_or_2 table_match
  | None => Some "users"
  end.

Definition select_table_name (query : string) : option string :=
  match search re_from_table query with
  | Some table_match => group_1_or_2 table_match
  | None => Some "users"
  end.

Definition select_limit (query : string) : py N :=
  int_group_or (search re_limit query) 10.

(* ================================================================= *)
(** ** The function *)

(** The body of each [if] block of the function.  [Return None] says
    that control leaves the block without a [return]. *)

Definition large_partition_block (query keyspace driver_type : string) : py (option string) :=
  num_rows <- large_partition_num_rows query ;;
  let table_name := large_partition_table_name query in
  let partition_key := large_partition_key query in
  let partition_value := "large_partition_user" in
  if driver_type =? "python" then
    Return (Some (large_partition_python keyspace (format table_name) (format partition_key)
                    partition_value num_rows))
  else Return (Some java_large_partition).

Definition lwt_block (query keyspace driver_type : string) : py (option string) :=
  let table_name := lwt_table_name query in
  let operation_type := lwt_operation_type query in
  if driver_type =? "python" then
    if operation_type =? "insert" then
      Return (Some (lwt_insert_python keyspace (format table_name)))
    else if operation_type =? "update" then
      Return (Some (lwt_update_python keyspace (format table_name)))
    else Return None
  else Return (Some java_lwt).

Definition bulk_insert_block (query keyspace driver_type : string) : py (option string) :=
  num_rows <- bulk_insert_num_rows query ;;
  let table_name := bulk_insert_table_name query in
  if driver_type =? "python" then
    Return (Some (bulk_insert_python keyspace (format table_name) num_rows))
  else Return (Some java_bulk_insert).

Definition select_block (query keyspace driver_type : string) : py (option string) :=
  let table_name := select_table_name query in
  let count_query := "count" isin query in
  limit <- select_limit query ;;
  if driver_type =? "python" then
    if count_query then Return (Some (select_count_python keyspace (format table_name)))
    else Return (Some (select_rows_python keyspace (format table_name) limit))
  else Return (Some java_select).

(** [if cond: block], followed by the rest of the function. *)
Definition if_block (cond : bool) (block : py (option string)) (rest : py string) : py string :=
  if cond then
    result <- block ;;
    match result with
    | Some text => Return text
    | None => rest
    end
  else rest.

(** [query.lower().strip()] *)
Definition normalize (query : string) : string := strip (lower query).

Definition parse_natural_language_query (query keyspace driver_type : string) : py string :=
  let query := normalize query in
  if_block (is_large_partition query) (large_partition_block query keyspace driver_type)
  (if_block (is_lwt query) (lwt_block query keyspace driver_type)
  (if_block (is_bulk_insert query) (bulk_insert_block query keyspace driver_type)
  (if_block (is_select query) (select_block query keyspace driver_type)
  (Return (fallback_template query))))).

(* ================================================================= *)
(** ** The pipeline of the specification

    The specification describes the function as a classifier that picks
    one category, followed by a renderer for that category.  The two
    definitions below follow that description; they are compared with
    the function further down. *)

Inductive Category : Type :=
| LargePartition
| LightweightTransactionInsert
| LightweightTransactionUpdate
| BulkInsert
| Select
| SelectCount
| Unknown.

(** The ordered list of category tests.  A test that holds names its
    category; the two families with a sub-keyword choose inside. *)
Definition rules : list ((string -> bool) * (string -> Category)) :=
  [ (is_large_partition, fun _ => LargePartition);
    (is_lwt, fun query => if "update" isin query then LightweightTransactionUpdate
                          else LightweightTransactionInsert);
    (is_bulk_insert, fun _ => BulkInsert);
    (is_select, fun query => if "count" isin query then SelectCount else Select) ].

(** The first test of the list that holds wins; [Unknown] when none does. *)
Fixpoint first_match (rs : list ((string -> bool) * (string -> Category)))
    (query : string) : Category :=
  match rs with
  | [] => Unknown
  | (test, category) :: rest =>
      if test query then category query else first_match rest query
  end.

Definition category_of (query : string) : Category := first_match rules query.

Definition is_unknown (c : Category) : bool :=
  match c with
  | Unknown => true
  | _ => false
  end.

(** The template of a category for a client language, filled in. *)
Definition render (c : Category) (query keyspace driver_type : string) : py string :=
  let python := driver_type =? "python" in
  match c with
  | LargePartition =>
      num_rows <- large_partition_num_rows query ;;
      Return (if python then
                large_partition_python keyspace
                  (format (large_partition_table_name query))
                  (format (large_partition_key query))
                  "large_partition_user" num_rows
              else java_large_partition)
  | LightweightTransactionInsert =>
      Return (if python then lwt_insert_python keyspace (format (lwt_table_name query))
              else java_lwt)
  | LightweightTransactionUpdate =>
      Return (if python then lwt_update_python keyspace (format (lwt_table_name query))
              else java_lwt)
  | BulkInsert =>
      num_rows <- bulk_insert_num_rows query ;;
      Return (if python then
                bulk_insert_python keyspace (format (bulk_insert_table_name query)) num_rows
              else java_bulk_insert)
  | SelectCount =>
      limit <- select_limit query ;;
      Return (if python then select_count_python keyspace (format (select_table_name query))
              else java_select)
  | Select =>
      limit <- select_limit query ;;
      Return (if python then
                select_rows_python keyspace (format (select_table_name query)) limit
              else java_select)
  | Unknown => Return (fallback_template query)
  end.

(** The placeholder strings of the Java branches. *)
Definition java_placeholders : list string :=
  [java_large_partition; java_lwt; java_bulk_insert; java_select].

(** What the function returns for the Java driver, by category. *)
Definition java_output (c : Category) (query : string) : string :=
  match c with
  | LargePartition => java_large_partition
  | LightweightTransactionInsert | LightweightTransactionUpdate => java_lwt
  | BulkInsert => java_bulk_insert
  | Select | SelectCount => java_select
  | Unknown => fallback_template query
  end.

(** The fixed text of the fallback template before and after the
    echoed query. *)
Definition fallback_head : string :=
  join_lines
    [ "";
      "# Connect to your Cassandra cluster";
      "# ... connection code will be included in the driver code template ...";
      "";
      "# Execute the query";
      "query = " ++ dq ].

Definition fallback_tail : string :=
  join_lines
    [ dq ++ "  # This is your natural language query";
      "print(f" ++ dq ++ "Executing query: {query}" ++ dq ++ ")";
      "";
      "# This is a placeholder. In a real application, you would perform";
      "# appropriate actions based on the query intent.";
      "result = session.execute(" ++ dq ++ "SELECT * FROM system.local" ++ dq ++ ")";
      "print(" ++ dq ++ "Query executed" ++ dq ++ ")";
      "";
      "# Print some example results";
      "for row in result:";
      "    print(row)";
      "" ].

(** Keywords of the statements that write data or change the schema. *)
Definition write_keywords : list string :=
  ["insert"; "update"; "delete"; "create"; "drop"; "alter"; "truncate"; "batch"].

(** None of the keywords occurs in the text, in either case. *)
Definition mentions_none (kws : list string) (text : string) : bool :=
  forallb (fun kw => negb (kw isin lower text)) kws.


(* ================================================================= *)
(** ** Vocabulary of the statements *)

(** [needle] occurs in [hay]. *)
Definition contains (hay needle : string) : Prop :=
  exists pre post, hay = pre ++ needle ++ post.

(** [s] starts with a character of the class. *)
Definition starts (cls : char -> bool) (s : string) : bool :=
  match s with
  | EmptyString => false
  | String c _ => cls c
  end.

Fixpoint take_while (cls : char -> bool) (s : string) : string :=
  match s with
  | EmptyString => EmptyString
  | String c t => if cls c then String c (take_while cls t) else EmptyString
  end.

Fixpoint drop_while (cls : char -> bool) (s : string) : string :=
  match s with
  | EmptyString => EmptyString
  | String c t => if cls c then drop_while cls t else s
  end.

(** An identifier: a non-empty run of word characters. *)
Definition identifier (w : string) : Prop :=
  w <> EmptyString /\ all_chars is_word w = true.

(** [w] is a maximal run of word characters of [q], standing after one
    of the keywords and white space: the character before it is white
    space and the character after it, if any, is not a word character. *)
Definition word_run_after (kws : list string) (q w : string) : Prop :=
  identifier w /\
  exists pre kw sp post,
    In kw kws /\ q = pre ++ kw ++ sp ++ w ++ post /\
    sp <> EmptyString /\ all_chars is_space sp = true /\
    starts is_word post = false.

(** The run of [cls] characters after the keyword [kw] when [s] starts
    with [kw], white space and such a run. *)
Definition run_after_here (cls : char -> bool) (kw s : string) : option string :=
  match after_lit kw s with
  | Some r =>
      let r' := drop_while is_space r in
      if starts is_space r && starts cls r' then Some (take_while cls r')
      else None
  | None => None
  end.

Definition word_after_here : string -> string -> option string :=
  run_after_here is_word.

(** The same for the first keyword of the list that fits. *)
Fixpoint word_after_any_here (kws : list string) (s : string) : option string :=
  match kws with
  | [] => None
  | kw :: rest =>
      match word_after_here kw s with
      | Some w => Some w
      | None => word_after_any_here rest s
      end
  end.

(** The word that follows the leftmost occurrence of one of the
    keywords that is followed by white space and a word. *)
Definition word_after (kws : list string) (s : string) : option string :=
  leftmost (word_after_any_here kws) s.

(** Two optional results agree: both absent, or both present and related. *)
Definition opt_rel {A B : Type} (R : A -> B -> Prop) (a : option A) (b : option B) : Prop :=
  match a, b with
  | Some x, Some y => R x y
  | None, None => True
  | _, _ => False
  end.

Definition or_default (default : string) (v : option string) : string :=
  match v with
  | Some w => w
  | None => default
  end.

(** Number of positions of [hay] at which [needle] starts. *)
Fixpoint occurrences (needle hay : string) : nat :=
  (if prefix needle hay then 1 else 0) +
  match hay with
  | EmptyString => 0
  | String _ t => occurrences needle t
  end.

(* ================================================================= *)
(** ** Request validation

    The validators of the request models.  A validator receives the
    value of its field and returns the value to store, or raises
    ValueError with a message. *)

Inductive validated (A : Type) : Type :=
| Accept (value : A)
| Reject (message : string).

Arguments Accept {A} value.
Arguments Reject {A} message.

(** [not s] for a string. *)
Definition py_not (s : string) : bool :=
  match s with
  | EmptyString => true
  | String _ _ => false
  end.

(** [v in l] for a list of strings. *)
Definition str_member (v : string) (l : list string) : bool :=
  existsb (String.eqb v) l.

Definition VALID_MODES : list string := ["driver"; "execute"; "natural_language"].
Definition VALID_DRIVER_TYPES : list string := ["java"; "python"].

Module ConnectionConfig.

Record t : Type := {
  database_id : string;
  token : string;
  keyspace : string;
  region : string;
  secure_bundle : string
}.

(** The field is optional: the value is a string or [None]. *)
Definition validate_database_id (v : option string) : validated string :=
  match v with
  | None => Accept ""
  | Some s => if py_not s || py_not (strip s) then Accept "" else Accept (strip s)
  end.

Definition validate_token (v : string) : validated string :=
  if py_not v || py_not (strip v) then Reject "Token cannot be empty"
  else Accept (strip v).

Definition validate_keyspace (v : string) : validated string :=
  if py_not v || py_not (strip v) then Reject "Keyspace cannot be empty"
  else Accept (strip v).

Definition validate_region (v : string) : validated string :=
  if py_not v || py_not (strip v) then Reject "Region cannot be empty"
  else Accept (strip v).

End ConnectionConfig.

Module QueryMode.

Definition validate_mode (v : string) : validated string :=
  if negb (str_member v VALID_MODES) then
    Reject "Mode must be one of ['driver', 'execute', 'natural_language']"
  else Accept v.

(** [mode] is [values.get('mode')]: the mode when its own validation
    passed, [None] otherwise. *)
Definition validate_driver_type (v : option string) (mode : option string)
  : validated (option string) :=
  let mode_in (l : list string) :=
    match mode with Some m => str_member m l | None => false end in
  let not_v := match v with Some s => py_not s | None => true end in
  let v_not_in (l : list string) :=
    match v with Some s => negb (str_member s l) | None => true end in
  if mode_in ["driver"; "natural_language"] then
    if not_v || v_not_in VALID_DRIVER_TYPES then
      Reject "Driver type must be one of ['java', 'python'] when mode is 'driver' or 'natural_language'"
    else Accept v
  else if (match v with Some _ => true | None => false end)
          && (match mode with Some m => m =? "execute" | None => false end) then
    Reject "Driver type should not be specified when mode is 'execute'"
  else Accept v.

(** [if v and v not in valid: raise ...; return v] *)
Definition validate_choice (valid : list string) (message : string)
    (v : option string) : validated (option string) :=
  match v with
  | Some s => if negb (py_not s) && negb (str_member s valid) then Reject message
              else Accept v
  | None => Accept v
  end.

Definition valid_consistency_levels : list string :=
  ["LOCAL_ONE"; "LOCAL_QUORUM"; "ALL"; "QUORUM"; "ONE"].

Definition validate_consistency_level : option string -> validated (option string) :=
  validate_choice valid_consistency_levels
    "Consistency level must be one of ['LOCAL_ONE', 'LOCAL_QUORUM', 'ALL', 'QUORUM', 'ONE']".

Definition valid_retry_policies : list string :=
  ["DEFAULT_RETRY_POLICY"; "DOWNGRADING_CONSISTENCY_RETRY_POLICY";
   "FALLTHROUGH_RETRY_POLICY"; "NEVER_RETRY_POLICY"].

Definition validate_retry_policy : option string -> validated (option string) :=
  validate_choice valid_retry_policies
    "Retry policy must be one of ['DEFAULT_RETRY_POLICY', 'DOWNGRADING_CONSISTENCY_RETRY_POLICY', 'FALLTHROUGH_RETRY_POLICY', 'NEVER_RETRY_POLICY']".

Definition valid_load_balancing_policies : list string :=
  ["TOKEN_AWARE"; "ROUND_ROBIN"; "DC_AWARE_ROUND_ROBIN"].

Definition validate_load_balancing_policy : option string -> validated (option string) :=
  validate_choice valid_load_balancing_policies
    "Load balancing policy must be one of ['TOKEN_AWARE', 'ROUND_ROBIN', 'DC_AWARE_ROUND_ROBIN']".

End QueryMode.

(** A dictionary with string keys and values, as a list of bindings. *)
Definition dict : Type := list (string * string).



Module QueryRequest.

Record t : Type := {
  query : string;
  config : ConnectionConfig.t;
  mode : dict
}.

Definition validate_query (v : string) : validated string :=
  if py_not v || py_not (strip v) then Reject "Query cannot be empty"
  else Accept (strip v).

End QueryRequest.

(* ================================================================= *)
(** ** The endpoint

    [handle_query], the handler of POST /api/execute-query.  Its two
    [print] calls write to the log and are left out; the response is the
    dictionary it returns. *)


(* ================================================================= *)
(** ** More vocabulary *)

(** An ASCII capital letter. *)
Definition is_upper (c : char) : bool := in_range 65 90 c.

Definition not_upper (c : char) : bool := negb (is_upper c).

Definition not_digit (c : char) : bool := negb (is_digit c).

(** The text neither starts nor ends with white space. *)
Definition trimmed (s : string) : Prop :=
  starts is_space s = false /\
  forall pre c, s = pre ++ String c EmptyString -> is_space c = false.

(** The patterns of [test_lwt_pattern.py], each expected to give code
    with the marker IF NOT EXISTS. *)
Definition test_lwt_patterns : list string :=
  [ "use lwt"; "lwt"; "lightweight transaction"; "create lwt example";
    "if not exists"; "conditional update"; "use lightweight transactions" ].

(** [f] rejects a blank value with [message] and stores any other value
    trimmed; the stored value is not empty and passes [f] unchanged. *)
Definition non_blank_validator (f : string -> validated string) (message : string)
  : Prop :=
  forall v,
    if py_not (strip v) then f v = Reject message
    else f v = Accept (strip v) /\ strip v <> EmptyString /\
         trimmed (strip v) /\ f (strip v) = Accept (strip v).

(** The values a choice validator lets through. *)
Definition allowed_choice (valid : list string) (v : option string) : Prop :=
  v = None \/ v = Some EmptyString \/ exists s, v = Some s /\ In s valid.

(** [f] accepts exactly the allowed values and returns them unchanged. *)
Definition choice_validator (f : option string -> validated (option string))
    (valid : list string) : Prop :=
  forall v,
    (allowed_choice valid v -> f v = Accept v) /\
    (~ allowed_choice valid v -> exists message, f v = Reject message).

(** The code points of a range and of a table of ranges. *)
Definition chars_of_range (lo hi : N) : list char :=
  map N.of_nat (seq (N.to_nat lo) (S (N.to_nat hi) - N.to_nat lo)).

Definition chars_of_ranges (ranges : list (char * char)) : list char :=
  flat_map (fun r => chars_of_range (fst r) (snd r)) ranges.

(** [w] is a non-empty run of decimal digits of [q]. *)
Definition digit_run_of (q w : string) : Prop :=
  contains q w /\ w <> EmptyString /\ all_chars is_digit w = true.

(** [w] has more digits than [int] converts. *)
Definition too_long (w : string) : Prop := max_str_digits < String.length w.

(** No run of decimal digits of [q] is too long for [int]. *)
Definition no_long_digit_run (q : string) : Prop :=
  forall w, digit_run_of q w -> String.length w <= max_str_digits.

(** What reading a number from [q] can give: a number, or ValueError
    for a run of digits of [q] that is too long. *)
Definition number_outcome (q : string) (c : py N) : Prop :=
  match c with
  | Return _ => True
  | Raise e => e = ValueError /\ exists w, digit_run_of q w /\ too_long w
  end.

(** [c * n] *)
Fixpoint replicate (n : nat) (c : string) : string :=
  match n with
  | O => EmptyString
  | S n' => c ++ replicate n' c
  end.

(** Group 1 holds a run of digits of the text the match starts in. *)
Definition digit_run_in_group_1 (s : string) (m : match_obj) : Prop :=
  exists w, group m 1 = Some w /\ digit_run_of s w.


(** What the function can give for [q]: a non-empty text, or ValueError
    for a run of digits of [q] that is too long for [int]. *)
Definition text_outcome (q : string) (c : py string) : Prop :=
  match c with
  | Return out => out <> EmptyString
  | Raise e => e = ValueError /\ exists w, digit_run_of q w /\ too_long w
  end.

(** A query with a run of 4301 digits, one more than [int] converts. *)
Definition long_count : string := replicate 4301 "9".

(** A query that closes the string literal of the fallback template and
    carries a statement of its own on the next line. *)
Definition injected_query : string :=
  dq ++ nl ++ "session.execute(" ++ dq ++ "delete from t where a = 1" ++ dq ++ ")"
     ++ nl ++ "x = " ++ dq.

(** [c] is left as it is by [lower], whatever stands around it. *)
Definition fixed_by_lower (c : char) : bool :=
  negb (N.eqb c 931) && negb (N.eqb c 304) &&
  match lookup c lower_table with
  | Some _ => false
  | None => true
  end.

Definition not_space (c : char) : bool := negb (is_space c).

(** What [lower_from] writes for the code point [c] followed by [t]. *)
Definition lower_step (cased_before : bool) (c : char) (t : string) : string :=
  if N.eqb c 931 then
    String (if cased_before && negb (cased_follows t) then 962 else 963)%N ""
  else lower_char c.

(** The decimal number whose digits have the values of the code points
    of a run of digits. *)
Definition uint_cons (v : N) (d : Decimal.uint) : Decimal.uint :=
  match v with
  | 0 => Decimal.D0 d
  | 1 => Decimal.D1 d
  | 2 => Decimal.D2 d
  | 3 => Decimal.D3 d
  | 4 => Decimal.D4 d
  | 5 => Decimal.D5 d
  | 6 => Decimal.D6 d
  | 7 => Decimal.D7 d
  | 8 => Decimal.D8 d
  | _ => Decimal.D9 d
  end%N.

Fixpoint uint_of_digits (w : string) : Decimal.uint :=
  match w with
  | EmptyString => Decimal.Nil
  | String c t => uint_cons (digit_val c) (uint_of_digits t)
  end.

(** An ASCII digit. *)
Definition is_ascii_digit (c : char) : bool := in_range 48 57 c.

(** The text an f-string writes for [n]: ASCII digits, at most as many
    as [str] converts, that [int] reads back as [n]. *)
Definition reads_back (n : N) : Prop :=
  str_int n <> EmptyString /\
  all_chars is_ascii_digit (str_int n) = true /\
  String.length (str_int n) <= max_str_digits /\
  int (Some (str_int n)) = Return n.

(* ================================================================= *)
(** ** Strings *)

Lemma append_assoc (a b c : string) : (a ++ b) ++ c = a ++ (b ++ c).
Proof. induction a as [|x a IH]; simpl; [reflexivity | now rewrite IH]. Qed.

Lemma append_nil_r (a : string) : a ++ "" = a.
Proof. induction a as [|x a IH]; simpl; [reflexivity | now rewrite IH]. Qed.

Lemma length_append (a b : string) :
  String.length (a ++ b) = String.length a + String.length b.
Proof. induction a as [|x a IH]; simpl; [reflexivity | now rewrite IH]. Qed.

Lemma contains_refl (s : string) : contains s s.
Proof. exists "", "". now rewrite append_nil_r. Qed.

Lemma contains_trans (a b c : string) : contains a b -> contains b c -> contains a c.
Proof.
  intros (p1 & q1 & ->) (p2 & q2 & ->).
  exists (p1 ++ p2), (q2 ++ q1).
  now rewrite !append_assoc.
Qed.

Lemma contains_app_l (a b n : string) : contains a n -> contains (a ++ b) n.
Proof.
  intros (p & q & ->). exists p, (q ++ b). now rewrite !append_assoc.
Qed.

Lemma contains_app_r (a b n : string) : contains b n -> contains (a ++ b) n.
Proof.
  intros (p & q & ->). exists (a ++ p), q. now rewrite !append_assoc.
Qed.

Lemma string_eqb_spec (a b : string) : reflect (a = b) (a =? b).
Proof.
  revert b; induction a as [|x a IH]; intros [|y b]; simpl;
    try (constructor; congruence).
  destruct (N.eqb_spec x y) as [->|Hne]; simpl.
  - destruct (IH b) as [->|Hne]; constructor; congruence.
  - constructor. congruence.
Qed.

Lemma string_eqb_refl (a : string) : (a =? a) = true.
Proof. now destruct (string_eqb_spec a a). Qed.

Lemma string_eqb_eq (a b : string) : (a =? b) = true <-> a = b.
Proof. destruct (string_eqb_spec a b); split; congruence. Qed.

Lemma string_eqb_neq (a b : string) : (a =? b) = false <-> a <> b.
Proof. destruct (string_eqb_spec a b); split; congruence. Qed.

Lemma prefix_spec (a b : string) :
  prefix a b = true <-> exists post, b = a ++ post.
Proof.
  revert b; induction a as [|x a IH]; intros b.
  - split; [exists b; reflexivity | destruct b; reflexivity].
  - destruct b as [|y b]; simpl.
    + split; [discriminate | intros (post & H); discriminate].
    + destruct (N.eqb_spec x y) as [->|Hne].
      * rewrite IH. split; intros (post & H); exists post.
        -- now rewrite H.
        -- now injection H.
      * split; [discriminate | intros (post & H)]. injection H as H1 _. congruence.
Qed.

Lemma str_in_nil (needle : string) : needle isin "" = prefix needle "".
Proof. unfold str_in. apply orb_false_r. Qed.

Lemma str_in_cons (needle : string) (c : char) (hay : string) :
  needle isin String c hay = prefix needle (String c hay) || needle isin hay.
Proof. reflexivity. Qed.

Lemma str_in_spec (needle hay : string) :
  needle isin hay = true <-> contains hay needle.
Proof.
  induction hay as [|c hay IH].
  - rewrite str_in_nil, prefix_spec. split.
    + intros (post & H). exists "", post. exact H.
    + intros ([|x pre] & post & H); [exists post; exact H | discriminate].
  - rewrite str_in_cons, orb_true_iff, IH, prefix_spec. split.
    + intros [(post & H) | (pre & post & H)].
      * exists "", post. exact H.
      * exists (String c pre), post. simpl. now rewrite H.
    + intros ([|x pre] & post & H).
      * left. exists post. exact H.
      * right. exists pre, post. simpl in H. now injection H.
Qed.

Lemma join_lines_contains (l : string) (ls : list string) :
  In l ls -> contains (join_lines ls) l.
Proof.
  unfold join_lines. induction ls as [|x ls IH]; [contradiction|].
  intros [-> | Hin].
  - destruct ls; [apply contains_refl | apply contains_app_l, contains_refl].
  - destruct ls as [|y ls]; [contradiction|].
    change (contains (x ++ nl ++ String.concat nl (y :: ls)%list) l).
    apply contains_app_r, contains_app_r, IH, Hin.
Qed.

Lemma join_lines_not_empty (l : string) (ls : list string) :
  join_lines ("" :: l :: ls)%list <> "".
Proof. unfold join_lines. simpl. discriminate. Qed.

(* ================================================================= *)
(** ** Character classes *)

Lemma in_range_chars (lo hi c : N) :
  in_range lo hi c = true -> In c (chars_of_range lo hi).
Proof.
  unfold in_range, chars_of_range. intros H.
  apply andb_true_iff in H as (Hlo & Hhi).
  apply N.leb_le in Hlo, Hhi.
  apply in_map_iff. exists (N.to_nat c). split; [apply N2Nat.id|].
  apply in_seq. lia.
Qed.

Lemma in_ranges_chars (c : char) (ranges : list (char * char)) :
  in_ranges c ranges = true -> In c (chars_of_ranges ranges).
Proof.
  unfold in_ranges, chars_of_ranges. intros H.
  apply existsb_exists in H as ((lo & hi) & Hin & Hc).
  apply in_flat_map. exists (lo, hi). split; [exact Hin|].
  now apply in_range_chars.
Qed.

(** A property checked on every white space character holds of each. *)
Lemma for_all_spaces (P : char -> bool) :
  forallb P (chars_of_ranges space_ranges) = true ->
  forall c, is_space c = true -> P c = true.
Proof.
  intros Hall c Hc. rewrite forallb_forall in Hall.
  now apply Hall, in_ranges_chars.
Qed.

Lemma space_not_word (c : char) : is_space c = true -> is_word c = false.
Proof.
  intros Hc. apply negb_true_iff.
  revert c Hc. apply for_all_spaces. vm_compute. reflexivity.
Qed.

Lemma space_not_digit (c : char) : is_space c = true -> is_digit c = false.
Proof.
  intros Hc. apply negb_true_iff.
  revert c Hc. apply for_all_spaces. vm_compute. reflexivity.
Qed.

Lemma digit_not_space (c : char) : is_digit c = true -> is_space c = false.
Proof.
  intros Hd. destruct (is_space c) eqn:Hs; [|reflexivity].
  now rewrite (space_not_digit c Hs) in Hd.
Qed.

Lemma space_not_r (c : char) : is_space c = true -> N.eqb 114 c = false.
Proof.
  intros Hc. apply negb_true_iff.
  revert c Hc. apply for_all_spaces. vm_compute. reflexivity.
Qed.

(* ================================================================= *)
(** ** Runs of a character class *)

Section Runs.

Variable cls : char -> bool.

Lemma take_while_drop_while (s : string) :
  take_while cls s ++ drop_while cls s = s.
Proof.
  induction s as [|c t IH]; simpl; [reflexivity|].
  destruct (cls c); simpl; [now rewrite IH | reflexivity].
Qed.

Lemma length_drop_while (s : string) :
  String.length (drop_while cls s) <= String.length s.
Proof.
  induction s as [|c t IH]; simpl; [lia|].
  destruct (cls c); simpl; lia.
Qed.

Lemma take_drop_while (s : string) :
  take (String.length s - String.length (drop_while cls s)) s = take_while cls s.
Proof.
  induction s as [|c t IH]; [reflexivity|].
  simpl drop_while. simpl take_while. destruct (cls c).
  - pose proof (length_drop_while t) as Hle.
    replace (String.length (String c t) - String.length (drop_while cls t))
      with (S (String.length t - String.length (drop_while cls t)))
      by (cbn [String.length]; lia).
    cbn [take]. now rewrite IH.
  - now rewrite Nat.sub_diag.
Qed.

Lemma all_take_while (s : string) : all_chars cls (take_while cls s) = true.
Proof.
  induction s as [|c t IH]; simpl; [reflexivity|].
  destruct (cls c) eqn:E; simpl; [now rewrite E | reflexivity].
Qed.

Lemma take_while_not_empty (s : string) :
  starts cls s = true -> take_while cls s <> "".
Proof. destruct s as [|c t]; simpl; [discriminate|]. intros ->. discriminate. Qed.

Lemma starts_drop_while (s : string) : starts cls (drop_while cls s) = false.
Proof.
  induction s as [|c t IH]; simpl; [reflexivity|].
  destruct (cls c) eqn:E; [exact IH | simpl; exact E].
Qed.

Lemma drop_while_not_starts (s : string) :
  starts cls s = false -> drop_while cls s = s.
Proof. destruct s as [|c t]; simpl; [reflexivity|]. now intros ->. Qed.

(** A greedy run takes every character of the class when what
    follows cannot do better with fewer. *)
Lemma match_plus_greedy {A : Type} (k : string -> option A) :
  (forall s, starts cls s = true -> k (drop_while cls s) = None -> k s = None) ->
  forall s,
    match_plus cls s k = if starts cls s then k (drop_while cls s) else None.
Proof.
  intros Hk. induction s as [|c t IH]; simpl; [reflexivity|].
  destruct (cls c); [|reflexivity].
  rewrite IH. destruct (starts cls t) eqn:St.
  - destruct (k (drop_while cls t)) eqn:K; [reflexivity|].
    now apply Hk.
  - now rewrite drop_while_not_starts.
Qed.

End Runs.

(* ================================================================= *)
(** ** Matching *)

Lemma re_match_lit {A : Type} (l s : string) (m : match_obj)
    (k : string -> match_obj -> option A) :
  re_match (Lit l) s m k =
  match after_lit l s with Some s' => k s' m | None => None end.
Proof. reflexivity. Qed.

Lemma re_match_cat {A : Type} (r1 r2 : regex) (s : string) (m : match_obj)
    (k : string -> match_obj -> option A) :
  re_match (Cat r1 r2) s m k = re_match r1 s m (fun s1 m1 => re_match r2 s1 m1 k).
Proof. reflexivity. Qed.

Lemma re_match_plus {A : Type} (cls : char -> bool) (s : string) (m : match_obj)
    (k : string -> match_obj -> option A) :
  (forall s', starts cls s' = true -> k s' m = None) ->
  re_match (Plus cls) s m k = if starts cls s then k (drop_while cls s) m else None.
Proof.
  intros Hk. cbn [re_match].
  rewrite match_plus_greedy; [reflexivity|]. intros s' Hs' _. now apply Hk.
Qed.

Lemma re_match_group_plus {A : Type} (n : nat) (cls : char -> bool) (s : string)
    (m : match_obj) (k : string -> match_obj -> option A) :
  (forall s' m1 m2, starts cls s' = true -> k (drop_while cls s') m1 = None ->
                    k s' m2 = None) ->
  re_match (Group n (Plus cls)) s m k =
  if starts cls s then k (drop_while cls s) (set_group n (take_while cls s) m)
  else None.
Proof.
  intros Hk. cbn [re_match].
  rewrite match_plus_greedy.
  - now rewrite take_drop_while.
  - intros s' Hs' Hnone. eapply Hk; eassumption.
Qed.

Lemma after_lit_spec (l s r : string) : after_lit l s = Some r -> s = l ++ r.
Proof.
  revert s; induction l as [|a l IH]; intros s; simpl.
  - now intros [= ->].
  - destruct s as [|b s]; [discriminate|].
    destruct (N.eqb_spec a b) as [->|]; [|discriminate].
    intros H. now rewrite (IH _ H).
Qed.

(** [kw\s+(cls+)] with the run in group [n]. *)
Lemma match_here_kw_run (cls : char -> bool) (kw : string) (n : nat) (s : string) :
  (forall c, is_space c = true -> cls c = false) ->
  match_here (Cat (Lit kw) (Cat ws (Group n (Plus cls)))) s =
  option_map (fun w => set_group n w no_groups) (run_after_here cls kw s).
Proof.
  intros Hdisj. unfold match_here, run_after_here, ws.
  rewrite re_match_cat, re_match_lit.
  destruct (after_lit kw s) as [r|]; [|reflexivity].
  rewrite re_match_cat, re_match_plus.
  - destruct (starts is_space r); [|reflexivity]. cbn [andb].
    rewrite re_match_group_plus by (intros; discriminate).
    now destruct (starts cls (drop_while is_space r)).
  - intros s' Hs'. rewrite re_match_group_plus by (intros; discriminate).
    destruct s' as [|c t]; [discriminate|]. simpl in Hs'. simpl.
    now rewrite (Hdisj c Hs').
Qed.

(** [(\d+)\s+rows] *)
Lemma match_here_num_rows (s : string) :
  match_here re_num_rows s =
  if starts is_digit s then
    let r := drop_while is_digit s in
    if starts is_space r then
      match after_lit "rows" (drop_while is_space r) with
      | Some _ => Some (set_group 1 (take_while is_digit s) no_groups)
      | None => None
      end
    else None
  else None.
Proof.
  unfold match_here, re_num_rows, digits, ws.
  rewrite re_match_cat, re_match_group_plus.
  - destruct (starts is_digit s); [|reflexivity].
    rewrite re_match_cat, re_match_plus.
    + cbv zeta. destruct (starts is_space _); [|reflexivity].
      rewrite re_match_lit. now destruct (after_lit _ _).
    + intros [|c t] Hs'; [discriminate|]. rewrite re_match_lit.
      simpl in Hs'. cbn [after_lit]. now rewrite (space_not_r c Hs').
  - intros [|c t] m1 m2 Hs' _; [discriminate|]. simpl in Hs'.
    rewrite re_match_cat. cbn [re_match match_plus].
    now rewrite (digit_not_space c Hs').
Qed.

(** [(\d+)] *)
Lemma match_here_digits (s : string) :
  match_here re_digits s =
  if starts is_digit s then Some (set_group 1 (take_while is_digit s) no_groups)
  else None.
Proof.
  unfold match_here, re_digits, digits.
  now rewrite re_match_group_plus by (intros; discriminate).
Qed.

Lemma match_here_alt (r1 r2 : regex) (s : string) :
  match_here (Alt r1 r2) s =
  match match_here r1 s with
  | Some m => Some m
  | None => match_here r2 s
  end.
Proof. reflexivity. Qed.

(* ================================================================= *)
(** ** Leftmost search *)

Lemma leftmost_rel {A B : Type} (R : A -> B -> Prop)
    (f : string -> option A) (g : string -> option B) :
  (forall s, opt_rel R (f s) (g s)) ->
  forall s, opt_rel R (leftmost f s) (leftmost g s).
Proof.
  intros H. induction s as [|c t IH]; simpl.
  - specialize (H ""). destruct (f ""), (g ""); simpl in *; tauto.
  - specialize (H (String c t)).
    destruct (f (String c t)), (g (String c t)); simpl in *; tauto.
Qed.

Lemma leftmost_some {A : Type} (f : string -> option A) (s : string) (x : A) :
  leftmost f s = Some x -> exists pre post, s = pre ++ post /\ f post = Some x.
Proof.
  induction s as [|c t IH]; simpl.
  - destruct (f "") eqn:E; [|discriminate]. intros [= <-]. now exists "", "".
  - destruct (f (String c t)) eqn:E.
    + intros [= <-]. now exists "", (String c t).
    + intros H. destruct (IH H) as (pre & post & -> & Hf).
      now exists (String c pre), post.
Qed.

(* ================================================================= *)
(** ** Extraction of numbers *)

Lemma int_digits (w : string) :
  w <> "" -> all_chars is_digit w = true -> String.length w <= max_str_digits ->
  int (Some w) = Return (int_acc 0 w).
Proof.
  intros Hne Hall Hlen. destruct w as [|c t]; [contradiction|].
  unfold int. rewrite Hall.
  destruct (Nat.ltb_spec max_str_digits (String.length (String c t))); [lia|reflexivity].
Qed.

Lemma int_too_long (w : string) :
  w <> "" -> all_chars is_digit w = true -> too_long w ->
  int (Some w) = Raise ValueError.
Proof.
  intros Hne Hall Hlen. destruct w as [|c t]; [contradiction|].
  unfold int. rewrite Hall. unfold too_long in Hlen.
  destruct (Nat.ltb_spec max_str_digits (String.length (String c t))); [reflexivity|lia].
Qed.

Lemma take_while_prefix (cls : char -> bool) (s : string) :
  contains s (take_while cls s).
Proof.
  exists "", (drop_while cls s). simpl. now rewrite take_while_drop_while.
Qed.

Lemma digit_run_take_while (s : string) :
  starts is_digit s = true ->
  digit_run_in_group_1 s (set_group 1 (take_while is_digit s) no_groups).
Proof.
  intros Hs. exists (take_while is_digit s). split; [reflexivity|].
  split; [apply take_while_prefix|]. split.
  - now apply take_while_not_empty.
  - apply all_take_while.
Qed.

Lemma num_rows_group (s : string) (m : match_obj) :
  match_here re_num_rows s = Some m -> digit_run_in_group_1 s m.
Proof.
  rewrite match_here_num_rows. destruct (starts is_digit s) eqn:Hs; [|discriminate].
  cbv zeta. destruct (starts is_space _); [|discriminate].
  destruct (after_lit _ _); [|discriminate].
  intros [= <-]. now apply digit_run_take_while.
Qed.

Lemma digits_group (s : string) (m : match_obj) :
  match_here re_digits s = Some m -> digit_run_in_group_1 s m.
Proof.
  rewrite match_here_digits. destruct (starts is_digit s) eqn:Hs; [|discriminate].
  intros [= <-]. now apply digit_run_take_while.
Qed.

Lemma limit_group (s : string) (m : match_obj) :
  match_here re_limit s = Some m -> digit_run_in_group_1 s m.
Proof.
  unfold re_limit, digits. rewrite match_here_kw_run by apply space_not_digit.
  unfold run_after_here. destruct (after_lit _ _) as [r|] eqn:Hlit; [|discriminate].
  cbv zeta. destruct (starts is_space r); [|discriminate].
  destruct (starts is_digit _) eqn:Hs; [|discriminate].
  intros [= <-]. exists (take_while is_digit (drop_while is_space r)).
  split; [reflexivity|]. split; [|split].
  - rewrite (after_lit_spec _ _ _ Hlit).
    apply contains_app_r.
    rewrite <- (take_while_drop_while is_space r) at 1.
    apply contains_app_r, take_while_prefix.
  - now apply take_while_not_empty.
  - apply all_take_while.
Qed.

Lemma digit_run_of_suffix (pre post w : string) :
  digit_run_of post w -> digit_run_of (pre ++ post) w.
Proof. intros (Hc & H). split; [now apply contains_app_r | exact H]. Qed.

Lemma int_group_or_outcome (r : regex) (default : N) (q : string) :
  (forall s m, match_here r s = Some m -> digit_run_in_group_1 s m) ->
  number_outcome q (int_group_or (search r q) default).
Proof.
  intros Hr. unfold int_group_or, search.
  destruct (leftmost (match_here r) q) as [m|] eqn:E; [|exact I].
  destruct (leftmost_some _ _ _ E) as (pre & post & -> & Hm).
  destruct (Hr _ _ Hm) as (w & -> & Hrun).
  pose proof Hrun as (_ & Hne & Hall).
  destruct (Nat.ltb_spec max_str_digits (String.length w)) as [Hlong|Hshort].
  - rewrite int_too_long by assumption. split; [reflexivity|].
    exists w. split; [now apply digit_run_of_suffix | exact Hlong].
  - rewrite int_digits by assumption. exact I.
Qed.

Lemma large_partition_num_rows_outcome (q : string) :
  number_outcome q (large_partition_num_rows q).
Proof. apply int_group_or_outcome, num_rows_group. Qed.

Lemma bulk_insert_num_rows_outcome (q : string) :
  number_outcome q (bulk_insert_num_rows q).
Proof. apply int_group_or_outcome, digits_group. Qed.

Lemma select_limit_outcome (q : string) :
  number_outcome q (select_limit q).
Proof. apply int_group_or_outcome, limit_group. Qed.

Lemma number_returns (q : string) (c : py N) :
  no_long_digit_run q -> number_outcome q c -> exists n, c = Return n.
Proof.
  intros Hq Hc. destruct c as [n|e]; [now exists n|].
  destruct Hc as (_ & w & Hrun & Hlong). specialize (Hq w Hrun).
  unfold too_long in Hlong. lia.
Qed.

(* ================================================================= *)
(** ** Extraction of identifiers *)

Lemma word_after_here_not_empty (kw s w : string) :
  word_after_here kw s = Some w -> exists c t, w = String c t.
Proof.
  unfold word_after_here, run_after_here.
  destruct (after_lit kw s) as [r|]; [|discriminate]. cbv zeta.
  destruct (starts is_space r); [|discriminate]. cbn [andb].
  destruct (drop_while is_space r) as [|c t]; [discriminate|]. cbn [starts take_while].
  destruct (is_word c); [|discriminate]. intros [= <-]. eauto.
Qed.

(** [kw\s+(\w+)] against the word after [kw]. *)
Lemma search_keyword (kw q : string) :
  opt_rel (fun m w => group m 1 = Some w)
    (search (Cat (Lit kw) (Cat ws word)) q) (word_after [kw] q).
Proof.
  unfold search, word_after, word. apply leftmost_rel. intros s.
  rewrite match_here_kw_run by apply space_not_word.
  cbn [word_after_any_here]. fold (word_after_here kw s).
  destruct (word_after_here kw s) as [w|]; simpl; [|exact I].
  unfold group, set_group. reflexivity.
Qed.

(** [kw1\s+(\w+)|kw2\s+(\w+)] against the word after [kw1] or [kw2]. *)
Lemma search_two_keywords (kw1 kw2 q : string) :
  opt_rel (fun m w => group_1_or_2 m = Some w)
    (search (Alt (Cat (Lit kw1) (Cat ws (Group 1 (Plus is_word))))
                 (Cat (Lit kw2) (Cat ws (Group 2 (Plus is_word))))) q)
    (word_after [kw1; kw2] q).
Proof.
  unfold search, word_after. apply leftmost_rel. intros s.
  rewrite match_here_alt, !match_here_kw_run by apply space_not_word.
  cbn [word_after_any_here]. fold (word_after_here kw1 s) (word_after_here kw2 s).
  destruct (word_after_here kw1 s) as [w|] eqn:E1; simpl.
  - destruct (word_after_here_not_empty _ _ _ E1) as (c & t & ->). reflexivity.
  - destruct (word_after_here kw2 s) as [w|] eqn:E2; simpl; [reflexivity | exact I].
Qed.

Lemma word_after_here_run (kw s w : string) :
  word_after_here kw s = Some w ->
  identifier w /\
  exists sp post, s = kw ++ sp ++ w ++ post /\ sp <> "" /\
    all_chars is_space sp = true /\ starts is_word post = false.
Proof.
  unfold word_after_here, run_after_here.
  destruct (after_lit kw s) as [r|] eqn:Hlit; [|discriminate]. cbv zeta.
  destruct (starts is_space r) eqn:Hsp; [|discriminate]. cbn [andb].
  destruct (starts is_word (drop_while is_space r)) eqn:Hw; [|discriminate].
  intros [= <-]. split.
  - split; [now apply take_while_not_empty | apply all_take_while].
  - exists (take_while is_space r), (drop_while is_word (drop_while is_space r)).
    repeat split.
    + rewrite (after_lit_spec _ _ _ Hlit). f_equal.
      now rewrite !take_while_drop_while.
    + now apply take_while_not_empty.
    + apply all_take_while.
    + apply starts_drop_while.
Qed.

Lemma word_after_any_here_run (kws : list string) (s w : string) :
  word_after_any_here kws s = Some w ->
  identifier w /\
  exists kw sp post, In kw kws /\ s = kw ++ sp ++ w ++ post /\ sp <> "" /\
    all_chars is_space sp = true /\ starts is_word post = false.
Proof.
  induction kws as [|kw kws IH]; simpl; [discriminate|].
  destruct (word_after_here kw s) as [w'|] eqn:E.
  - intros [= <-]. destruct (word_after_here_run _ _ _ E) as (Hid & sp & post & H).
    split; [exact Hid|]. exists kw, sp, post. tauto.
  - intros H. destruct (IH H) as (Hid & kw' & sp & post & Hin & H').
    split; [exact Hid|]. exists kw', sp, post. tauto.
Qed.

Lemma word_after_run (kws : list string) (q w : string) :
  word_after kws q = Some w -> word_run_after kws q w.
Proof.
  unfold word_after. intros H.
  destruct (leftmost_some _ _ _ H) as (pre & s & -> & Hs).
  destruct (word_after_any_here_run _ _ _ Hs)
    as (Hid & kw & sp & post & Hin & -> & Hne & Hsp & Hpost).
  split; [exact Hid|]. exists pre, kw, sp, post. tauto.
Qed.

(** What each branch takes for the table name and the partition key,
    against the description by keywords. *)

Lemma default_or_keyword (kw default q : string) :
  match search (Cat (Lit kw) (Cat ws word)) q with
  | Some m => group m 1
  | None => Some default
  end = Some (or_default default (word_after [kw] q)).
Proof.
  pose proof (search_keyword kw q) as H.
  destruct (search _ q), (word_after [kw] q); simpl in *; tauto.
Qed.

Lemma default_or_two_keywords (kw1 kw2 default q : string) :
  match search (Alt (Cat (Lit kw1) (Cat ws (Group 1 (Plus is_word))))
                    (Cat (Lit kw2) (Cat ws (Group 2 (Plus is_word))))) q with
  | Some m => group_1_or_2 m
  | None => Some default
  end = Some (or_default default (word_after [kw1; kw2] q)).
Proof.
  pose proof (search_two_keywords kw1 kw2 q) as H.
  destruct (search _ q), (word_after [kw1; kw2] q); simpl in *; tauto.
Qed.

Lemma large_partition_table_name_eq (q : string) :
  large_partition_table_name q = Some (or_default "user_activity" (word_after ["table"] q)).
Proof. apply default_or_keyword. Qed.

Lemma large_partition_key_eq (q : string) :
  large_partition_key q = Some (or_default "user_id" (word_after ["key"] q)).
Proof. apply default_or_keyword. Qed.

Lemma lwt_table_name_eq (q : string) :
  lwt_table_name q = Some (or_default "users" (word_after ["table"] q)).
Proof. apply default_or_keyword. Qed.

Lemma bulk_insert_table_name_eq (q : string) :
  bulk_insert_table_name q = Some (or_default "users" (word_after ["table"; "into"] q)).
Proof. apply default_or_two_keywords. Qed.

Lemma select_table_name_eq (q : string) :
  select_table_name q = Some (or_default "users" (word_after ["from"; "table"] q)).
Proof. apply default_or_two_keywords. Qed.

(* ================================================================= *)
(** ** The function against the pipeline *)

Lemma category_of_eq (q : string) :
  category_of q =
  if is_large_partition q then LargePartition
  else if is_lwt q then
    if "update" isin q then LightweightTransactionUpdate
    else LightweightTransactionInsert
  else if is_bulk_insert q then BulkInsert
  else if is_select q then
    if "count" isin q then SelectCount else Select
  else Unknown.
Proof. reflexivity. Qed.

(** The cascade of [if] blocks is the classifier followed by the
    renderer of the chosen category. *)
Lemma parse_pipeline (query keyspace driver_type : string) :
  parse_natural_language_query query keyspace driver_type =
  render (category_of (normalize query)) (normalize query) keyspace driver_type.
Proof.
  unfold parse_natural_language_query. rewrite category_of_eq.
  set (q := normalize query). unfold if_block.
  destruct (is_large_partition q).
  { unfold large_partition_block, render.
    destruct (large_partition_num_rows q); cbn [bind]; [|reflexivity].
    now destruct (driver_type =? "python"). }
  destruct (is_lwt q).
  { unfold lwt_block, lwt_operation_type, render.
    destruct ("update" isin q); now destruct (driver_type =? "python"). }
  destruct (is_bulk_insert q).
  { unfold bulk_insert_block, render.
    destruct (bulk_insert_num_rows q); cbn [bind]; [|reflexivity].
    now destruct (driver_type =? "python"). }
  destruct (is_select q); [|reflexivity].
  unfold select_block, render.
  destruct ("count" isin q); destruct (select_limit q); cbn [bind];
    try reflexivity; now destruct (driver_type =? "python").
Qed.

(** The renderer gives a non-empty text, unless [int] refuses a run of
    digits of the query. *)
Lemma render_outcome (c : Category) (q keyspace driver_type : string) :
  text_outcome q (render c q keyspace driver_type).
Proof.
  pose proof (large_partition_num_rows_outcome q) as H1.
  pose proof (bulk_insert_num_rows_outcome q) as H2.
  pose proof (select_limit_outcome q) as H3.
  destruct c; unfold render;
    try destruct (large_partition_num_rows q);
    try destruct (bulk_insert_num_rows q);
    try destruct (select_limit q);
    cbn [bind text_outcome]; try assumption;
    destruct (driver_type =? "python");
    solve [apply join_lines_not_empty | discriminate].
Qed.

Lemma text_returns (q : string) (c : py string) :
  no_long_digit_run q -> text_outcome q c -> exists out, c = Return out /\ out <> "".
Proof.
  intros Hq Hc. destruct c as [out|e]; [now exists out|].
  destruct Hc as (_ & w & Hrun & Hlong). specialize (Hq w Hrun).
  unfold too_long in Hlong. lia.
Qed.

Lemma render_returns (c : Category) (q keyspace driver_type : string) :
  no_long_digit_run q ->
  exists out, render c q keyspace driver_type = Return out /\ out <> "".
Proof. intros Hq. apply (text_returns q), render_outcome. exact Hq. Qed.

(* ================================================================= *)
(** ** Facts about the templates *)

Lemma large_partition_is_not_bulk_insert
    (ks tn pk pv : string) (n : N) (ks' tn' : string) (n' : N) :
  large_partition_python ks tn pk pv n <> bulk_insert_python ks' tn' n'.
Proof.
  intros H. apply (f_equal (take 140)) in H. vm_compute in H. discriminate.
Qed.

Lemma large_partition_is_not_java_text (ks tn pk pv : string) (n : N) :
  large_partition_python ks tn pk pv n <> java_bulk_insert.
Proof.
  intros H. apply (f_equal (take 1)) in H. vm_compute in H. discriminate.
Qed.

Lemma java_text_is_not_bulk_insert (ks tn : string) (n : N) :
  java_large_partition <> bulk_insert_python ks tn n.
Proof.
  intros H. apply (f_equal (take 1)) in H. vm_compute in H. discriminate.
Qed.

Lemma fallback_template_eq (q : string) :
  fallback_template q = fallback_head ++ q ++ fallback_tail.
Proof.
  unfold fallback_template, fallback_template_lines, fallback_head, fallback_tail,
    join_lines.
  cbn [String.concat]. rewrite !append_assoc. reflexivity.
Qed.

(** A line of a template occurs in it. *)
Ltac find_line :=
  apply join_lines_contains; cbn [In];
  repeat (first [ left; reflexivity | right ]).

Lemma contains_length (q w : string) :
  contains q w -> String.length w <= String.length q.
Proof. intros (pre & post & ->). rewrite !length_append. lia. Qed.

(** A text of at most 4300 code points has no run of digits too long. *)
Lemma short_text_no_long_run (q : string) :
  String.length q <= max_str_digits -> no_long_digit_run q.
Proof.
  intros Hlen w (Hc & _). apply contains_length in Hc. lia.
Qed.

(* ================================================================= *)
(** ** Priority of the categories *)

(** C1, counterexample.  A query that passes the LargePartition test and
    the BulkInsert test, with 4301 digits before rows: the function
    returns no template, it raises ValueError. *)
Lemma large_partition_long_count_raises :
  is_large_partition (normalize ("big partition insert " ++ long_count ++ " rows"))
    = true /\
  is_bulk_insert (normalize ("big partition insert " ++ long_count ++ " rows"))
    = true /\
  parse_natural_language_query ("big partition insert " ++ long_count ++ " rows")
    "ks" "python" = Raise ValueError.
Proof. repeat split; vm_compute; reflexivity. Qed.

(** C1, amended.  The function is the renderer applied to the first rule
    of the ordered list LargePartition, LWT, BulkInsert, Select that holds
    ([Unknown] when none does).  A query whose normalized text passes both
    the LargePartition test and the BulkInsert test is classified
    LargePartition and runs the LargePartition branch: when the row count
    is read, the function returns the LargePartition template filled in
    (the fixed LargePartition string for a driver other than python),
    which is neither a BulkInsert template nor the BulkInsert string;
    otherwise it raises the ValueError of [int] for a run of more than
    4300 digits. *)
Theorem large_partition_before_bulk_insert (query keyspace driver_type : string) :
  is_large_partition (normalize query) = true ->
  is_bulk_insert (normalize query) = true ->
  category_of (normalize query) = LargePartition /\
  parse_natural_language_query query keyspace driver_type
    = render (first_match rules (normalize query)) (normalize query)
        keyspace driver_type /\
  match large_partition_num_rows (normalize query) with
  | Return num_rows =>
      exists out,
        parse_natural_language_query query keyspace driver_type = Return out /\
        out = (if driver_type =? "python" then
                 large_partition_python keyspace
                   (format (large_partition_table_name (normalize query)))
                   (format (large_partition_key (normalize query)))
                   "large_partition_user" num_rows
               else java_large_partition) /\
        (forall table_name n, out <> bulk_insert_python keyspace table_name n) /\
        out <> java_bulk_insert
  | Raise e =>
      parse_natural_language_query query keyspace driver_type = Raise e /\
      e = ValueError /\
      exists w, digit_run_of (normalize query) w /\ too_long w
  end.
Proof.
  intros Hlp _. split; [|split].
  - rewrite category_of_eq. now rewrite Hlp.
  - apply parse_pipeline.
  - pose proof (large_partition_num_rows_outcome (normalize query)) as Hn.
    rewrite parse_pipeline, category_of_eq, Hlp. unfold render.
    destruct (large_partition_num_rows (normalize query)) as [n|e]; cbn [bind].
    + eexists. split; [reflexivity|]. split; [reflexivity|].
      destruct (driver_type =? "python"); split.
      * intros tn n'. apply large_partition_is_not_bulk_insert.
      * apply large_partition_is_not_java_text.
      * intros tn n'. apply java_text_is_not_bulk_insert.
      * discriminate.
    + destruct Hn as (He & Hw). now split.
Qed.

Lemma large_partition_before_bulk_insert_witness :
  category_of (normalize "Insert 50 rows into a Large Partition") = LargePartition /\
  parse_natural_language_query "Insert 50 rows into a Large Partition" "ks" "python"
    = render (first_match rules (normalize "Insert 50 rows into a Large Partition"))
        (normalize "Insert 50 rows into a Large Partition") "ks" "python" /\
  match large_partition_num_rows (normalize "Insert 50 rows into a Large Partition") with
  | Return num_rows =>
      exists out,
        parse_natural_language_query "Insert 50 rows into a Large Partition"
          "ks" "python" = Return out /\
        out = (if "python" =? "python" then
                 large_partition_python "ks"
                   (format (large_partition_table_name
                              (normalize "Insert 50 rows into a Large Partition")))
                   (format (large_partition_key
                              (normalize "Insert 50 rows into a Large Partition")))
                   "large_partition_user" num_rows
               else java_large_partition) /\
        (forall table_name n, out <> bulk_insert_python "ks" table_name n) /\
        out <> java_bulk_insert
  | Raise e =>
      parse_natural_language_query "Insert 50 rows into a Large Partition"
        "ks" "python" = Raise e /\
      e = ValueError /\
      exists w, digit_run_of (normalize "Insert 50 rows into a Large Partition") w /\
                too_long w
  end.
Proof.
  apply (large_partition_before_bulk_insert
           "Insert 50 rows into a Large Partition" "ks" "python");
    vm_compute; reflexivity.
Defined.

(* ================================================================= *)
(** ** Totality *)

(** C2, counterexample.  For a query with a run of 4301 digits the
    BulkInsert branch hands the run to [int], which raises ValueError. *)
Lemma long_count_raises :
  parse_natural_language_query ("insert " ++ long_count ++ " rows") "ks" "python"
    = Raise ValueError /\
  parse_natural_language_query ("insert " ++ long_count ++ " rows") "ks" "java"
    = Raise ValueError.
Proof. split; vm_compute; reflexivity. Qed.

(** C2, amended.  For every query, keyspace and driver type (python and
    java among them) the function gives the rendering of the one category
    the classifier picks for the normalized query, which is [Unknown]
    exactly when none of the four tests holds.  It returns a text that is
    not empty, or raises ValueError, and this only for a run of more than
    4300 digits in the normalized query: when no run of digits is that
    long, the function returns. *)
Theorem parse_returns_one_non_empty_string (query keyspace driver_type : string) :
  parse_natural_language_query query keyspace driver_type
    = render (category_of (normalize query)) (normalize query) keyspace driver_type /\
  text_outcome (normalize query)
    (parse_natural_language_query query keyspace driver_type) /\
  is_unknown (category_of (normalize query)) =
    negb (is_large_partition (normalize query) || is_lwt (normalize query)
          || is_bulk_insert (normalize query) || is_select (normalize query)) /\
  (no_long_digit_run (normalize query) ->
   exists out,
     parse_natural_language_query query keyspace driver_type = Return out /\
     out <> "").
Proof.
  split; [apply parse_pipeline|].
  split; [rewrite parse_pipeline; apply render_outcome|].
  split.
  - rewrite category_of_eq.
    destruct (is_large_partition _); [reflexivity|].
    destruct (is_lwt _); [now destruct (_ isin _)|].
    destruct (is_bulk_insert _); [reflexivity|].
    destruct (is_select _); [now destruct (_ isin _)|reflexivity].
  - intros Hq. rewrite parse_pipeline. now apply render_returns.
Qed.

Lemma parse_returns_one_non_empty_string_witness :
  exists out,
    parse_natural_language_query "insert 5 rows" "ks" "java" = Return out /\
    out <> "".
Proof.
  apply (parse_returns_one_non_empty_string "insert 5 rows" "ks" "java").
  apply short_text_no_long_run. vm_compute. lia.
Defined.

(* ================================================================= *)
(** ** The Java driver *)

(** C3, counterexample.  For the Java driver the query asdkjasd, which
    no test recognises, is answered with the fallback template, the same
    text as for python: it is none of the placeholder strings and it
    holds a call that runs a statement.  And a BulkInsert query with 4301
    digits gets no placeholder: [int] raises before the driver test. *)
Lemma java_unknown_is_not_a_placeholder :
  parse_natural_language_query "asdkjasd" "ks" "java"
    = Return (fallback_template "asdkjasd") /\
  parse_natural_language_query "asdkjasd" "ks" "python"
    = Return (fallback_template "asdkjasd") /\
  ~ In (fallback_template "asdkjasd") java_placeholders /\
  "session.execute(" isin fallback_template "asdkjasd" = true /\
  String.length (fallback_template "asdkjasd") = 481 /\
  parse_natural_language_query ("insert " ++ long_count ++ " rows") "ks" "java"
    = Raise ValueError.
Proof.
  split; [vm_compute; reflexivity|].
  split; [vm_compute; reflexivity|].
  split; [|repeat split; vm_compute; reflexivity].
  intros H. vm_compute in H. repeat destruct H as [H | H]; try discriminate H.
  exact H.
Qed.

(** C3, amended.  For the Java driver the function, when it returns,
    returns the fixed placeholder string of the category, one of four, at
    most 44 characters long, for every category other than [Unknown]; the
    [Unknown] category returns the fallback template, whatever the driver.
    The number of a LargePartition, BulkInsert or Select query is read
    before the driver test, so the function raises ValueError instead for
    a run of more than 4300 digits, and only then. *)
Theorem java_output_by_category (query keyspace : string) :
  match parse_natural_language_query query keyspace "java" with
  | Return out => out = java_output (category_of (normalize query)) (normalize query)
  | Raise e => e = ValueError /\
               exists w, digit_run_of (normalize query) w /\ too_long w
  end /\
  match category_of (normalize query) with
  | Unknown =>
      forall driver_type,
        parse_natural_language_query query keyspace driver_type
          = Return (fallback_template (normalize query))
  | LightweightTransactionInsert | LightweightTransactionUpdate =>
      parse_natural_language_query query keyspace "java" = Return java_lwt
  | c =>
      In (java_output c (normalize query)) java_placeholders /\
      String.length (java_output c (normalize query)) <= 44
  end /\
  (no_long_digit_run (normalize query) ->
   parse_natural_language_query query keyspace "java"
     = Return (java_output (category_of (normalize query)) (normalize query))).
Proof.
  assert (Hjava : match render (category_of (normalize query)) (normalize query)
                          keyspace "java" with
                  | Return out =>
                      out = java_output (category_of (normalize query)) (normalize query)
                  | Raise e => e = ValueError /\
                               exists w, digit_run_of (normalize query) w /\ too_long w
                  end).
  { pose proof (large_partition_num_rows_outcome (normalize query)) as H1.
    pose proof (bulk_insert_num_rows_outcome (normalize query)) as H2.
    pose proof (select_limit_outcome (normalize query)) as H3.
    destruct (category_of (normalize query)); unfold render;
      try destruct (large_partition_num_rows (normalize query));
      try destruct (bulk_insert_num_rows (normalize query));
      try destruct (select_limit (normalize query));
      cbn [bind number_outcome] in *; try assumption; reflexivity. }
  rewrite !parse_pipeline. split; [exact Hjava|]. split.
  - destruct (category_of (normalize query)) eqn:E;
      try (split; [cbn; tauto | cbn; lia]); try reflexivity.
    intros d. rewrite parse_pipeline, E. reflexivity.
  - intros Hq.
    destruct (render_returns (category_of (normalize query)) (normalize query)
                keyspace "java" Hq) as (out & Hout & _).
    rewrite Hout in *. now subst out.
Qed.

Lemma java_output_by_category_witness :
  parse_natural_language_query "show 5 rows" "ks" "java"
    = Return (java_output (category_of (normalize "show 5 rows"))
                (normalize "show 5 rows")).
Proof.
  apply (java_output_by_category "show 5 rows" "ks").
  apply short_text_no_long_run. vm_compute. lia.
Defined.

(* ================================================================= *)
(** ** Worked queries *)

(** C4, counterexample.  The query count rows holds none of the
    keywords of the Select test, so it is not answered with the counting
    template: the text returned for it has no SELECT COUNT statement. *)
Lemma count_rows_is_not_a_count_query :
  is_select (normalize "count rows") = false /\
  exists out,
    parse_natural_language_query "count rows" "ks" "python" = Return out /\
    "SELECT COUNT(*)" isin out = false.
Proof.
  split; [vm_compute; reflexivity|].
  eexists. split; vm_compute; reflexivity.
Qed.

Ltac differ_within n H :=
  apply (f_equal (take n)) in H; vm_compute in H; discriminate H.

Lemma select_count_only_for_its_category
    (c : Category) (q keyspace table_name out : string) :
  render c q keyspace "python" = Return out ->
  out = select_count_python keyspace table_name -> c = SelectCount.
Proof.
  intros Hrender ->. destruct c; try reflexivity; exfalso; unfold render in Hrender;
    change ("python" =? "python") with true in Hrender; cbv iota in Hrender;
    try destruct (large_partition_num_rows q);
    try destruct (bulk_insert_num_rows q);
    try destruct (select_limit q);
    cbn [bind] in Hrender; try discriminate Hrender;
    injection Hrender as Hrender; symmetry in Hrender; differ_within 120 Hrender.
Qed.

(** C4, amended.  With the python driver the query count rows passes
    none of the four tests and is answered with the fallback template,
    which reads system.local and holds no SELECT COUNT; the counting
    template, whose statement is SELECT COUNT over the table, is what the
    function returns exactly when the query is classified SelectCount,
    that is when the Select test holds and the text holds count, as for
    select count rows. *)
Theorem count_needs_a_select_keyword (keyspace : string) :
  category_of (normalize "count rows") = Unknown /\
  parse_natural_language_query "count rows" keyspace "python"
    = Return (fallback_template "count rows") /\
  "SELECT COUNT(*)" isin fallback_template "count rows" = false /\
  contains (fallback_template "count rows")
    ("result = session.execute(" ++ dq ++ "SELECT * FROM system.local" ++ dq ++ ")") /\
  category_of (normalize "select count rows") = SelectCount /\
  parse_natural_language_query "select count rows" keyspace "python"
    = Return (select_count_python keyspace "users") /\
  contains (select_count_python keyspace "users")
    ("count_query = f" ++ dq ++ "SELECT COUNT(*) FROM " ++ keyspace ++ ".users" ++ dq) /\
  (forall query out,
     parse_natural_language_query query keyspace "python" = Return out ->
     ((exists table_name, out = select_count_python keyspace table_name) <->
      category_of (normalize query) = SelectCount)) /\
  (forall query,
     category_of (normalize query) = SelectCount <->
     is_large_partition (normalize query) = false /\
     is_lwt (normalize query) = false /\
     is_bulk_insert (normalize query) = false /\
     is_select (normalize query) = true /\
     "count" isin normalize query = true).
Proof.
  split; [vm_compute; reflexivity|].
  split; [vm_compute; reflexivity|].
  split; [vm_compute; reflexivity|].
  split; [unfold fallback_template; find_line|].
  split; [vm_compute; reflexivity|].
  split; [vm_compute; reflexivity|].
  split; [unfold select_count_python; find_line|].
  split.
  - intros query out Hparse. rewrite parse_pipeline in Hparse. split.
    + intros (tn & Hout).
      exact (select_count_only_for_its_category _ _ _ _ _ Hparse Hout).
    + intros Hc. rewrite Hc in Hparse. unfold render in Hparse.
      change ("python" =? "python") with true in Hparse. cbv iota in Hparse.
      destruct (select_limit (normalize query)); cbn [bind] in Hparse;
        [|discriminate]. injection Hparse as <-. eauto.
  - intros query. rewrite category_of_eq.
    destruct (is_large_partition _), (is_lwt _), (is_bulk_insert _), (is_select _),
      ("count" isin normalize query), ("update" isin normalize query);
      split; try discriminate; try reflexivity; intuition discriminate.
Qed.

Lemma count_needs_a_select_keyword_witness :
  (exists table_name,
     select_count_python "ks" "users" = select_count_python "ks" table_name) <->
  category_of (normalize "select count rows") = SelectCount.
Proof.
  destruct (count_needs_a_select_keyword "ks") as (_ & _ & _ & _ & _ & _ & _ & H & _).
  apply (H "select count rows"). vm_compute. reflexivity.
Defined.

(** C6.  With the python driver, insert 5 rows is answered with the
    BulkInsert template for 5 rows of the default table users, and
    insert rows into orders with the BulkInsert template for the table
    orders and the default of 10 rows. *)
Theorem bulk_insert_examples (keyspace : string) :
  category_of (normalize "insert 5 rows") = BulkInsert /\
  bulk_insert_num_rows "insert 5 rows" = Return 5%N /\
  bulk_insert_table_name "insert 5 rows" = Some "users" /\
  parse_natural_language_query "insert 5 rows" keyspace "python"
    = Return (bulk_insert_python keyspace "users" 5) /\
  contains (bulk_insert_python keyspace "users" 5) "for i in range(5):" /\
  contains (bulk_insert_python keyspace "users" 5)
    ("print(f" ++ dq ++ "Inserting 5 rows into " ++ keyspace ++ ".users..." ++ dq ++ ")") /\
  category_of (normalize "insert rows into orders") = BulkInsert /\
  search re_digits "insert rows into orders" = None /\
  bulk_insert_num_rows "insert rows into orders" = Return 10%N /\
  bulk_insert_table_name "insert rows into orders" = Some "orders" /\
  parse_natural_language_query "insert rows into orders" keyspace "python"
    = Return (bulk_insert_python keyspace "orders" 10) /\
  contains (bulk_insert_python keyspace "orders" 10) "for i in range(10):" /\
  contains (bulk_insert_python keyspace "orders" 10)
    ("print(f" ++ dq ++ "Inserting 10 rows into " ++ keyspace ++ ".orders..." ++ dq ++ ")").
Proof.
  repeat split; try (vm_compute; reflexivity);
    unfold bulk_insert_python; find_line.
Qed.

(** C7.  With the python driver, use lwt is answered with the LWT
    insert template, which holds the clause IF NOT EXISTS, and
    conditional update with the LWT update template, which holds the
    guard IF email =. *)
Theorem lwt_examples (keyspace : string) :
  category_of (normalize "use lwt") = LightweightTransactionInsert /\
  parse_natural_language_query "use lwt" keyspace "python"
    = Return (lwt_insert_python keyspace "users") /\
  contains (lwt_insert_python keyspace "users") "IF NOT EXISTS" /\
  category_of (normalize "conditional update") = LightweightTransactionUpdate /\
  parse_natural_language_query "conditional update" keyspace "python"
    = Return (lwt_update_python keyspace "users") /\
  contains (lwt_update_python keyspace "users") "IF email =".
Proof.
  repeat split; try (vm_compute; reflexivity).
  - unfold lwt_insert_python. find_line.
  - apply contains_trans with (b := "IF email = ?").
    + unfold lwt_update_python. find_line.
    + exists "", " ?". reflexivity.
Qed.

(* ================================================================= *)
(** ** Table names and identifiers *)

(** C5, counterexample.  In the Select branch the word after from
    supplies the table name: select from orders has no keyword table,
    yet the table name is orders, not the default users. *)
Lemma select_takes_the_table_after_from :
  word_after ["table"] "select from orders" = None /\
  select_table_name "select from orders" = Some "orders" /\
  select_table_name "select from orders"
    <> Some (or_default "users" (word_after ["table"] "select from orders")) /\
  parse_natural_language_query "select from orders" "ks" "python"
    = Return (select_rows_python "ks" "orders" 10).
Proof.
  split; [vm_compute; reflexivity|].
  split; [vm_compute; reflexivity|].
  split; [vm_compute; discriminate|].
  vm_compute; reflexivity.
Qed.

(** C5, amended.  The table name is the word that follows the leftmost
    occurrence of a keyword that is followed by white space and a word:
    the keyword table in the LargePartition and LWT branches, table or
    into in the BulkInsert branch, from or table in the Select branch;
    without such an occurrence it is the default, user_activity for
    LargePartition and users for the others. *)
Theorem table_name_by_keyword (query : string) :
  large_partition_table_name query
    = Some (or_default "user_activity" (word_after ["table"] query)) /\
  lwt_table_name query
    = Some (or_default "users" (word_after ["table"] query)) /\
  bulk_insert_table_name query
    = Some (or_default "users" (word_after ["table"; "into"] query)) /\
  select_table_name query
    = Some (or_default "users" (word_after ["from"; "table"] query)).
Proof.
  repeat split.
  - apply large_partition_table_name_eq.
  - apply lwt_table_name_eq.
  - apply bulk_insert_table_name_eq.
  - apply select_table_name_eq.
Qed.

Lemma identifier_or_default (default : string) (kws : list string) (q : string) :
  identifier default -> identifier (or_default default (word_after kws q)).
Proof.
  intros Hd. destruct (word_after kws q) as [w|] eqn:E; [|exact Hd].
  now destruct (word_after_run _ _ _ E).
Qed.

(** C9.  Every identifier taken from the query text, the table name
    after table, into or from and the partition key after key, is a
    maximal run of word characters: it is not empty, it holds word
    characters only, white space stands before it and no word character
    after it.  So insert rows into my-orders gives the table name my.
    What is written into the template, taken from the text or the
    default, is always an identifier. *)
Theorem extracted_identifiers_are_word_runs (query : string) :
  (forall m, search re_table query = Some m ->
     exists w, group m 1 = Some w /\ word_run_after ["table"] query w) /\
  (forall m, search re_key query = Some m ->
     exists w, group m 1 = Some w /\ word_run_after ["key"] query w) /\
  (forall m, search re_table_into query = Some m ->
     exists w, group_1_or_2 m = Some w /\ word_run_after ["table"; "into"] query w) /\
  (forall m, search re_from_table query = Some m ->
     exists w, group_1_or_2 m = Some w /\ word_run_after ["from"; "table"] query w) /\
  identifier (format (large_partition_table_name query)) /\
  identifier (format (large_partition_key query)) /\
  identifier (format (lwt_table_name query)) /\
  identifier (format (bulk_insert_table_name query)) /\
  identifier (format (select_table_name query)) /\
  bulk_insert_table_name "insert rows into my-orders" = Some "my".
Proof.
  assert (Hone : forall kw m, search (Cat (Lit kw) (Cat ws word)) query = Some m ->
            exists w, group m 1 = Some w /\ word_run_after [kw] query w).
  { intros kw m Hm. pose proof (search_keyword kw query) as H. rewrite Hm in H.
    destruct (word_after [kw] query) as [w|] eqn:E; [|contradiction].
    exists w. split; [exact H | now apply word_after_run]. }
  assert (Htwo : forall kw1 kw2 m,
            search (Alt (Cat (Lit kw1) (Cat ws (Group 1 (Plus is_word))))
                        (Cat (Lit kw2) (Cat ws (Group 2 (Plus is_word))))) query
              = Some m ->
            exists w, group_1_or_2 m = Some w /\ word_run_after [kw1; kw2] query w).
  { intros kw1 kw2 m Hm. pose proof (search_two_keywords kw1 kw2 query) as H.
    rewrite Hm in H.
    destruct (word_after [kw1; kw2] query) as [w|] eqn:E; [|contradiction].
    exists w. split; [exact H | now apply word_after_run]. }
  assert (Hdef : forall d, d = "user_activity" \/ d = "user_id" \/ d = "users" ->
            identifier d).
  { intros d [-> | [-> | ->]]; split; try discriminate; reflexivity. }
  split; [apply Hone|]. split; [apply Hone|].
  split; [apply Htwo|]. split; [apply Htwo|].
  rewrite large_partition_table_name_eq, large_partition_key_eq, lwt_table_name_eq,
    bulk_insert_table_name_eq, select_table_name_eq.
  cbn [format].
  repeat split; try (apply identifier_or_default, Hdef; tauto).
Qed.

Lemma extracted_identifiers_are_word_runs_witness :
  exists w, group_1_or_2
              (set_group 2 "my" no_groups) = Some w /\
            word_run_after ["table"; "into"] "insert rows into my-orders" w.
Proof.
  destruct (extracted_identifiers_are_word_runs "insert rows into my-orders")
    as (_ & _ & H & _).
  apply (H (set_group 2 "my" no_groups)).
  vm_compute. reflexivity.
Defined.

(* ================================================================= *)
(** ** The fallback template *)

(** C8, counterexample.  The text echoed by the fallback template is the
    normalized query, not the query as given: for HELLO the text returned
    holds hello and does not hold HELLO.  And the text returned can hold a
    statement that changes data: the query is written between the quotes
    unescaped, so a query that closes the quote and goes on with a call of
    its own on the next line puts that call into the code. *)
Lemma fallback_echo_is_lower_case :
  (exists out,
     parse_natural_language_query "HELLO" "ks" "python" = Return out /\
     "HELLO" isin out = false /\
     ("query = " ++ dq ++ "hello" ++ dq) isin out = true) /\
  (exists out,
     parse_natural_language_query injected_query "ks" "python" = Return out /\
     category_of (normalize injected_query) = Unknown /\
     (nl ++ "session.execute(" ++ dq ++ "delete from t where a = 1" ++ dq ++ ")" ++ nl)
       isin out = true).
Proof. split; eexists; repeat split; vm_compute; reflexivity. Qed.

(** C8, amended.  For every query that passes none of the four tests
    and for every driver type, python and java among them, the function
    returns the fallback template: a non-empty text made of a fixed head,
    the normalized query (lower case, trimmed) and a fixed tail.  Apart
    from the echoed query, the text runs one statement, the read of
    system.local, and names no statement that writes data or changes the
    schema. *)
Theorem fallback_echoes_normalized_query (query keyspace driver_type : string) :
  is_large_partition (normalize query) = false ->
  is_lwt (normalize query) = false ->
  is_bulk_insert (normalize query) = false ->
  is_select (normalize query) = false ->
  parse_natural_language_query query keyspace driver_type
    = Return (fallback_head ++ normalize query ++ fallback_tail) /\
  fallback_head ++ normalize query ++ fallback_tail <> "" /\
  contains fallback_tail
    ("session.execute(" ++ dq ++ "SELECT * FROM system.local" ++ dq ++ ")") /\
  occurrences "session.execute(" (fallback_head ++ fallback_tail) = 1 /\
  occurrences "session.prepare(" (fallback_head ++ fallback_tail) = 0 /\
  mentions_none write_keywords (fallback_head ++ fallback_tail) = true.
Proof.
  intros H1 H2 H3 H4. split.
  - rewrite parse_pipeline, category_of_eq, H1, H2, H3, H4.
    unfold render. now rewrite fallback_template_eq.
  - split; [discriminate|].
    split; [apply str_in_spec; vm_compute; reflexivity|].
    repeat split; vm_compute; reflexivity.
Qed.

Lemma fallback_echoes_normalized_query_witness :
  parse_natural_language_query "asdkjasd" "ks" "java"
    = Return (fallback_head ++ normalize "asdkjasd" ++ fallback_tail) /\
  fallback_head ++ normalize "asdkjasd" ++ fallback_tail <> "" /\
  contains fallback_tail
    ("session.execute(" ++ dq ++ "SELECT * FROM system.local" ++ dq ++ ")") /\
  occurrences "session.execute(" (fallback_head ++ fallback_tail) = 1 /\
  occurrences "session.prepare(" (fallback_head ++ fallback_tail) = 0 /\
  mentions_none write_keywords (fallback_head ++ fallback_tail) = true.
Proof.
  apply (fallback_echoes_normalized_query "asdkjasd" "ks" "java");
    vm_compute; reflexivity.
Defined.

(* ================================================================= *)
(** ** Substitution without escaping *)

(** C10, counterexample.  The fallback template has no field for the
    keyspace: the text returned for asdkjasd does not hold the keyspace
    it was called with. *)
Lemma fallback_has_no_keyspace :
  exists out,
    parse_natural_language_query "asdkjasd" "my_keyspace" "python" = Return out /\
    "my_keyspace" isin out = false.
Proof. eexists. split; vm_compute; reflexivity. Qed.

(** C10, amended.  The fallback template writes the normalized query
    between two double quotes as it is: the query say, quote, hi, quote
    gives an assignment line with four double quotes, the two of the
    query unescaped.  The keyspace is written as it is, followed by a dot
    and the table name, into each of the six python templates of the
    matched categories; the fallback template and the Java strings do not
    depend on the keyspace. *)
Theorem substitution_is_verbatim (keyspace table_name : string) :
  (forall query, fallback_template query = fallback_head ++ query ++ fallback_tail) /\
  (let query := "say " ++ dq ++ "hi" ++ dq in
   contains query dq /\
   parse_natural_language_query query keyspace "python"
     = Return (fallback_template query) /\
   contains (fallback_template query)
     (nl ++ "query = " ++ dq ++ "say " ++ dq ++ "hi" ++ dq ++ dq
         ++ "  # This is your natural language query" ++ nl)) /\
  (forall partition_key partition_value num_rows,
     contains (large_partition_python keyspace table_name partition_key
                 partition_value num_rows)
       ("CREATE TABLE IF NOT EXISTS " ++ keyspace ++ "." ++ table_name ++ " (")) /\
  contains (lwt_insert_python keyspace table_name)
    ("CREATE TABLE IF NOT EXISTS " ++ keyspace ++ "." ++ table_name ++ " (") /\
  contains (lwt_update_python keyspace table_name)
    ("CREATE TABLE IF NOT EXISTS " ++ keyspace ++ "." ++ table_name ++ " (") /\
  (forall num_rows,
     contains (bulk_insert_python keyspace table_name num_rows)
       ("CREATE TABLE IF NOT EXISTS " ++ keyspace ++ "." ++ table_name ++ " (")) /\
  contains (select_count_python keyspace table_name)
    ("count_query = f" ++ dq ++ "SELECT COUNT(*) FROM " ++ keyspace ++ "."
       ++ table_name ++ dq) /\
  (forall limit,
     contains (select_rows_python keyspace table_name limit)
       ("query = f" ++ dq ++ "SELECT * FROM " ++ keyspace ++ "." ++ table_name
          ++ " LIMIT " ++ str_int limit ++ dq)) /\
  (forall c query other_keyspace,
     render c query keyspace "java" = render c query other_keyspace "java") /\
  (forall query driver_type other_keyspace,
     render Unknown query keyspace driver_type
       = render Unknown query other_keyspace driver_type).
Proof.
  split; [exact fallback_template_eq|].
  split.
  { cbv zeta. split; [exists "say ", ("hi" ++ dq); reflexivity|].
    split; [vm_compute; reflexivity|].
    apply str_in_spec. vm_compute. reflexivity. }
  split; [intros; unfold large_partition_python; find_line|].
  split; [unfold lwt_insert_python; find_line|].
  split; [unfold lwt_update_python; find_line|].
  split; [intros; unfold bulk_insert_python; find_line|].
  split; [unfold select_count_python; find_line|].
  split; [intros; unfold select_rows_python; find_line|].
  split; [|reflexivity].
  intros c query other. destruct c; reflexivity.
Qed.

(* ================================================================= *)
(** ** Lower case *)

Lemma all_chars_app (cls : char -> bool) (a b : string) :
  all_chars cls (a ++ b) = all_chars cls a && all_chars cls b.
Proof.
  induction a as [|c a IH]; simpl; [reflexivity|].
  now rewrite IH, andb_assoc.
Qed.

Lemma all_chars_contains (cls : char -> bool) (s w : string) :
  contains s w -> all_chars cls s = true -> all_chars cls w = true.
Proof.
  intros (pre & post & ->). rewrite !all_chars_app, !andb_true_iff. tauto.
Qed.


Lemma lookup_in (c l : char) (table : list (char * char)) :
  lookup c table = Some l -> In (c, l) table.
Proof.
  induction table as [|(k, v) rest IH]; simpl; [discriminate|].
  destruct (N.eqb_spec k c) as [->|]; [|auto].
  intros [= ->]. now left.
Qed.

(** What [lower_char] writes satisfies [P] when the lower-case letters of
    the table do, together with the two code points of U+0130 and with
    [c] itself in case the table leaves it alone. *)
Lemma all_chars_lower_char (P : char -> bool) (c : char) :
  forallb (fun kv => P (snd kv)) lower_table = true ->
  P 105%N = true -> P 775%N = true ->
  (c <> 304%N -> lookup c lower_table = None -> P c = true) ->
  all_chars P (lower_char c) = true.
Proof.
  intros Htable Hi Hdot Hc. unfold lower_char.
  destruct (N.eqb_spec c 304) as [->|Hne]; [simpl; now rewrite Hi, Hdot|].
  destruct (lookup c lower_table) as [l|] eqn:E; simpl; rewrite andb_true_r.
  - rewrite forallb_forall in Htable. exact (Htable _ (lookup_in _ _ _ E)).
  - now apply Hc.
Qed.

Lemma all_chars_lower_from (P : char -> bool) :
  forallb (fun kv => P (snd kv)) lower_table = true ->
  P 105%N = true -> P 775%N = true -> P 962%N = true -> P 963%N = true ->
  (forall c, c <> 304%N -> lookup c lower_table = None -> P c = true) ->
  forall s cased_before, all_chars P (lower_from cased_before s) = true.
Proof.
  intros Htable Hi Hdot Hfinal Hsmall Hc.
  induction s as [|c t IH]; intros b; [reflexivity|].
  cbn [lower_from]. rewrite all_chars_app, IH, andb_true_r.
  destruct (N.eqb c 931).
  - simpl. now destruct (b && negb (cased_follows t)); rewrite ?Hfinal, ?Hsmall.
  - apply all_chars_lower_char; auto.
Qed.

Lemma fixed_by_lower_spec (c : char) :
  fixed_by_lower c = true ->
  N.eqb c 931 = false /\ lower_char c = String c "".
Proof.
  unfold fixed_by_lower, lower_char. intros H.
  apply andb_true_iff in H as (H & Hlook). apply andb_true_iff in H as (Hs & Hi).
  apply negb_true_iff in Hs, Hi. rewrite Hi. split; [exact Hs|].
  now destruct (lookup c lower_table).
Qed.

Lemma lower_output_fixed (s : string) (cased_before : bool) :
  all_chars fixed_by_lower (lower_from cased_before s) = true.
Proof.
  apply all_chars_lower_from; try (vm_compute; reflexivity).
  intros c Hne Hlook. unfold fixed_by_lower. rewrite Hlook, andb_true_r.
  apply andb_true_iff. split; apply negb_true_iff; apply N.eqb_neq; [|exact Hne].
  intros ->. vm_compute in Hlook. discriminate.
Qed.

Lemma lower_from_fixed (s : string) (cased_before : bool) :
  all_chars fixed_by_lower s = true -> lower_from cased_before s = s.
Proof.
  revert cased_before; induction s as [|c t IH]; intros b; [reflexivity|].
  cbn [all_chars lower_from]. intros H.
  apply andb_true_iff in H as (Hc & Ht).
  destruct (fixed_by_lower_spec c Hc) as (-> & ->).
  cbn [append]. now rewrite IH.
Qed.

Lemma lower_idem (s : string) : lower (lower s) = lower s.
Proof. unfold lower. apply lower_from_fixed, lower_output_fixed. Qed.

Lemma upper_in_lower_table (c : char) :
  is_upper c = true -> lookup c lower_table <> None.
Proof.
  intros Hc. apply in_range_chars in Hc.
  assert (H : forallb (fun c => match lookup c lower_table with
                                | Some _ => true
                                | None => false
                                end) (chars_of_range 65 90) = true)
    by (vm_compute; reflexivity).
  rewrite forallb_forall in H. specialize (H c Hc).
  now destruct (lookup c lower_table).
Qed.

Lemma not_upper_lower_from (s : string) (cased_before : bool) :
  all_chars not_upper (lower_from cased_before s) = true.
Proof.
  apply all_chars_lower_from; try (vm_compute; reflexivity).
  intros c _ Hlook. unfold not_upper. apply negb_true_iff.
  destruct (is_upper c) eqn:E; [|reflexivity].
  now apply upper_in_lower_table in E.
Qed.

Lemma not_upper_lower (s : string) : all_chars not_upper (lower s) = true.
Proof. apply not_upper_lower_from. Qed.

(* ================================================================= *)
(** ** White space and lower case *)

(** White space is left alone by [lower] and has no case. *)
Lemma space_has_no_case (c : char) :
  is_space c = true ->
  fixed_by_lower c = true /\ is_case_ignorable c = false /\ is_cased c = false.
Proof.
  intros Hc.
  assert (H : (fixed_by_lower c && negb (is_case_ignorable c) && negb (is_cased c))
              = true).
  { revert c Hc. apply for_all_spaces. vm_compute. reflexivity. }
  apply andb_true_iff in H as (H & H3). apply andb_true_iff in H as (H1 & H2).
  apply negb_true_iff in H2, H3. auto.
Qed.

Lemma lower_from_space (c : char) (t : string) (cased_before : bool) :
  is_space c = true ->
  lower_from cased_before (String c t) = String c (lower_from false t).
Proof.
  intros Hc. destruct (space_has_no_case c Hc) as (Hfix & Hci & Hcased).
  destruct (fixed_by_lower_spec c Hfix) as (Hs & Hl).
  cbn [lower_from]. now rewrite Hs, Hl, Hci, Hcased.
Qed.

Lemma lower_from_cons (cased_before : bool) (c : char) (t : string) :
  lower_from cased_before (String c t) =
  lower_step cased_before c t
  ++ lower_from (if is_case_ignorable c then cased_before else is_cased c) t.
Proof. reflexivity. Qed.

Lemma lower_step_not_space (cased_before : bool) (c : char) (t : string) :
  is_space c = false ->
  all_chars not_space (lower_step cased_before c t) = true.
Proof.
  intros Hc. unfold lower_step. destruct (N.eqb c 931).
  - now destruct (cased_before && negb (cased_follows t)).
  - apply all_chars_lower_char; try (vm_compute; reflexivity).
    intros _ _. unfold not_space. now rewrite Hc.
Qed.

Lemma lower_step_not_empty (cased_before : bool) (c : char) (t : string) :
  exists d u, lower_step cased_before c t = String d u.
Proof.
  unfold lower_step, lower_char. destruct (N.eqb c 931); [eauto|].
  destruct (N.eqb c 304); [eauto|]. destruct (lookup c lower_table); eauto.
Qed.

Lemma lower_lstrip (s : string) : lower (lstrip s) = lstrip (lower s).
Proof.
  unfold lower. induction s as [|c t IH]; [reflexivity|].
  cbn [lstrip]. destruct (is_space c) eqn:Hc.
  - rewrite (lower_from_space c t false Hc). cbn [lstrip]. now rewrite Hc.
  - rewrite lower_from_cons.
    pose proof (lower_step_not_space false c t Hc) as Hout.
    destruct (lower_step_not_empty false c t) as (d & u & E). rewrite E in *.
    cbn [append lstrip]. simpl in Hout. apply andb_true_iff in Hout as (Hd & _).
    unfold not_space in Hd. apply negb_true_iff in Hd. now rewrite Hd.
Qed.

Lemma rstrip_empty_app (a x : string) :
  rstrip x = "" -> rstrip (a ++ x) = rstrip a.
Proof.
  intros Hx. induction a as [|c a IH]; [exact Hx|].
  cbn [append rstrip]. now rewrite IH.
Qed.

Lemma rstrip_app (a x : string) :
  rstrip x <> "" -> rstrip (a ++ x) = a ++ rstrip x.
Proof.
  intros Hx. induction a as [|c a IH]; [reflexivity|].
  cbn [append rstrip]. rewrite IH.
  destruct (a ++ rstrip x) eqn:E; [|reflexivity].
  destruct a; [simpl in E; contradiction | discriminate].
Qed.

Lemma rstrip_not_space (a : string) :
  all_chars not_space a = true -> rstrip a = a.
Proof.
  induction a as [|c a IH]; [reflexivity|].
  cbn [all_chars rstrip]. intros H. apply andb_true_iff in H as (Hc & Ha).
  rewrite (IH Ha). unfold not_space in Hc. apply negb_true_iff in Hc.
  destruct a; [now rewrite Hc | reflexivity].
Qed.

Lemma cased_follows_rstrip (t : string) :
  cased_follows (rstrip t) = cased_follows t.
Proof.
  induction t as [|c t IH]; [reflexivity|].
  cbn [rstrip]. destruct (rstrip t) as [|d u] eqn:E.
  - destruct (is_space c) eqn:Hc.
    + destruct (space_has_no_case c Hc) as (_ & Hci & Hcased).
      cbn [cased_follows]. now rewrite Hci, Hcased.
    + cbn [cased_follows]. destruct (is_case_ignorable c); [|reflexivity].
      now rewrite <- IH.
  - cbn [cased_follows]. destruct (is_case_ignorable c); [|reflexivity].
    exact IH.
Qed.

Lemma lower_step_rstrip (cased_before : bool) (c : char) (t : string) :
  lower_step cased_before c (rstrip t) = lower_step cased_before c t.
Proof. unfold lower_step. now rewrite cased_follows_rstrip. Qed.

Lemma lower_from_rstrip (s : string) (cased_before : bool) :
  lower_from cased_before (rstrip s) = rstrip (lower_from cased_before s).
Proof.
  revert cased_before; induction s as [|c t IH]; intros b; [reflexivity|].
  set (b' := if is_case_ignorable c then b else is_cased c).
  assert (Hstep : lower_from b (String c (rstrip t))
                  = lower_step b c t ++ lower_from b' (rstrip t)).
  { rewrite lower_from_cons. now rewrite lower_step_rstrip. }
  rewrite (lower_from_cons b c t). fold b'.
  cbn [rstrip]. destruct (rstrip t) as [|d u] eqn:E.
  - assert (Hrest : rstrip (lower_from b' t) = "") by (rewrite <- IH; reflexivity).
    rewrite (rstrip_empty_app _ _ Hrest).
    destruct (is_space c) eqn:Hc.
    + destruct (space_has_no_case c Hc) as (Hfix & _).
      destruct (fixed_by_lower_spec c Hfix) as (Hs & Hl).
      unfold lower_step. rewrite Hs, Hl. cbn [rstrip]. now rewrite Hc.
    + rewrite Hstep. cbn [lower_from]. rewrite append_nil_r.
      symmetry. apply rstrip_not_space. now apply lower_step_not_space.
  - rewrite Hstep, IH. symmetry. apply rstrip_app.
    rewrite <- IH, lower_from_cons.
    destruct (lower_step_not_empty b' d u) as (x & y & ->). discriminate.
Qed.

Lemma lower_rstrip (s : string) : lower (rstrip s) = rstrip (lower s).
Proof. apply lower_from_rstrip. Qed.

Lemma lower_strip (s : string) : lower (strip s) = strip (lower s).
Proof. unfold strip. now rewrite lower_rstrip, lower_lstrip. Qed.

Lemma lstrip_drop_while (s : string) : lstrip s = drop_while is_space s.
Proof.
  induction s as [|c t IH]; simpl; [reflexivity|].
  now destruct (is_space c).
Qed.

Lemma starts_lstrip (s : string) : starts is_space (lstrip s) = false.
Proof. rewrite lstrip_drop_while. apply starts_drop_while. Qed.

Lemma lstrip_fixed (s : string) : starts is_space s = false -> lstrip s = s.
Proof. rewrite lstrip_drop_while. apply drop_while_not_starts. Qed.

Lemma rstrip_idem (s : string) : rstrip (rstrip s) = rstrip s.
Proof.
  induction s as [|c t IH]; [reflexivity|].
  cbn [rstrip]. destruct (rstrip t) as [|d u] eqn:E.
  - destruct (is_space c) eqn:Ec; [reflexivity|]. cbn [rstrip]. now rewrite Ec.
  - cbn [rstrip] in *. now rewrite IH.
Qed.

Lemma starts_rstrip (s : string) :
  starts is_space s = false -> starts is_space (rstrip s) = false.
Proof.
  destruct s as [|c t]; [reflexivity|]. cbn [starts rstrip]. intros Hc.
  destruct (rstrip t); [now rewrite Hc | exact Hc].
Qed.

Lemma rstrip_last (s pre : string) (c : char) :
  rstrip s = pre ++ String c "" -> is_space c = false.
Proof.
  revert pre; induction s as [|d t IH]; intros pre.
  - destruct pre; discriminate.
  - cbn [rstrip]. destruct (rstrip t) as [|e u] eqn:E.
    + destruct (is_space d) eqn:Ed; [destruct pre; discriminate|].
      destruct pre as [|x pre]; simpl.
      * now intros [= <-].
      * destruct pre; discriminate.
    + destruct pre as [|x pre]; simpl; [discriminate|].
      intros [= _ H]. now apply (IH pre).
Qed.

Lemma rstrip_prefix (s : string) : exists post, s = rstrip s ++ post.
Proof.
  induction s as [|c t (post & IH)]; [now exists ""|].
  cbn [rstrip]. destruct (rstrip t) as [|d u] eqn:E.
  - destruct (is_space c).
    + now exists (String c t).
    + exists post. simpl. now rewrite IH at 1.
  - exists post. simpl. simpl in IH. now rewrite IH at 1.
Qed.

Lemma lstrip_suffix (s : string) : exists pre, s = pre ++ lstrip s.
Proof.
  exists (take_while is_space s).
  now rewrite lstrip_drop_while, take_while_drop_while.
Qed.

Lemma contains_strip (s : string) : contains s (strip s).
Proof.
  unfold strip. destruct (lstrip_suffix s) as (pre & Hpre).
  destruct (rstrip_prefix (lstrip s)) as (post & Hpost).
  exists pre, post. now rewrite <- Hpost.
Qed.

Lemma strip_trimmed (s : string) : trimmed (strip s).
Proof.
  unfold strip. split.
  - apply starts_rstrip, starts_lstrip.
  - intros pre c H. now apply (rstrip_last _ _ _ H).
Qed.

Lemma strip_idem (s : string) : strip (strip s) = strip s.
Proof.
  unfold strip at 1. rewrite lstrip_fixed by apply strip_trimmed.
  unfold strip. apply rstrip_idem.
Qed.

Lemma normalize_idem (q : string) : normalize (normalize q) = normalize q.
Proof. unfold normalize. now rewrite lower_strip, lower_idem, strip_idem. Qed.

Lemma normalize_lower (q : string) : normalize (lower q) = normalize q.
Proof. unfold normalize. now rewrite lower_idem. Qed.

Lemma normalize_strip (q : string) : normalize (strip q) = normalize q.
Proof. unfold normalize. now rewrite lower_strip, strip_idem. Qed.

Lemma not_upper_normalize (q : string) : all_chars not_upper (normalize q) = true.
Proof.
  unfold normalize. rewrite <- lower_strip. apply not_upper_lower.
Qed.

(** X1.  Normalizing is idempotent, and the normalized text has no
    white space at either end and no ASCII capital letter. *)
Theorem normalize_shape (query : string) :
  normalize (normalize query) = normalize query /\
  trimmed (normalize query) /\
  all_chars not_upper (normalize query) = true.
Proof.
  split; [apply normalize_idem|]. split.
  - apply strip_trimmed.
  - apply not_upper_normalize.
Qed.

(** X2.  The function does not see the case of ASCII letters nor white
    space around the query: the query in lower case, the trimmed query
    and the normalized query all get the answer of the query itself. *)
Theorem parse_ignores_case_and_padding (query keyspace driver_type : string) :
  parse_natural_language_query (lower query) keyspace driver_type
    = parse_natural_language_query query keyspace driver_type /\
  parse_natural_language_query (strip query) keyspace driver_type
    = parse_natural_language_query query keyspace driver_type /\
  parse_natural_language_query (normalize query) keyspace driver_type
    = parse_natural_language_query query keyspace driver_type.
Proof.
  unfold parse_natural_language_query.
  now rewrite normalize_lower, normalize_strip, normalize_idem.
Qed.

(* ================================================================= *)
(** ** The category tests, simplified *)

Lemma str_in_mono (a b q : string) :
  contains b a -> b isin q = true -> a isin q = true.
Proof.
  rewrite !str_in_spec. intros Hba Hqb. now apply contains_trans with (b := b).
Qed.

Lemma str_in_absent (a b q : string) :
  contains b a -> a isin q = false -> b isin q = false.
Proof.
  intros Hba Ha. destruct (b isin q) eqn:E; [|reflexivity].
  now rewrite (str_in_mono a b q Hba E) in Ha.
Qed.

Lemma strip_eq_absent (a b q : string) :
  contains b a -> a isin q = false -> (strip q =? b) = false.
Proof.
  intros Hba Ha. destruct (string_eqb_spec (strip q) b) as [E|]; [|reflexivity].
  assert (H : a isin q = true).
  { apply str_in_spec, contains_trans with (b := b); [|exact Hba].
    rewrite <- E. apply contains_strip. }
  now rewrite H in Ha.
Qed.

Ltac part_of pre post := exists pre, post; reflexivity.

(** X3.  Three of the nine alternatives of the LargePartition test add
    nothing: every text they accept holds large partition, which the first
    alternative accepts.  The test is the disjunction of the other six. *)
Theorem is_large_partition_simplified (query : string) :
  is_large_partition query =
  "large partition" isin query || "big partition" isin query
  || "test partition" isin query
  || ("partition" isin query && "size" isin query)
  || ("generate" isin query && "partition" isin query)
  || "partition large" isin query.
Proof.
  unfold is_large_partition.
  destruct ("large partition" isin query) eqn:E; [reflexivity|].
  rewrite (str_in_absent "large partition" "create a large partition" query)
    by (assumption || part_of "create a " "").
  rewrite (str_in_absent "large partition" "large partition example" query)
    by (assumption || part_of "" " example").
  rewrite (strip_eq_absent "large partition" "create large partition" query)
    by (assumption || part_of "create " "").
  now rewrite !orb_false_r.
Qed.

(** X4.  Four of the eight alternatives of the LWT test add nothing:
    create lwt, lwt example, the text lwt alone and use lwt all hold lwt.
    The test is the disjunction of the other four. *)
Theorem is_lwt_simplified (query : string) :
  is_lwt query =
  "lightweight" isin query || "lwt" isin query || "if not exists" isin query
  || "conditional" isin query.
Proof.
  unfold is_lwt.
  destruct ("lwt" isin query) eqn:E.
  - now rewrite !orb_true_r.
  - rewrite (str_in_absent "lwt" "create lwt" query)
      by (assumption || part_of "create " "").
    rewrite (str_in_absent "lwt" "lwt example" query)
      by (assumption || part_of "" " example").
    rewrite (str_in_absent "lwt" "use lwt" query)
      by (assumption || part_of "use " "").
    rewrite (strip_eq_absent "lwt" "lwt" query)
      by (assumption || part_of "" "").
    now rewrite !orb_false_r.
Qed.

(* ================================================================= *)
(** ** The driver type *)

(** X5.  The driver type is compared with the text python and nothing
    else: every other driver type, whatever its case, gets the answer of
    the driver type java. *)
Theorem driver_other_than_python_is_java (query keyspace driver_type : string) :
  driver_type <> "python" ->
  parse_natural_language_query query keyspace driver_type
    = parse_natural_language_query query keyspace "java".
Proof.
  intros Hd. rewrite !parse_pipeline.
  assert (E : (driver_type =? "python") = false) by now apply string_eqb_neq.
  unfold render. rewrite E.
  change ("java" =? "python") with false. reflexivity.
Qed.

Lemma driver_other_than_python_is_java_witness :
  parse_natural_language_query "use lwt" "ks" "Python"
    = parse_natural_language_query "use lwt" "ks" "java".
Proof.
  apply (driver_other_than_python_is_java "use lwt" "ks" "Python").
  discriminate.
Defined.

(* ================================================================= *)
(** ** The LWT marker *)

(** X6.  For the python driver every query classified LWT, insert or
    update form, is answered with code that holds the clause
    IF NOT EXISTS, the marker [test_lwt_pattern.py] looks for; the seven
    patterns of that test are all classified LWT. *)
Theorem lwt_code_has_if_not_exists (query keyspace : string) :
  is_large_partition (normalize query) = false ->
  is_lwt (normalize query) = true ->
  (exists out,
     parse_natural_language_query query keyspace "python" = Return out /\
     contains out "IF NOT EXISTS") /\
  forallb (fun p => negb (is_large_partition (normalize p)) && is_lwt (normalize p))
    test_lwt_patterns = true.
Proof.
  intros Hlp Hlwt. split; [|vm_compute; reflexivity].
  rewrite parse_pipeline, category_of_eq, Hlp, Hlwt.
  destruct ("update" isin normalize query); unfold render;
    change ("python" =? "python") with true; cbv iota;
    eexists; (split; [reflexivity|]).
  - unfold lwt_update_python. find_line.
  - unfold lwt_insert_python. find_line.
Qed.

Lemma lwt_code_has_if_not_exists_witness :
  (exists out,
     parse_natural_language_query "Use Lightweight Transactions" "ks" "python"
       = Return out /\
     contains out "IF NOT EXISTS") /\
  forallb (fun p => negb (is_large_partition (normalize p)) && is_lwt (normalize p))
    test_lwt_patterns = true.
Proof.
  apply (lwt_code_has_if_not_exists "Use Lightweight Transactions" "ks");
    vm_compute; reflexivity.
Defined.

(* ================================================================= *)
(** ** Row counts and limits *)

Lemma take_while_app (cls : char -> bool) (w post : string) :
  all_chars cls w = true -> starts cls post = false ->
  take_while cls (w ++ post) = w.
Proof.
  intros Hw Hpost. induction w as [|c t IH]; simpl.
  - destruct post as [|d u]; [reflexivity|]. simpl in *. now rewrite Hpost.
  - simpl in Hw. apply andb_true_iff in Hw as (Hc & Ht).
    now rewrite Hc, IH.
Qed.

Lemma leftmost_here {A : Type} (f : string -> option A) (s : string) (x : A) :
  f s = Some x -> leftmost f s = Some x.
Proof. intros H. destruct s; simpl; now rewrite H. Qed.

Lemma search_first_digit_run (pre w post : string) :
  all_chars not_digit pre = true ->
  w <> "" -> all_chars is_digit w = true -> starts is_digit post = false ->
  search re_digits (pre ++ w ++ post) = Some (set_group 1 w no_groups).
Proof.
  intros Hpre Hne Hw Hpost. unfold search.
  induction pre as [|c pre IH].
  - change ("" ++ w ++ post) with (w ++ post).
    apply leftmost_here. rewrite match_here_digits.
    rewrite (take_while_app is_digit w post Hw Hpost).
    destruct w as [|d t]; [contradiction|]. cbn [append starts].
    simpl in Hw. now destruct (is_digit d).
  - simpl in Hpre. apply andb_true_iff in Hpre as (Hc & Hpre).
    change (String c pre ++ w ++ post) with (String c (pre ++ w ++ post)).
    cbn [leftmost]. rewrite match_here_digits. cbn [starts].
    unfold not_digit in Hc. apply negb_true_iff in Hc. rewrite Hc.
    now apply IH.
Qed.

(** X7.  In the BulkInsert branch the row count is the first run of
    decimal digits of the text, wherever it stands: before the run there
    is no digit, the run is not followed by a digit, and its value is the
    count; a run of more than 4300 digits makes [int] raise ValueError. *)
Theorem bulk_insert_rows_is_first_digit_run (pre w post : string) :
  all_chars not_digit pre = true ->
  w <> "" -> all_chars is_digit w = true -> starts is_digit post = false ->
  bulk_insert_num_rows (pre ++ w ++ post) =
  if max_str_digits <? String.length w then Raise ValueError
  else Return (int_acc 0 w).
Proof.
  intros Hpre Hne Hw Hpost. unfold bulk_insert_num_rows.
  rewrite (search_first_digit_run pre w post Hpre Hne Hw Hpost).
  unfold int_group_or, group, set_group. cbn [Nat.eqb].
  destruct (Nat.ltb_spec max_str_digits (String.length w)).
  - now apply int_too_long.
  - now apply int_digits.
Qed.

Lemma bulk_insert_rows_is_first_digit_run_witness :
  bulk_insert_num_rows ("add data into table t" ++ "٣2" ++ " for 30 days") =
  if max_str_digits <? String.length "٣2" then Raise ValueError
  else Return (int_acc 0 "٣2").
Proof.
  apply (bulk_insert_rows_is_first_digit_run "add data into table t" "٣2" " for 30 days");
    (vm_compute; reflexivity) || discriminate.
Defined.

Lemma leftmost_none_absent {A : Type} (f : string -> option A) (q kw : string) :
  (forall s x, f s = Some x -> contains s kw) ->
  kw isin q = false -> leftmost f q = None.
Proof.
  intros Hf Habsent. destruct (leftmost f q) as [x|] eqn:E; [|reflexivity].
  destruct (leftmost_some _ _ _ E) as (pre & post & -> & Hx).
  assert (H : kw isin (pre ++ post) = true).
  { apply str_in_spec, contains_app_r. exact (Hf _ _ Hx). }
  now rewrite H in Habsent.
Qed.

Lemma run_after_here_keyword (cls : char -> bool) (kw s w : string) :
  run_after_here cls kw s = Some w -> contains s kw.
Proof.
  unfold run_after_here. destruct (after_lit kw s) as [r|] eqn:E; [|discriminate].
  intros _. exists "", r. exact (after_lit_spec _ _ _ E).
Qed.

Lemma match_here_num_rows_keyword (s : string) (m : match_obj) :
  match_here re_num_rows s = Some m -> contains s "rows".
Proof.
  rewrite match_here_num_rows. destruct (starts is_digit s); [|discriminate].
  cbv zeta. destruct (starts is_space _); [|discriminate].
  destruct (after_lit _ _) as [x|] eqn:E; [|discriminate]. intros _.
  apply after_lit_spec in E.
  rewrite <- (take_while_drop_while is_digit s).
  rewrite <- (take_while_drop_while is_space (drop_while is_digit s)), E.
  apply contains_app_r, contains_app_r. now exists "", x.
Qed.

Lemma match_here_limit_keyword (s : string) (m : match_obj) :
  match_here re_limit s = Some m -> contains s "limit".
Proof.
  unfold re_limit, digits. rewrite match_here_kw_run by apply space_not_digit.
  destruct (run_after_here is_digit "limit" s) as [w|] eqn:E; [|discriminate].
  intros _. exact (run_after_here_keyword _ _ _ _ E).
Qed.

Lemma search_digits_none (q : string) :
  all_chars not_digit q = true -> search re_digits q = None.
Proof.
  intros Hq. unfold search.
  destruct (leftmost (match_here re_digits) q) as [m|] eqn:E; [|reflexivity].
  destruct (leftmost_some _ _ _ E) as (pre & post & -> & Hm).
  rewrite all_chars_app in Hq. apply andb_true_iff in Hq as (_ & Hpost).
  rewrite match_here_digits in Hm.
  destruct post as [|c t]; [discriminate|].
  simpl in Hpost, Hm. unfold not_digit in Hpost.
  destruct (is_digit c); [discriminate | discriminate].
Qed.

(** X8.  A number falls back to its default when the text lacks what its
    pattern needs: 1000 rows for a LargePartition text without rows, 10
    rows for a BulkInsert text without a digit, limit 10 for a Select text
    without limit. *)
Theorem numbers_default_when_absent (query : string) :
  ("rows" isin query = false -> large_partition_num_rows query = Return 1000%N) /\
  (all_chars not_digit query = true -> bulk_insert_num_rows query = Return 10%N) /\
  ("limit" isin query = false -> select_limit query = Return 10%N).
Proof.
  repeat split.
  - intros H. unfold large_partition_num_rows, search.
    now rewrite (leftmost_none_absent _ query "rows" match_here_num_rows_keyword H).
  - intros H. unfold bulk_insert_num_rows. now rewrite search_digits_none.
  - intros H. unfold select_limit, search.
    now rewrite (leftmost_none_absent _ query "limit" match_here_limit_keyword H).
Qed.

Lemma numbers_default_when_absent_witness :
  large_partition_num_rows "big partition with one row" = Return 1000%N /\
  bulk_insert_num_rows "big partition with one row" = Return 10%N /\
  select_limit "big partition with one row" = Return 10%N.
Proof.
  destruct (numbers_default_when_absent "big partition with one row")
    as (H1 & H2 & H3).
  split; [apply H1 | split; [apply H2 | apply H3]]; vm_compute; reflexivity.
Defined.

(* ================================================================= *)
(** ** Integers and their decimal text *)

Lemma int_acc_of_uint_acc (d : Decimal.uint) (acc : positive) :
  int_acc (Npos acc) (string_of_uint d) = Npos (Pos.of_uint_acc d acc).
Proof.
  revert acc; induction d; intros acc;
    cbn [string_of_uint int_acc Pos.of_uint_acc];
    [reflexivity | rewrite <- IHd; f_equal ..];
    match goal with
    | |- context [digit_val ?c] =>
        let v := eval vm_compute in (digit_val c) in change (digit_val c) with v
    end; lia.
Qed.

Lemma int_acc_of_uint (d : Decimal.uint) :
  int_acc 0 (string_of_uint d) = N.of_uint d.
Proof.
  induction d; cbn [string_of_uint int_acc];
    [reflexivity | exact IHd | apply (int_acc_of_uint_acc d) ..].
Qed.

Lemma string_of_uint_ascii_digits (d : Decimal.uint) :
  all_chars is_ascii_digit (string_of_uint d) = true.
Proof.
  induction d; cbn [string_of_uint all_chars];
    [reflexivity | rewrite IHd; reflexivity ..].
Qed.

Lemma ascii_digit_is_digit (s : string) :
  all_chars is_ascii_digit s = true -> all_chars is_digit s = true.
Proof.
  induction s as [|c t IH]; [reflexivity|]. cbn [all_chars].
  intros H. apply andb_true_iff in H as (Hc & Ht). rewrite (IH Ht), andb_true_r.
  unfold is_digit, in_ranges, digit_ranges. cbn [existsb fst snd].
  unfold is_ascii_digit in Hc. now rewrite Hc.
Qed.

Lemma length_string_of_uint (d : Decimal.uint) :
  String.length (string_of_uint d) = Decimal.nb_digits d.
Proof. induction d; cbn [string_of_uint String.length Decimal.nb_digits]; congruence. Qed.

Lemma str_int_not_empty (n : N) : str_int n <> "".
Proof.
  unfold str_int. intros H.
  assert (Hnil : N.to_uint n = Decimal.Nil).
  { destruct (N.to_uint n); simpl in H; [reflexivity | discriminate ..]. }
  pose proof (DecimalN.Unsigned.of_to n) as Hn. rewrite Hnil in Hn.
  cbn in Hn. subst n. discriminate Hnil.
Qed.

Lemma digit_val_bound (c : char) : (digit_val c < 10)%N.
Proof.
  unfold digit_val.
  destruct (find (fun r => in_range (fst r) (snd r) c) digit_ranges); [|lia].
  apply N.mod_lt. lia.
Qed.

Lemma digit_val_cases (c : char) :
  (digit_val c = 0 \/ digit_val c = 1 \/ digit_val c = 2 \/ digit_val c = 3
   \/ digit_val c = 4 \/ digit_val c = 5 \/ digit_val c = 6 \/ digit_val c = 7
   \/ digit_val c = 8 \/ digit_val c = 9)%N.
Proof. pose proof (digit_val_bound c). lia. Qed.

Lemma int_acc_digits_pos (w : string) (acc : positive) :
  int_acc (Npos acc) w = Npos (Pos.of_uint_acc (uint_of_digits w) acc).
Proof.
  revert acc; induction w as [|c t IH]; intros acc; [reflexivity|].
  cbn [int_acc uint_of_digits].
  destruct (digit_val_cases c) as [E | [E | [E | [E | [E | [E | [E | [E | [E | E]]]]]]]]];
    rewrite E; cbn [uint_cons Pos.of_uint_acc]; rewrite <- IH; f_equal; lia.
Qed.

Lemma int_acc_digits (w : string) :
  int_acc 0 w = N.of_uint (uint_of_digits w).
Proof.
  induction w as [|c t IH]; [reflexivity|].
  cbn [int_acc uint_of_digits].
  destruct (digit_val_cases c) as [E | [E | [E | [E | [E | [E | [E | [E | [E | E]]]]]]]]];
    rewrite E; cbn [uint_cons N.mul N.add];
    [exact IH | apply int_acc_digits_pos ..].
Qed.

Lemma nb_digits_uint_of_digits (w : string) :
  Decimal.nb_digits (uint_of_digits w) = String.length w.
Proof.
  induction w as [|c t IH]; [reflexivity|].
  cbn [uint_of_digits String.length]. rewrite <- IH.
  unfold uint_cons. destruct (digit_val c) as [|[[[[]|[]|]|[[]|[]|]|]|[[[]|[]|]|[[]|[]|]|]|]];
    reflexivity.
Qed.

(** The text written for the value of a run of digits is not longer than
    the run. *)
Lemma length_str_int_digits (w : string) :
  w <> "" -> String.length (str_int (int_acc 0 w)) <= String.length w.
Proof.
  intros Hne. unfold str_int.
  rewrite int_acc_digits, DecimalN.Unsigned.to_of, length_string_of_uint.
  rewrite <- nb_digits_uint_of_digits.
  apply DecimalFacts.nb_digits_unorm.
  destruct w as [|c t]; [contradiction|]. cbn [uint_of_digits].
  unfold uint_cons. destruct (digit_val c) as [|[[[[]|[]|]|[[]|[]|]|]|[[[]|[]|]|[[]|[]|]|]|]];
    discriminate.
Qed.

Lemma reads_back_short (n : N) :
  String.length (str_int n) <= max_str_digits -> reads_back n.
Proof.
  intros Hlen. split; [apply str_int_not_empty|].
  split; [apply string_of_uint_ascii_digits|]. split; [exact Hlen|].
  rewrite int_digits.
  - unfold str_int. now rewrite int_acc_of_uint, DecimalN.Unsigned.of_to.
  - apply str_int_not_empty.
  - apply ascii_digit_is_digit, string_of_uint_ascii_digits.
  - exact Hlen.
Qed.

Lemma int_group_or_reads_back (r : regex) (default : N) (q : string) (n : N) :
  (forall s m, match_here r s = Some m -> digit_run_in_group_1 s m) ->
  reads_back default ->
  int_group_or (search r q) default = Return n -> reads_back n.
Proof.
  intros Hr Hdefault. unfold int_group_or, search.
  destruct (leftmost (match_here r) q) as [m|] eqn:E; [|now intros [= <-]].
  destruct (leftmost_some _ _ _ E) as (pre & post & _ & Hm).
  destruct (Hr _ _ Hm) as (w & -> & _ & Hne & Hall).
  destruct (Nat.ltb_spec max_str_digits (String.length w)) as [Hlong|Hshort].
  - rewrite int_too_long by assumption. discriminate.
  - rewrite int_digits by assumption. intros [= <-].
    apply reads_back_short.
    pose proof (length_str_int_digits w Hne). lia.
Qed.

(** X9.  Every number the function takes from the query or from its
    defaults, a row count or a limit, is written into the code as a
    non-empty run of ASCII digits that [int] reads back as the same
    number; the run has at most 4300 digits, so [str] never meets the
    limit that [int] enforces. *)
Theorem numbers_in_code_read_back (query : string) (n : N) :
  large_partition_num_rows query = Return n \/
  bulk_insert_num_rows query = Return n \/
  select_limit query = Return n ->
  reads_back n.
Proof.
  intros [H | [H | H]];
    [ apply (int_group_or_reads_back re_num_rows 1000 query n num_rows_group)
    | apply (int_group_or_reads_back re_digits 10 query n digits_group)
    | apply (int_group_or_reads_back re_limit 10 query n limit_group) ];
    try exact H; apply reads_back_short; vm_compute; lia.
Qed.

Lemma numbers_in_code_read_back_witness : reads_back 7.
Proof.
  apply (numbers_in_code_read_back "insert ٠٠٧ rows" 7).
  right; left. vm_compute. reflexivity.
Defined.

(* ================================================================= *)
(** ** Identifiers: case and defaults *)

Lemma word_run_contains (kws : list string) (q w : string) :
  word_run_after kws q w -> contains q w.
Proof.
  intros (_ & pre & kw & sp & post & _ & -> & _).
  exists (pre ++ kw ++ sp), post. now rewrite !append_assoc.
Qed.

Lemma word_run_keyword (kws : list string) (q w : string) :
  word_run_after kws q w -> exists kw, In kw kws /\ kw isin q = true.
Proof.
  intros (_ & pre & kw & sp & post & Hin & -> & _).
  exists kw. split; [exact Hin|]. apply str_in_spec. now exists pre, (sp ++ w ++ post).
Qed.

Lemma not_upper_or_default (default : string) (kws : list string) (query : string) :
  all_chars not_upper default = true ->
  all_chars not_upper (or_default default (word_after kws (normalize query))) = true.
Proof.
  intros Hd. destruct (word_after kws (normalize query)) as [w|] eqn:E; [|exact Hd].
  cbn [or_default]. apply all_chars_contains with (s := normalize query).
  - apply word_run_contains with (kws := kws), word_after_run, E.
  - apply not_upper_normalize.
Qed.

(** X10.  The table name and the partition key written into a template
    never hold an ASCII capital letter: a name given as Orders in the
    query reaches the generated code as orders. *)
Theorem identifiers_are_lower_case (query : string) :
  all_chars not_upper (format (large_partition_table_name (normalize query))) = true /\
  all_chars not_upper (format (large_partition_key (normalize query))) = true /\
  all_chars not_upper (format (lwt_table_name (normalize query))) = true /\
  all_chars not_upper (format (bulk_insert_table_name (normalize query))) = true /\
  all_chars not_upper (format (select_table_name (normalize query))) = true /\
  format (bulk_insert_table_name (normalize "Insert rows INTO Orders")) = "orders".
Proof.
  rewrite large_partition_table_name_eq, large_partition_key_eq, lwt_table_name_eq,
    bulk_insert_table_name_eq, select_table_name_eq.
  cbn [format].
  split; [now apply not_upper_or_default|].
  split; [now apply not_upper_or_default|].
  split; [now apply not_upper_or_default|].
  split; [now apply not_upper_or_default|].
  split; [now apply not_upper_or_default|].
  rewrite bulk_insert_table_name_eq. vm_compute. reflexivity.
Qed.

Lemma word_after_absent (kws : list string) (q : string) :
  forallb (fun kw => negb (kw isin q)) kws = true -> word_after kws q = None.
Proof.
  intros Habsent. destruct (word_after kws q) as [w|] eqn:E; [|reflexivity].
  destruct (word_run_keyword kws q w (word_after_run _ _ _ E)) as (kw & Hin & Hkw).
  rewrite forallb_forall in Habsent. specialize (Habsent kw Hin).
  now rewrite Hkw in Habsent.
Qed.

(** X11.  An identifier is the default when the text holds none of the
    keywords of its pattern: user_activity or users without table (and,
    by branch, without into or from), user_id without key. *)
Theorem identifiers_default_when_absent (query : string) :
  ("table" isin query = false ->
     large_partition_table_name query = Some "user_activity" /\
     lwt_table_name query = Some "users") /\
  ("key" isin query = false -> large_partition_key query = Some "user_id") /\
  ("table" isin query = false -> "into" isin query = false ->
     bulk_insert_table_name query = Some "users") /\
  ("from" isin query = false -> "table" isin query = false ->
     select_table_name query = Some "users").
Proof.
  rewrite large_partition_table_name_eq, large_partition_key_eq, lwt_table_name_eq,
    bulk_insert_table_name_eq, select_table_name_eq.
  repeat split; intros;
    rewrite word_after_absent; try reflexivity; cbn [forallb];
    repeat match goal with H : _ isin _ = false |- _ => rewrite H; clear H end;
    reflexivity.
Qed.

Lemma identifiers_default_when_absent_witness :
  (large_partition_table_name "show 5 rows" = Some "user_activity" /\
   lwt_table_name "show 5 rows" = Some "users") /\
  large_partition_key "show 5 rows" = Some "user_id" /\
  bulk_insert_table_name "show 5 rows" = Some "users" /\
  select_table_name "show 5 rows" = Some "users".
Proof.
  destruct (identifiers_default_when_absent "show 5 rows") as (H1 & H2 & H3 & H4).
  split; [apply H1 | split; [apply H2 | split; [apply H3 | apply H4]]];
    vm_compute; reflexivity.
Defined.

(* ================================================================= *)
(** ** Validators *)

Lemma strip_empty : strip "" = "".
Proof. reflexivity. Qed.

Lemma blank_test (v : string) : py_not v || py_not (strip v) = py_not (strip v).
Proof. destruct v; [reflexivity|]. reflexivity. Qed.

Lemma non_blank_validator_intro (f : string -> validated string) (message : string) :
  (forall v, f v = if py_not v || py_not (strip v) then Reject message
                   else Accept (strip v)) ->
  non_blank_validator f message.
Proof.
  intros Hf v. rewrite !Hf, !blank_test, strip_idem.
  destruct (strip v) as [|c t] eqn:E; cbn [py_not]; [reflexivity|].
  split; [reflexivity|]. split; [discriminate|].
  split; [rewrite <- E; apply strip_trimmed | reflexivity].
Qed.

(** X12.  The validators of token, keyspace, region and query reject
    exactly the values that are empty or all white space, each with its
    own message; any other value is stored trimmed, and the stored value
    is not empty and passes the same validator unchanged. *)
Theorem blank_values_are_rejected :
  non_blank_validator ConnectionConfig.validate_token "Token cannot be empty" /\
  non_blank_validator ConnectionConfig.validate_keyspace "Keyspace cannot be empty" /\
  non_blank_validator ConnectionConfig.validate_region "Region cannot be empty" /\
  non_blank_validator QueryRequest.validate_query "Query cannot be empty".
Proof. repeat split; apply non_blank_validator_intro; reflexivity. Qed.

(** X13.  The validator of the database id never rejects: a missing,
    empty or blank id is stored as the empty string and any other id
    trimmed; the stored id passes the validator unchanged. *)
Theorem database_id_is_never_rejected (v : option string) :
  exists w,
    ConnectionConfig.validate_database_id v = Accept w /\
    w = match v with Some s => strip s | None => "" end /\
    trimmed w /\
    ConnectionConfig.validate_database_id (Some w) = Accept w.
Proof.
  assert (H : forall s, ConnectionConfig.validate_database_id (Some s) = Accept (strip s)).
  { intros s. unfold ConnectionConfig.validate_database_id. rewrite blank_test.
    destruct (strip s); reflexivity. }
  destruct v as [s|].
  - exists (strip s). rewrite !H, strip_idem.
    split; [reflexivity|]. split; [reflexivity|].
    split; [apply strip_trimmed | reflexivity].
  - exists "". split; [reflexivity|]. split; [reflexivity|].
    split; [apply (strip_trimmed "") | reflexivity].
Qed.

Lemma str_member_spec (v : string) (l : list string) :
  str_member v l = true <-> In v l.
Proof.
  unfold str_member. rewrite existsb_exists. split.
  - intros (x & Hin & Heq). apply string_eqb_eq in Heq. now subst.
  - intros Hin. exists v. split; [exact Hin | apply string_eqb_refl].
Qed.

(** X14.  When the mode passed its validator and the driver type passes
    its own, the two agree: mode execute comes with no driver type, and
    mode driver or natural_language with driver type java or python.
    When the mode did not pass, and so is absent from the validated
    values, every driver type is let through, whatever it is. *)
Theorem mode_and_driver_type_agree (mode : string) (v : option string) :
  (forall any, QueryMode.validate_driver_type any None = Accept any) /\
  (QueryMode.validate_mode mode = Accept mode ->
   QueryMode.validate_driver_type v (Some mode) = Accept v ->
   (mode = "execute" /\ v = None) \/
   ((mode = "driver" \/ mode = "natural_language") /\
    (v = Some "java" \/ v = Some "python"))).
Proof.
  split; [now intros [s|]|].
  intros Hmode Hdriver.
  unfold QueryMode.validate_mode in Hmode.
  destruct (str_member mode VALID_MODES) eqn:Hin; [|discriminate].
  apply str_member_spec in Hin.
  unfold QueryMode.validate_driver_type in Hdriver.
  destruct (str_member mode ["driver"; "natural_language"]) eqn:Hreq.
  - right. apply str_member_spec in Hreq.
    split; [destruct Hreq as [<- | [<- | []]]; [now left | now right]|].
    destruct v as [s|]; [|discriminate].
    destruct (str_member s VALID_DRIVER_TYPES) eqn:E.
    + apply str_member_spec in E. cbn in E.
      destruct E as [<- | [<- | []]]; [now left | now right].
    + rewrite orb_true_r in Hdriver. discriminate.
  - left.
    assert (Hexec : mode = "execute").
    { destruct Hin as [<- | [<- | [<- | []]]]; [discriminate | reflexivity | discriminate]. }
    split; [exact Hexec|]. subst mode.
    destruct v as [s|]; [discriminate | reflexivity].
Qed.

Lemma mode_and_driver_type_agree_witness :
  ("natural_language" = "execute" /\ Some "python" = None) \/
  (("natural_language" = "driver" \/ "natural_language" = "natural_language") /\
   (Some "python" = Some "java" \/ Some "python" = Some "python")).
Proof.
  apply (mode_and_driver_type_agree "natural_language" (Some "python"));
    reflexivity.
Defined.

Lemma validate_choice_spec (valid : list string) (message : string) :
  choice_validator (QueryMode.validate_choice valid message) valid.
Proof.
  intros v. unfold QueryMode.validate_choice, allowed_choice. split.
  - intros [-> | [-> | (s & -> & Hin)]]; try reflexivity.
    apply str_member_spec in Hin. rewrite Hin.
    now rewrite andb_false_r.
  - intros Hnot. destruct v as [s|]; [|exfalso; apply Hnot; now left].
    destruct s as [|c t]; [exfalso; apply Hnot; right; now left|].
    cbn [py_not negb andb].
    destruct (str_member (String c t) valid) eqn:E.
    + exfalso. apply Hnot. right. right. exists (String c t).
      split; [reflexivity | now apply str_member_spec].
    + now exists message.
Qed.

(** X15.  The validators of consistency level, retry policy and load
    balancing policy let through a missing value, the empty string and
    the names of their list, unchanged, and reject every other value. *)
Theorem policy_validators_accept_listed_or_empty :
  choice_validator QueryMode.validate_consistency_level
    QueryMode.valid_consistency_levels /\
  choice_validator QueryMode.validate_retry_policy QueryMode.valid_retry_policies /\
  choice_validator QueryMode.validate_load_balancing_policy
    QueryMode.valid_load_balancing_policies.
Proof. repeat split; apply validate_choice_spec. Qed.

(* ================================================================= *)
(** ** The endpoint *)






